(** * Stock Price Predictions dashboard (app.py): a shallow embedding

    The program is a Streamlit page that downloads a daily price frame,
    draws technical indicators and fits a regressor on the Close column.
    Every numerical routine lives in a third-party package (pandas, ta,
    scikit-learn, yfinance, streamlit); the file below embeds the code of
    app.py itself and takes those packages as interfaces. *)

From Stdlib Require Import PrimFloat Ascii String.
From stdpp Require Import gmap strings list.

Set Default Proof Using "Type".
Set Warnings "-inexact-float".

(** ** Values held by a frame *)

(** datetime.date, ordered as the tuple (year, month, day). *)
Record date := Date { year : Z; month : Z; day : Z }.

Global Instance date_eq_dec : EqDecision date.
Proof. solve_decision. Defined.

Global Instance date_countable : Countable date.
Proof.
  refine (inj_countable' (fun d => (year d, month d, day d))
                         (fun t => Date t.1.1 t.1.2 t.2) _).
  by intros [].
Defined.

Definition date_lt (a b : date) : bool :=
  if bool_decide (year a = year b)
  then if bool_decide (month a = month b)
       then bool_decide (day a < day b)%Z
       else bool_decide (month a < month b)%Z
  else bool_decide (year a < year b)%Z.

(** A cell of a column: a float64 (NaN marks a missing value), an int64
    or a timestamp of the Date column. *)
Inductive cell :=
| Num (x : float)
| Int (n : Z)
| Stamp (d : date).

Definition NaN : cell := Num nan.

(** pandas isnull on one cell. *)
Definition isnull (c : cell) : bool :=
  match c with
  | Num x => is_nan x
  | Int _ | Stamp _ => false
  end.

Definition notnull (c : cell) : bool := negb (isnull c).

Definition Series := list cell.
(** A 2-D array as numpy lays it out: a list of rows. *)
Definition matrix := list (list cell).

(** ** pandas: the operations app.py calls *)

Module pd.

(** A frame with a RangeIndex: its labelled columns, in order. *)
Definition DataFrame := list (string * Series).

Definition columns (df : DataFrame) : list string := df.*1.

Definition nrows (df : DataFrame) : nat :=
  match df with
  | [] => 0
  | (_, s) :: _ => length s
  end.

(** df[label], read as a series: the column stored under the label.
    Under a duplicated label pandas hands back a frame of all the
    columns of that label instead; [getitem] then gives the first of
    them, so it stands for df[label] on the labels that are not
    duplicated ([duplicated] below), and every statement that reads a
    column through it says so. *)
Fixpoint getitem (label : string) (df : DataFrame) : option Series :=
  match df with
  | [] => None
  | (l, s) :: rest => if String.eqb l label then Some s else getitem label rest
  end.

(** label in df.columns *)
Definition has_column (label : string) (df : DataFrame) : bool :=
  existsb (String.eqb label) (columns df).

(** The columns stored under a label, in order: more than one when the
    label is duplicated. *)
Definition labelled (label : string) (df : DataFrame) : DataFrame :=
  List.filter (fun c => String.eqb c.1 label) df.

(** The label is stored more than once: df[label] is a frame. *)
Definition duplicated (label : string) (df : DataFrame) : bool :=
  1 <? length (labelled label df).

(** df.columns.is_unique *)
Fixpoint distinct (labels : list string) : bool :=
  match labels with
  | [] => true
  | l :: rest => negb (existsb (String.eqb l) rest) && distinct rest
  end.

Definition distinct_labels (df : DataFrame) : bool := distinct (columns df).

(** Index alignment of a RangeIndex series against a frame of n rows:
    positions beyond the series are NaN, positions beyond the frame are
    dropped. *)
Definition align (n : nat) (s : Series) : Series :=
  take n s ++ replicate (n - length s) NaN.

Fixpoint replace_column (label : string) (s : Series) (df : DataFrame) : DataFrame :=
  match df with
  | [] => []
  | (l, old) :: rest =>
      if String.eqb l label then (l, s) :: rest
      else (l, old) :: replace_column label s rest
  end.

(** df[label] = s: overwrite the column when the label exists, append
    it as the last column otherwise. A frame without columns takes the
    length of the series. *)
Definition setitem (label : string) (s : Series) (df : DataFrame) : DataFrame :=
  match df with
  | [] => [(label, s)]
  | _ =>
      if has_column label df then replace_column label (align (nrows df) s) df
      else df ++ [(label, align (nrows df) s)]
  end.

(** Series.shift(-k): every value moves k rows up; the last k rows are
    filled with NaN; the length is kept. *)
Definition shift_up (k : nat) (s : Series) : Series :=
  drop k s ++ replicate (k `min` length s) NaN.

(** Keep the entries of [xs] whose mask bit is set. *)
Fixpoint select {A} (mask : list bool) (xs : list A) : list A :=
  match mask, xs with
  | b :: mask', x :: xs' => if b then x :: select mask' xs' else select mask' xs'
  | _, _ => []
  end.

(** The row mask of dropna: a row stays when no column is null there. *)
Fixpoint complete_rows (n : nat) (df : DataFrame) : list bool :=
  match df with
  | [] => replicate n true
  | (_, s) :: rest => zip_with andb (notnull <$> s) (complete_rows n rest)
  end.

(** df.dropna() *)
Definition dropna (df : DataFrame) : DataFrame :=
  let mask := complete_rows (nrows df) df in
  (fun c => (c.1, select mask c.2)) <$> df.

(** df.drop(columns=[label]) *)
Definition drop_column (label : string) (df : DataFrame) : DataFrame :=
  List.filter (fun c => negb (String.eqb c.1 label)) df.

(** df.values: one row per index entry, one entry per column. *)
Fixpoint values_of (n : nat) (df : DataFrame) : matrix :=
  match df with
  | [] => replicate n []
  | (_, s) :: rest => zip_with cons s (values_of n rest)
  end.

Definition values (df : DataFrame) : matrix := values_of (nrows df) df.

(** df[[label]]: the frame made of the columns stored under the label,
    all of them when the label is duplicated; None (KeyError) when there
    is none. *)
Definition getitems (label : string) (df : DataFrame) : option DataFrame :=
  match labelled label df with
  | [] => None
  | cols => Some cols
  end.

(** pd.DataFrame({l1: c1, l2: c2}): the columns must have one length. *)
Definition of_dict (l1 : string) (c1 : Series) (l2 : string) (c2 : Series) : option DataFrame :=
  if bool_decide (length c1 = length c2) then Some [(l1, c1); (l2, c2)] else None.

(** df.tail(k) *)
Definition tail (k : nat) (df : DataFrame) : DataFrame :=
  (fun c => (c.1, drop (length c.2 - k) c.2)) <$> df.

(** a[-k:] on an array: the last k rows, and the whole array when k = 0. *)
Definition last_rows {A} (k : nat) (a : list A) : list A :=
  match k with
  | 0 => a
  | _ => drop (length a - k) a
  end.

End pd.

(** The rows (Close, Target) of the two-column frame that dropna keeps:
    those where neither value is missing. *)
Definition kept_rows (c t : Series) : list (cell * cell) :=
  List.filter (fun row => notnull row.1 && notnull row.2) (zip c t).

(** ** Exceptions *)

Inductive exn := Exception (msg : string).

Inductive result (A : Type) :=
| Ok (a : A)
| Raise (e : exn).
Arguments Ok {A} a.
Arguments Raise {A} e.

(** The call ended with an exception. *)
Definition raised {A} (r : result A) : bool :=
  match r with
  | Raise _ => true
  | Ok _ => false
  end.

(** ** The third-party packages, as interfaces *)

(** yfinance: what [yf.download] hands back before any clean-up: a frame
    indexed by day, whose column labels are flat or hierarchical. *)
Module yf.

Inductive col_index :=
| Index (labels : list string)
| MultiIndex (labels : list (list string)).

Record Frame := {
  index_name : string;
  index : list date;
  columns : col_index;
  data : list Series;
}.

(** df.empty: one of the two axes has length 0. *)
Definition empty (df : Frame) : bool :=
  bool_decide (length (index df) = 0) || bool_decide (length (data df) = 0).

End yf.

(** The request key of one download: (symbol, start, end). *)
Definition Key : Type := string * date * date.

Class YFinance := {
  (** [download k n]: the answer of the source to the n-th download of
      the session (the source may answer differently over time). *)
  download : Key -> nat -> result yf.Frame;
}.

(** What [Series.squeeze()] returns: the series, or its only element. *)
Inductive squeezed :=
| Scalar (c : cell)
| Column (s : Series).

(** ta: each indicator class is built from the squeezed Close values and
    asked for one derived series; building or asking may raise. *)
Class TA := {
  bollinger_hband : squeezed -> result Series;
  bollinger_lband : squeezed -> result Series;
  macd : squeezed -> result Series;
  rsi : squeezed -> result Series;
  sma_indicator : squeezed -> nat -> result Series;
  ema_indicator : squeezed -> result Series;
}.

(** The five regressors of the model menu, each built with its default
    arguments (no random_state is passed to any of them). *)
Inductive estimator :=
| LinearRegression
| RandomForestRegressor
| ExtraTreesRegressor
| KNeighborsRegressor
| XGBRegressor.

Global Instance estimator_eq_dec : EqDecision estimator.
Proof. solve_decision. Defined.

(** scikit-learn (and xgboost behind the same fit/predict interface).
    [fit] reads the state of the process-wide random generator, which an
    estimator built without random_state draws from, and returns the
    state it leaves behind. *)
Class Sklearn := {
  scaler : Type;
  fitted : Type;
  StandardScaler_fit : matrix -> result scaler;
  StandardScaler_transform : scaler -> matrix -> result matrix;
  train_test_split :
    matrix -> Series -> float -> Z -> result (matrix * matrix * Series * Series);
  fit : estimator -> nat -> matrix -> Series -> result (fitted * nat);
  predict_with : fitted -> matrix -> result (list float);
  r2_score : Series -> list float -> result float;
  mean_absolute_error : Series -> list float -> result float;
}.

(** ** Streamlit: elements, widgets and the data cache *)

Module st.

Record line := Line {
  line_name : string;
  line_x : Series;
  line_y : Series;
  line_style : string;
}.

Record figure := Figure { title : string; lines : list line }.

(** What a run puts on the page. [write] keeps the number whose
    two-decimal rendering is displayed. *)
Inductive element :=
| error (msg : string)
| sidebar_error (msg : string)
| sidebar_success (start_date end_date : date)
| header (text : string)
| subheader (text : string)
| write (label : string) (v : float)
| dataframe (df : pd.DataFrame)
| plotly_chart (fig : figure).

(** The widget values one script run reads. *)
Record Widgets := {
  option : string;          (* sidebar selectbox 'Select an option' *)
  stock_symbol : string;    (* sidebar text input, before .upper() *)
  start_date : date;
  end_date : date;
  load_data : bool;         (* sidebar button 'Load Data' *)
  indicator : string;       (* radio 'Choose a Technical Indicator:' *)
  model_choice : string;    (* selectbox 'Choose a model:' *)
  days_forecast : nat;      (* slider 1..30 *)
  predict_button : bool;    (* button 'Predict' *)
}.

End st.

(** ** The session *)

Definition ref := nat.

(** The interactions of a run with the page and the packages, oldest
    first. *)
Inductive event :=
| Shown (e : st.element)
| Download (k : Key)
| ScalerFit (X : matrix)
| Split (X : matrix) (y : Series) (test_size : float) (random_state : Z)
| ModelFit (model : estimator) (X : matrix) (y : Series)
| Predict (X : matrix).

(** One entry of the [st.cache_data] store: the pickled return value
    (None or a frame) and the elements the call displayed, replayed on a
    hit. *)
Record CacheEntry := {
  cached_value : option pd.DataFrame;
  cached_elements : list st.element;
}.

Record World := {
  trace : list event;
  cache : gmap Key CacheEntry;
  heap : list pd.DataFrame;   (* frame objects, addressed by position *)
  rng : nat;                  (* state of the process-wide generator *)
}.

Definition set_trace (tr : list event) (w : World) : World :=
  {| trace := tr; cache := cache w; heap := heap w; rng := rng w |}.
Definition set_cache (c : gmap Key CacheEntry) (w : World) : World :=
  {| trace := trace w; cache := c; heap := heap w; rng := rng w |}.
Definition set_heap (h : list pd.DataFrame) (w : World) : World :=
  {| trace := trace w; cache := cache w; heap := h; rng := rng w |}.
Definition set_rng (g : nat) (w : World) : World :=
  {| trace := trace w; cache := cache w; heap := heap w; rng := g |}.

Definition App (A : Type) : Type := World -> result A * World.

Definition ret {A} (a : A) : App A := fun w => (Ok a, w).

Definition bind {A B} (m : App A) (k : A -> App B) : App B := fun w =>
  match m w with
  | (Ok a, w') => k a w'
  | (Raise e, w') => (Raise e, w')
  end.

Notation "'let*' x ':=' m 'in' k" := (bind m (fun x => k))
  (at level 10, x pattern, m at level 100, k at level 200).
Notation "m ';;' k" := (bind m (fun _ => k))
  (at level 100, k at level 200, right associativity).

Definition raise {A} (e : exn) : App A := fun w => (Raise e, w).

Definition lift {A} (r : result A) : App A := fun w => (r, w).

Definition emit (e : event) : App unit := fun w =>
  (Ok tt, set_trace (trace w ++ [e]) w).

Definition show (e : st.element) : App unit := emit (Shown e).

(** The frame object behind a reference. *)
Definition frame_at (w : World) (r : ref) : option pd.DataFrame := heap w !! r.

Definition deref (r : ref) : App pd.DataFrame := fun w =>
  match frame_at w r with
  | Some df => (Ok df, w)
  | None => (Raise (Exception "dangling reference"), w)
  end.

(** A new frame object. *)
Definition new (df : pd.DataFrame) : App ref := fun w =>
  (Ok (length (heap w)), set_heap (heap w ++ [df]) w).

(** In-place update of a frame object. *)
Definition modify (r : ref) (f : pd.DataFrame -> pd.DataFrame) : App unit := fun w =>
  match frame_at w r with
  | Some df => (Ok tt, set_heap (<[r := f df]> (heap w)) w)
  | None => (Raise (Exception "dangling reference"), w)
  end.

(** df[label] on a frame object: KeyError when the label is absent. *)
Definition column (r : ref) (label : string) : App Series :=
  let* df := deref r in
  match pd.getitem label df with
  | Some s => ret s
  | None => raise (Exception ("'" +:+ label +:+ "'"))
  end.

Definition shown (w : World) : list st.element :=
  omap (fun e => match e with Shown x => Some x | _ => None end) (trace w).

Definition downloads (w : World) : list Key :=
  omap (fun e => match e with Download k => Some k | _ => None end) (trace w).

(** [@st.cache_data]: on a hit the stored elements are replayed and a
    fresh copy of the stored value is returned; on a miss the function
    runs, and when it returns, its return value and the elements it
    displayed are stored under the arguments. An exception is not stored. *)
Definition cache_data (f : Key -> App (option ref)) (k : Key) : App (option ref) := fun w =>
  match cache w !! k with
  | Some entry =>
      (let* _ := fun w0 =>
         (Ok tt, set_trace (trace w0 ++ (Shown <$> cached_elements entry)) w0) in
       match cached_value entry with
       | Some df => let* r := new df in ret (Some r)
       | None => ret None
       end) w
  | None =>
      match f k w with
      | (Ok res, w') =>
          let entry := {| cached_value := res ≫= frame_at w';
                          cached_elements :=
                            omap (fun e => match e with Shown x => Some x | _ => None end)
                                 (drop (length (trace w)) (trace w')) |} in
          (Ok res, set_cache (<[k := entry]> (cache w')) w')
      | (Raise e, w') => (Raise e, w')
      end
  end.

(** ** Python built-ins used on strings and sequences *)

Module py.

(** sep.join(parts) *)
Fixpoint join (sep : string) (parts : list string) : string :=
  match parts with
  | [] => ""
  | [p] => p
  | p :: rest => p +:+ sep +:+ join sep rest
  end.

(** s.split(sep) for a one-character separator: never empty. *)
Fixpoint split (sep : ascii) (s : string) : list string :=
  match s with
  | EmptyString => [EmptyString]
  | String c s' =>
      if Ascii.eqb c sep then EmptyString :: split sep s'
      else match split sep s' with
           | [] => [String c EmptyString]
           | p :: ps => String c p :: ps
           end
  end.

(** c in s, for a one-character c *)
Fixpoint contains (c : ascii) (s : string) : bool :=
  match s with
  | EmptyString => false
  | String a s' => Ascii.eqb a c || contains c s'
  end.

(** The characters str.strip() removes (within ASCII). *)
Definition is_space (c : ascii) : bool :=
  let n := nat_of_ascii c in
  (9 <=? n) && (n <=? 13) || (28 <=? n) && (n <=? 32).

Fixpoint lstrip (s : string) : string :=
  match s with
  | EmptyString => EmptyString
  | String c s' => if is_space c then lstrip s' else s
  end.

Fixpoint rstrip (s : string) : string :=
  match s with
  | EmptyString => EmptyString
  | String c s' =>
      match rstrip s' with
      | EmptyString => if is_space c then EmptyString else String c EmptyString
      | t => String c t
      end
  end.

Definition strip (s : string) : string := rstrip (lstrip s).

Definition upper_char (c : ascii) : ascii :=
  let n := nat_of_ascii c in
  if (97 <=? n) && (n <=? 122) then ascii_of_nat (n - 32) else c.

(** s.upper() (within ASCII) *)
Fixpoint upper (s : string) : string :=
  match s with
  | EmptyString => EmptyString
  | String c s' => String (upper_char c) (upper s')
  end.

(** range(a, b) *)
Definition range (a b : nat) : list Z := Z.of_nat <$> seq a (b - a).

(** s.isascii() *)
Fixpoint is_ascii (s : string) : bool :=
  match s with
  | EmptyString => true
  | String c s' => (nat_of_ascii c <? 128) && is_ascii s'
  end.

Definition hex_digit (n : nat) : ascii :=
  ascii_of_nat (if n <? 10 then 48 + n else 87 + n).

(** One character inside repr(s), with [quote] the quote repr chose:
    the quote and the backslash get a backslash in front, tab, newline
    and carriage return are spelled with their letters, any other
    control character is written as x and two hexadecimal digits after a
    backslash. *)
Definition repr_char (quote c : ascii) : string :=
  let n := nat_of_ascii c in
  let escaped (s : string) : string := String "092" s in
  if Ascii.eqb c quote || Ascii.eqb c "092" then escaped (String c EmptyString)
  else if n =? 9 then escaped "t"
  else if n =? 10 then escaped "n"
  else if n =? 13 then escaped "r"
  else if (n <? 32) || (n =? 127) then
    escaped (String "x" (String (hex_digit (n / 16))
                           (String (hex_digit (n mod 16)) EmptyString)))
  else String c EmptyString.

Fixpoint repr_chars (quote : ascii) (s : string) : string :=
  match s with
  | EmptyString => EmptyString
  | String c s' => repr_char quote c +:+ repr_chars quote s'
  end.

(** repr(s) of a str (within ASCII): single quotes, unless the text has
    a single quote and no double quote. *)
Definition repr (s : string) : string :=
  let quote : ascii :=
    if contains "'" s && negb (contains "034" s) then "034"%char else "'"%char in
  String quote (repr_chars quote s +:+ String quote EmptyString).

(** repr of a list of strings, as an f-string prints it. *)
Definition repr_list (l : list string) : string :=
  "[" +:+ join ", " (repr <$> l) +:+ "]".

(** str of a tuple of strings *)
Definition repr_tuple (l : list string) : string :=
  "(" +:+ join ", " (repr <$> l) +:+ (if length l =? 1 then "," else "") +:+ ")".

End py.

(** ** app.py *)

Section app.

Context {source : YFinance} {ta : TA} {sk : Sklearn}.

(** try: body / except Exception as e: handler(e) *)
Definition try_except {A} (body : App A) (handler : string -> App A) : App A := fun w =>
  match body w with
  | (Raise (Exception msg), w') => handler msg w'
  | done => done
  end.

(** yf.download(symbol, start=start_date, end=end_date, progress=False) *)
Definition yf_download (k : Key) : App yf.Frame := fun w =>
  (emit (Download k);; lift (download k (length (downloads w)))) w.

(** The label df.reset_index() gives the column it makes of the index:
    the index name, padded with empty strings to the depth of a
    hierarchical header. *)
Definition index_key (df : yf.Frame) : list string :=
  match yf.columns df with
  | yf.Index _ => [yf.index_name df]
  | yf.MultiIndex labels =>
      let nlevels := match labels with l :: _ => length l | [] => 1 end in
      yf.index_name df :: replicate (nlevels - 1) ""
  end.

(** A column already carries that label. *)
Definition index_clash (df : yf.Frame) : bool :=
  match yf.columns df with
  | yf.Index labels => existsb (String.eqb (yf.index_name df)) labels
  | yf.MultiIndex labels => existsb (fun label => bool_decide (label = index_key df)) labels
  end.

(** df.reset_index(inplace=True): the index becomes the first column;
    pandas refuses to insert a label that a column already carries. *)
Definition reset_index (df : yf.Frame) : result (yf.col_index * list Series) :=
  let index_column := Stamp <$> yf.index df in
  if index_clash df then
    let label :=
      match yf.columns df with
      | yf.Index _ => yf.index_name df
      | yf.MultiIndex _ => py.repr_tuple (index_key df)
      end in
    Raise (Exception ("cannot insert " +:+ label +:+ ", already exists"))
  else
    match yf.columns df with
    | yf.Index labels =>
        Ok (yf.Index (yf.index_name df :: labels), index_column :: yf.data df)
    | yf.MultiIndex labels =>
        Ok (yf.MultiIndex (index_key df :: labels), index_column :: yf.data df)
    end.

(** ['_'.join(col).strip() for col in df.columns], when the header is a
    MultiIndex *)
Definition flatten_columns (cols : yf.col_index) : list string :=
  match cols with
  | yf.Index labels => labels
  | yf.MultiIndex labels => (fun col => py.strip (py.join "_" col)) <$> labels
  end.

(** col.split('_')[0] if '_' in col else col *)
Definition rename_column (col : string) : string :=
  if py.contains "_" col then default "" (head (py.split "_" col)) else col.

Definition normalize_columns (cols : yf.col_index) : list string :=
  rename_column <$> flatten_columns cols.

(** The body of download_data (the function under the decorator). *)
Definition download_data_body (k : Key) : App (option ref) :=
  try_except
    (let* df := yf_download k in
     if yf.empty df then
       show (st.error "⚠️ No data found for the given stock symbol and date range.");;
       ret None
     else
       let* (cols, data) := lift (reset_index df) in
       let* r := new (zip (normalize_columns cols) data) in
       ret (Some r))
    (fun e =>
       show (st.error ("❌ Error downloading data: " +:+ e));;
       ret None).

Definition download_data : Key -> App (option ref) := cache_data download_data_body.

(** The label df.reset_index() gives the column it makes of an unnamed
    index: index, or level_0 when the frame has an index column; no
    label is left when it has both. *)
Definition index_label (df : pd.DataFrame) : option string :=
  if negb (pd.has_column "index" df) then Some "index"
  else if negb (pd.has_column "level_0" df) then Some "level_0"
  else None.

(** The frame df.reset_index() returns for a frame with a RangeIndex. *)
Definition with_index_column (df : pd.DataFrame) : result pd.DataFrame :=
  match index_label df with
  | Some label => Ok ((label, Int <$> py.range 0 (pd.nrows df)) :: df)
  | None => Raise (Exception "cannot insert level_0, already exists")
  end.

Definition plot_chart (df : ref) (title y_column : string) (color : string) : App unit :=
  let* src := deref df in
  let* df := new src in
  let* copy := deref df in
  let* df := lift (with_index_column copy) in
  if negb (pd.has_column y_column df) then
    show (st.error ("⚠️ Column '" +:+ y_column +:+ "' not found in DataFrame. Available columns: "
                    +:+ py.repr_list (pd.columns df)))
  else
    match pd.getitem "Date" df, pd.getitem y_column df with
    | Some x, Some y =>
        show (st.plotly_chart (st.Figure title [st.Line y_column x y color]))
    | _, _ => raise (Exception "Date")
    end.

(** Series.squeeze(): a series of one element becomes that element. *)
Definition squeeze (s : Series) : squeezed :=
  match s with
  | [c] => Scalar c
  | _ => Column s
  end.

(** df[label] = <indicator>, in place on the frame object. *)
Definition assign (df : ref) (label : string) (value : result Series) : App unit :=
  let* s := lift value in
  modify df (pd.setitem label s).

Definition compute_indicators (df : ref) : App unit :=
  let* close := column df "Close" in
  let close_prices := squeeze close in
  assign df "bb_high" (bollinger_hband close_prices);;
  assign df "bb_low" (bollinger_lband close_prices);;
  assign df "macd" (macd close_prices);;
  assign df "rsi" (rsi close_prices);;
  assign df "sma" (sma_indicator close_prices 14);;
  assign df "ema" (ema_indicator close_prices).

Definition bollinger_figure (df : pd.DataFrame) : result st.figure :=
  let x := Int <$> py.range 0 (pd.nrows df) in
  match pd.getitem "Close" df, pd.getitem "bb_high" df, pd.getitem "bb_low" df with
  | Some c, Some hi, Some lo =>
      Ok (st.Figure "" [st.Line "Close Price" x c "";
                        st.Line "Upper Band" x hi "dot";
                        st.Line "Lower Band" x lo "dot"])
  | _, _, _ => Raise (Exception "bb")
  end.

Definition tech_indicators (widgets : st.Widgets) (df : ref) : App unit :=
  show (st.header "📊 Technical Indicators");;
  let option := st.indicator widgets in
  let* cur := deref df in
  if negb (pd.has_column "Close" cur) then
    show (st.error "⚠️ Data does not contain 'Close' prices.")
  else
    let* computed :=
      try_except (compute_indicators df;; ret true)
        (fun e => show (st.error ("❌ Error calculating indicators: " +:+ e));; ret false) in
    if negb computed then ret tt
    else if String.eqb option "Close" then plot_chart df "Close Price" "Close" "blue"
    else if String.eqb option "Bollinger Bands" then
      let* cur := deref df in
      let* fig := lift (bollinger_figure cur) in
      show (st.plotly_chart fig)
    else if String.eqb option "MACD" then plot_chart df "MACD" "macd" "red"
    else if String.eqb option "RSI" then
      plot_chart df "RSI (Relative Strength Index)" "rsi" "purple"
    else if String.eqb option "SMA" then
      plot_chart df "Simple Moving Average" "sma" "orange"
    else plot_chart df "Exponential Moving Average" "ema" "green".

Definition dataframe (df : ref) : App unit :=
  show (st.header "📄 Recent Data");;
  let* cur := deref df in
  show (st.dataframe (pd.tail 10 cur)).

Definition model_dict : gmap string estimator :=
  list_to_map
    [("Linear Regression", LinearRegression);
     ("Random Forest", RandomForestRegressor);
     ("Extra Trees", ExtraTreesRegressor);
     ("KNN", KNeighborsRegressor);
     ("XGBoost", XGBRegressor)].

(** model.fit(X_train, y_train) *)
Definition model_fit (model : estimator) (X : matrix) (y : Series) : App fitted := fun w =>
  (emit (ModelFit model X y);;
   let* (m, g) := lift (fit model (rng w) X y) in
   fun w' => (Ok m, set_rng g w')) w.

Definition or_raise {A} (msg : string) (o : option A) : App A :=
  match o with
  | Some a => ret a
  | None => raise (Exception msg)
  end.

(** model.predict(X) *)
Definition model_predict (model : fitted) (X : matrix) : App (list float) :=
  emit (Predict X);;
  lift (predict_with model X).

(** Lines 132-150 of train_and_predict: what runs once the target check
    has passed, on the two-column frame [df]. *)
Definition fit_and_forecast (model : estimator) (df : ref) (days : nat) : App unit :=
  let* cur := deref df in
  let X := pd.values (pd.drop_column "Target" (pd.dropna cur)) in
  let* y := or_raise "'Target'" (pd.getitem "Target" (pd.dropna cur)) in
  emit (ScalerFit X);;
  let* scaler := lift (StandardScaler_fit X) in
  let* X := lift (StandardScaler_transform scaler X) in
  emit (Split X y 0.2%float 42);;
  let* (X_train, X_test, y_train, y_test) := lift (train_test_split X y 0.2%float 42) in
  let* model := model_fit model X_train y_train in
  let* preds := model_predict model X_test in
  show (st.subheader "📊 Model Performance");;
  let* r2 := lift (r2_score y_test preds) in
  show (st.write "R² Score:" r2);;
  let* mae := lift (mean_absolute_error y_test preds) in
  show (st.write "Mean Absolute Error:" mae);;
  show (st.subheader "📈 Future Predictions");;
  let* close_only := or_raise "'Close'" (pd.getitems "Close" cur) in
  let* future := lift (StandardScaler_transform scaler (pd.last_rows days (pd.values close_only))) in
  let* future_preds := model_predict model future in
  let* forecast_df :=
    or_raise "All arrays must be of the same length"
      (pd.of_dict "Day" (Int <$> py.range 1 (days + 1))
                  "Predicted Price" (Num <$> future_preds)) in
  show (st.dataframe forecast_df).

Definition train_and_predict (model : estimator) (df : ref) (days : nat) : App unit :=
  let* src := deref df in
  let* close_only := or_raise "'Close'" (pd.getitems "Close" src) in
  let* df := new close_only in
  let* cur := deref df in
  if pd.duplicated "Close" cur then
    (* df['Close'] is a frame of several columns: no Target column can
       be made of it *)
    raise (Exception
             "Cannot set a DataFrame with multiple columns to the single column Target")
  else
  let* close := column df "Close" in
  modify df (pd.setitem "Target" (pd.shift_up days close));;
  let* target := column df "Target" in
  if forallb isnull target then
    show (st.error "⚠️ Not enough data to make predictions.")
  else fit_and_forecast model df days.

Definition predict (widgets : st.Widgets) (df : ref) : App unit :=
  show (st.header "🔮 Price Prediction");;
  let model_choice := st.model_choice widgets in
  let days_forecast := st.days_forecast widgets in
  if st.predict_button widgets then
    let* model := or_raise ("'" +:+ model_choice +:+ "'") (model_dict !! model_choice) in
    train_and_predict model df days_forecast
  else ret tt.

Definition main (widgets : st.Widgets) : App unit :=
  let option := st.option widgets in
  let stock_symbol := py.upper (st.stock_symbol widgets) in
  let start_date := st.start_date widgets in
  let end_date := st.end_date widgets in
  if st.load_data widgets then
    if date_lt start_date end_date then
      show (st.sidebar_success start_date end_date);;
      let* df := download_data (stock_symbol, start_date, end_date) in
      match df with
      | Some df =>
          if String.eqb option "Visualize" then tech_indicators widgets df
          else if String.eqb option "Recent Data" then dataframe df
          else predict widgets df
      | None => ret tt
      end
    else show (st.sidebar_error "⚠️ End date must be after start date.")
  else ret tt.

End app.


(** X of line 132 as a function of the Close column: the feature rows
    the scaler and the model are fit on. *)
Definition fit_eligible (close : Series) (days : nat) : matrix :=
  pd.values (pd.drop_column "Target"
    (pd.dropna (pd.setitem "Target" (pd.shift_up days close) [("Close", close)]))).

(** The six indicator calls of lines 75-80, in order, stopping at the
    first that raises. *)
Definition indicator_columns {ta : TA} (close_prices : squeezed)
  : result (list (string * Series)) :=
  let step (acc : result (list (string * Series))) (label : string) (r : result Series) :=
    match acc with
    | Ok cols => match r with Ok s => Ok (cols ++ [(label, s)]) | Raise e => Raise e end
    | Raise e => Raise e
    end in
  let r0 := Ok [] in
  let r1 := step r0 "bb_high" (bollinger_hband close_prices) in
  let r2 := step r1 "bb_low" (bollinger_lband close_prices) in
  let r3 := step r2 "macd" (macd close_prices) in
  let r4 := step r3 "rsi" (rsi close_prices) in
  let r5 := step r4 "sma" (sma_indicator close_prices 14) in
  step r5 "ema" (ema_indicator close_prices).

(** Projections of the trace. *)
Definition scaler_fits (w : World) : list matrix :=
  omap (fun e => match e with ScalerFit X => Some X | _ => None end) (trace w).

Definition model_fits (w : World) : list (estimator * matrix * Series) :=
  omap (fun e => match e with ModelFit m X y => Some (m, X, y) | _ => None end) (trace w).

Definition splits (w : World) : list (matrix * Series * float * Z) :=
  omap (fun e => match e with Split X y s r => Some (X, y, s, r) | _ => None end) (trace w).

Definition predictions (w : World) : list matrix :=
  omap (fun e => match e with Predict X => Some X | _ => None end) (trace w).

(** The events a run added to the trace of the world it started in. *)
Definition new_events (w w' : World) : list event := drop (length (trace w)) (trace w').

(** One script run per widget state, the session carried along; an
    exception ends its run, not the session. *)
Definition session {source : YFinance} {ta : TA} {sk : Sklearn}
    (runs : list st.Widgets) (w : World) : World :=
  foldl (fun w widgets => (main widgets w).2) w runs.

(** ** What a run may change

    [frame_rel target Q w w']: from [w] to [w'] the cache is untouched,
    the trace has grown by events that satisfy [Q], the frame objects
    of [w] are all still there, and none but [target] has changed. *)

Definition frame_rel (target : option ref) (Q : event -> bool) (w w' : World) : Prop :=
  cache w' = cache w /\
  (exists evs, trace w' = trace w ++ evs /\ forallb Q evs = true) /\
  length (heap w) <= length (heap w') /\
  forall r, Some r <> target -> r < length (heap w) -> frame_at w' r = frame_at w r.

Definition frames {A} (target : option ref) (Q : event -> bool) (m : App A) : Prop :=
  forall w, frame_rel target Q w (m w).2.

Definition is_scaler_fit (e : event) : bool :=
  match e with ScalerFit _ => true | _ => false end.

Definition is_fit (e : event) : bool :=
  match e with ScalerFit _ | ModelFit _ _ _ => true | _ => false end.

Definition is_download (e : event) : bool :=
  match e with Download _ => true | _ => false end.

Definition any_event (e : event) : bool := true.

(** [cols] stored in [df], one assignment after the other. *)
Definition add_columns (df : pd.DataFrame) (cols : list (string * Series)) : pd.DataFrame :=
  foldl (fun df c => pd.setitem c.1 c.2 df) df cols.

(** Every event but the report of a failed indicator computation. *)
Definition no_indicator_error (e : event) : bool :=
  match e with
  | Shown (st.error msg) => negb (String.prefix "❌" msg)
  | _ => true
  end.

(** ** Two runs that differ in the generator state *)

(** Two worlds that agree on everything but the generator state. *)
Definition same_but_rng (w1 w2 : World) : Prop :=
  trace w1 = trace w2 /\ cache w1 = cache w2 /\ heap w1 = heap w2.

(** [m] returns the same result and leaves the same world whatever the
    generator state it starts from. *)
Definition rng_blind {A} (m : App A) : Prop :=
  forall w1 w2, same_but_rng w1 w2 ->
    (m w1).1 = (m w2).1 /\ same_but_rng (m w1).2 (m w2).2.

(** The calls up to the model's fit, as recorded in the trace. *)
Definition same_fits (w1 w2 : World) : Prop :=
  scaler_fits w1 = scaler_fits w2 /\ splits w1 = splits w2 /\ model_fits w1 = model_fits w2.

(** [m] hands the same data to the scaler, to the split and to the
    model's fit whatever the generator state it starts from. *)
Definition same_split {A} (m : App A) : Prop :=
  forall w1 w2, same_but_rng w1 w2 -> same_fits (m w1).2 (m w2).2.

Definition after_fit (e : event) : bool :=
  match e with
  | Shown _ | Predict _ => true
  | _ => false
  end.

(** The model a call of fit returns, without the generator state. *)
Definition fitted_of {sk : Sklearn} (r : result (fitted * nat)) : result fitted :=
  match r with
  | Ok (m, _) => Ok m
  | Raise e => Raise e
  end.

(** The fit of [model] does not depend on the generator state. *)
Definition deterministic_fit {sk : Sklearn} (model : estimator) : Prop :=
  forall g1 g2 X y, fitted_of (fit model g1 X y) = fitted_of (fit model g2 X y).

(** * Executable stand-ins for the packages

    Small implementations of the three interfaces over binary64 floats,
    used to run the program on concrete inputs. *)

Module reference.

Definition value (c : cell) : float :=
  match c with
  | Num x => x
  | Int _ | Stamp _ => nan
  end.

Fixpoint float_of_nat (n : nat) : float :=
  match n with
  | 0 => 0
  | S n' => float_of_nat n' + 1
  end.

Definition fsum (xs : list float) : float := foldl PrimFloat.add 0%float xs.

Definition fmean (xs : list float) : float := fsum xs / float_of_nat (length xs).

(** Population standard deviation (ddof = 0). *)
Definition fstd (xs : list float) : float :=
  let m := fmean xs in
  sqrt (fmean ((fun x => (x - m) * (x - m))%float <$> xs)).

(** ** ta on a NaN-free series *)

(** rolling(window, min_periods=window).agg(): undefined on the first
    window - 1 rows. *)
Definition rolling (window : nat) (agg : list float -> float) (xs : list float) : list float :=
  imap (fun i _ => if i + 1 <? window then nan
                   else agg (take window (drop (i + 1 - window) xs))) xs.

Fixpoint ewm_from (alpha prev : float) (xs : list float) : list float :=
  match xs with
  | [] => []
  | x :: rest =>
      let y := ((1 - alpha) * prev + alpha * x)%float in
      y :: ewm_from alpha y rest
  end.

(** ewm(alpha, min_periods, adjust=False).mean() *)
Definition ewm (alpha : float) (min_periods : nat) (xs : list float) : list float :=
  match xs with
  | [] => []
  | x :: rest =>
      imap (fun i y => if i + 1 <? min_periods then nan else y) (x :: ewm_from alpha x rest)
  end.

Definition ema (span : nat) (xs : list float) : list float :=
  ewm (2 / float_of_nat (span + 1)) span xs.

Definition diff (xs : list float) : list float :=
  match xs with
  | [] => []
  | _ :: rest => nan :: zip_with PrimFloat.sub rest xs
  end.

Definition rsi_values (window : nat) (xs : list float) : list float :=
  let d := diff xs in
  let up := (fun x => if (0 <? x)%float then x else 0%float) <$> d in
  let dn := (fun x => (- (if (x <? 0)%float then x else 0))%float) <$> d in
  let alpha := (1 / float_of_nat window)%float in
  zip_with (fun u v => if (v =? 0)%float then 100%float
                       else (100 - 100 / (1 + u / v))%float)
           (ewm alpha window up) (ewm alpha window dn).

(** Every indicator class calls a Series method on what it is given, so
    a scalar raises AttributeError. *)
Definition on_series (method : string) (f : list float -> list float) (x : squeezed)
  : result Series :=
  match x with
  | Column s => Ok (Num <$> f (value <$> s))
  | Scalar _ =>
      Raise (Exception ("'numpy.float64' object has no attribute '" +:+ method +:+ "'"))
  end.

Global Instance ta : TA := {|
  bollinger_hband :=
    on_series "rolling" (fun xs =>
      zip_with (fun m s => (m + 2 * s)%float) (rolling 20 fmean xs) (rolling 20 fstd xs));
  bollinger_lband :=
    on_series "rolling" (fun xs =>
      zip_with (fun m s => (m - 2 * s)%float) (rolling 20 fmean xs) (rolling 20 fstd xs));
  macd := on_series "ewm" (fun xs => zip_with PrimFloat.sub (ema 12 xs) (ema 26 xs));
  rsi := on_series "diff" (rsi_values 14);
  sma_indicator := fun x window => on_series "rolling" (rolling window fmean) x;
  ema_indicator := on_series "ewm" (ema 14);
|}.

(** ** scikit-learn on one feature *)

Definition feature (row : list cell) : float :=
  match row with
  | c :: _ => value c
  | [] => nan
  end.

Inductive fitted_model :=
| Linear (slope intercept : float)
| Constant (v : float).

Definition scaler_fit (X : matrix) : result (float * float) :=
  match X with
  | [] => Raise (Exception "Found array with 0 sample(s) while a minimum of 1 is required by StandardScaler.")
  | _ =>
      let xs := feature <$> X in
      let s := fstd xs in
      Ok (fmean xs, if (s =? 0)%float then 1%float else s)
  end.

Definition scaler_transform (sc : float * float) (X : matrix) : result matrix :=
  Ok ((fun row => [Num ((feature row - sc.1) / sc.2)]) <$> X).

(** ceil(x) for 0 <= x <= n *)
Definition ceil_upto (n : nat) (x : float) : nat :=
  default n (head (List.filter (fun k => (x <=? float_of_nat k)%float) (seq 0 (S n)))).

(** The shuffle of the seeded generator is replaced by a rotation by the
    seed; what is kept is that the split depends on the data, the test
    share and the seed only. *)
Definition split (X : matrix) (y : Series) (test_size : float) (random_state : Z)
  : result (matrix * matrix * Series * Series) :=
  let n := length X in
  let n_test := ceil_upto n (test_size * float_of_nat n) in
  let n_train := n - n_test in
  if n_train =? 0 then
    Raise (Exception "the resulting train set will be empty")
  else
    let shift := Z.to_nat (random_state `mod` Z.of_nat n) in
    let X' := rotate shift X in
    let y' := rotate shift y in
    Ok (drop n_test X', take n_test X', drop n_test y', take n_test y').

Definition least_squares (xs ys : list float) : fitted_model :=
  let mx := fmean xs in
  let my := fmean ys in
  let sxx := fsum ((fun x => (x - mx) * (x - mx))%float <$> xs) in
  let sxy := fsum (zip_with (fun x y => (x - mx) * (y - my))%float xs ys) in
  let slope := if (sxx =? 0)%float then 0%float else (sxy / sxx)%float in
  Linear slope (my - slope * mx).

(** The two forests are built without random_state, so their fit draws
    on the process-wide generator: the stand-in keeps that dependency
    and nothing else (the row the generator points at is the whole
    bootstrap sample). The two remaining estimators are not modelled. *)
Definition fit_estimator (model : estimator) (g : nat) (X : matrix) (y : Series)
  : result (fitted_model * nat) :=
  match model with
  | LinearRegression => Ok (least_squares (feature <$> X) (value <$> y), g)
  | RandomForestRegressor | ExtraTreesRegressor =>
      Ok (Constant (value (default NaN (y !! (g `mod` length y)))), S g)
  | KNeighborsRegressor | XGBRegressor => Raise (Exception "estimator not modelled")
  end.

Definition predict_rows (m : fitted_model) (X : matrix) : result (list float) :=
  Ok ((fun row =>
         match m with
         | Linear a b => (a * feature row + b)%float
         | Constant v => v
         end) <$> X).

Definition r2 (y : Series) (preds : list float) : result float :=
  let ys := value <$> y in
  let my := fmean ys in
  let ss_res := fsum (zip_with (fun a p => (a - p) * (a - p))%float ys preds) in
  let ss_tot := fsum ((fun a => (a - my) * (a - my))%float <$> ys) in
  Ok (1 - ss_res / ss_tot)%float.

Definition mae (y : Series) (preds : list float) : result float :=
  Ok (fmean (zip_with (fun a p => abs (a - p)) (value <$> y) preds)).

Global Instance sk : Sklearn := {|
  scaler := float * float;
  fitted := fitted_model;
  StandardScaler_fit := scaler_fit;
  StandardScaler_transform := scaler_transform;
  train_test_split := split;
  fit := fit_estimator;
  predict_with := predict_rows;
  r2_score := r2;
  mean_absolute_error := mae;
|}.

(** ** A price source *)

Definition day_of (n : nat) : date := Date 2024 1 (Z.of_nat (S n)).

Definition prices (base : float) (n : nat) : Series :=
  (fun i => Num (base + float_of_nat i)) <$> seq 0 n.

(** A source that knows one ticker (eight trading days, a two-level
    header), fails on the symbol "DOWN" and has no data for anything
    else. Prices move by one between two downloads. *)
Global Instance source : YFinance := {|
  download := fun k n =>
    let '(symbol, _, _) := k in
    if String.eqb symbol "AAPL" then
      Ok {| yf.index_name := "Date";
            yf.index := day_of <$> seq 0 8;
            yf.columns := yf.MultiIndex [["Close"; "AAPL"]; ["Volume"; "AAPL"]];
            yf.data := [prices (100 + float_of_nat n) 8; prices 5000 8] |}
    else if String.eqb symbol "DOWN" then Raise (Exception "connection refused")
    else Ok {| yf.index_name := "Date"; yf.index := [];
               yf.columns := yf.Index []; yf.data := [] |};
|}.

Definition empty_world : World :=
  {| trace := []; cache := ∅; heap := []; rng := 0 |}.

(** A session that holds one frame object, at reference 0. *)
Definition world_with (df : pd.DataFrame) : World := set_heap [df] empty_world.

Definition six_closes : Series := [Num 10; Num 11; Num 12; Num 13; Num 14; Num 15].

(** A Close column with two missing values. *)
Definition gappy_closes : Series := [NaN; Num 1; NaN].

(** Two Close columns, as a download of two tickers leaves them. *)
Definition two_tickers : pd.DataFrame :=
  [("Date", Stamp <$> (day_of <$> seq 0 3));
   ("Close", [Num 10; Num 11; Num 12]);
   ("Close", [Num 20; Num 21; Num 22])].


(** Three trading days, fewer than any indicator window. *)
Definition three_days : pd.DataFrame :=
  [("Date", Stamp <$> (day_of <$> seq 0 3)); ("Close", [Num 10; Num 11; Num 12])].

Definition one_day : pd.DataFrame :=
  [("Date", [Stamp (day_of 0)]); ("Close", [Num 10])].

(** Widget states: a pressed Load Data for the given mode and symbol over
    January 2024, with the SMA radio entry, the linear model and a
    horizon of two days. *)
Definition load (mode symbol : string) : st.Widgets :=
  {| st.option := mode; st.stock_symbol := symbol;
     st.start_date := Date 2024 1 1; st.end_date := Date 2024 2 1;
     st.load_data := true; st.indicator := "SMA";
     st.model_choice := "Linear Regression"; st.days_forecast := 2;
     st.predict_button := true |}.

(** The same request with the end date equal to the start date. *)
Definition load_empty_range : st.Widgets :=
  {| st.option := "Visualize"; st.stock_symbol := "AAPL";
     st.start_date := Date 2024 1 1; st.end_date := Date 2024 1 1;
     st.load_data := true; st.indicator := "SMA";
     st.model_choice := "Linear Regression"; st.days_forecast := 2;
     st.predict_button := false |}.

Definition january : Key := ("AAPL", Date 2024 1 1, Date 2024 2 1).

End reference.

(** * Further notions used to describe the session *)

(** Every event but a download. *)
Definition no_download (e : event) : bool := negb (is_download e).

(** The request key of a script run: the upper-cased symbol and the two
    dates. *)
Definition request_key (widgets : st.Widgets) : Key :=
  (py.upper (st.stock_symbol widgets), st.start_date widgets, st.end_date widgets).

(** Each key was downloaded at most once, and the keys downloaded are the
    keys the cache holds. *)
Definition fetched_once (w : World) : Prop :=
  NoDup (downloads w) /\ forall k, k ∈ downloads w <-> is_Some (cache w !! k).

(** The message download_data displays for an answer of the source it
    does not turn into a frame. *)
Definition loader_message (answer : result yf.Frame) : option string :=
  match answer with
  | Raise (Exception msg) => Some ("❌ Error downloading data: " +:+ msg)
  | Ok df =>
      if yf.empty df
      then Some "⚠️ No data found for the given stock symbol and date range."
      else None
  end.

(** Every event but the fit of a model other than [model]. *)
Definition fits_only (model : estimator) (e : event) : bool :=
  match e with
  | ModelFit m _ _ => bool_decide (m = model)
  | _ => true
  end.

(** The six indicator calls of lines 75-80 with the labels their results
    are stored under. *)
Definition indicator_calls {ta : TA} (close_prices : squeezed)
  : list (string * result Series) :=
  [("bb_high", bollinger_hband close_prices);
   ("bb_low", bollinger_lband close_prices);
   ("macd", macd close_prices);
   ("rsi", rsi close_prices);
   ("sma", sma_indicator close_prices 14);
   ("ema", ema_indicator close_prices)].

(** The results of the calls made before the first one that raises. *)
Fixpoint returned (calls : list (string * result Series)) : list (string * Series) :=
  match calls with
  | (label, Ok s) :: rest => (label, s) :: returned rest
  | _ => []
  end.

(** Lines 85-100 without the Bollinger branch: title, column and colour
    of the chart for a radio selection. *)
Definition chart_of (option : string) : string * string * string :=
  if String.eqb option "Close" then ("Close Price", "Close", "blue")
  else if String.eqb option "MACD" then ("MACD", "macd", "red")
  else if String.eqb option "RSI" then ("RSI (Relative Strength Index)", "rsi", "purple")
  else if String.eqb option "SMA" then ("Simple Moving Average", "sma", "orange")
  else ("Exponential Moving Average", "ema", "green").

(** A hierarchical label of two or more levels whose first level has no
    underscore of its own. *)
Definition plain_field (levels : list string) : bool :=
  match levels with
  | field :: _ :: _ => negb (py.contains "_" field)
  | _ => false
  end.

(** The frame a successful load builds from the answer of the source:
    the index under its name, then the data columns under their
    normalized labels. *)
Definition loaded_frame (df : yf.Frame) : pd.DataFrame :=
  (yf.index_name df, Stamp <$> yf.index df)
    :: zip (normalize_columns (yf.columns df)) (yf.data df).

(** Every event but the fit of a scaler or of a model. *)
Definition no_fit (e : event) : bool := negb (is_fit e).

(** ** Further example inputs *)

Module examples.

Import reference.

(** The answer of the reference source to the first download of the
    AAPL request. *)
Definition aapl_answer : yf.Frame :=
  {| yf.index_name := "Date";
     yf.index := day_of <$> seq 0 8;
     yf.columns := yf.MultiIndex [["Close"; "AAPL"]; ["Volume"; "AAPL"]];
     yf.data := [prices (100 + float_of_nat 0) 8; prices 5000 8] |}.

(** The Visualize widgets with a given radio selection. *)
Definition select (indicator : string) : st.Widgets :=
  {| st.option := "Visualize"; st.stock_symbol := "AAPL";
     st.start_date := Date 2024 1 1; st.end_date := Date 2024 2 1;
     st.load_data := true; st.indicator := indicator;
     st.model_choice := "Linear Regression"; st.days_forecast := 2;
     st.predict_button := false |}.

(** A frame without a Close column. *)
Definition dates_only : pd.DataFrame := [("Date", Stamp <$> (day_of <$> seq 0 3))].

(** Three trading days in a frame that has an index column of its
    own. *)
Definition indexed_days : pd.DataFrame :=
  [("index", [Int 7; Int 8; Int 9]);
   ("Date", Stamp <$> (day_of <$> seq 0 3));
   ("Close", [Num 10; Num 11; Num 12])].


(** An indicator library whose third call fails. *)
Definition macd_unavailable : TA :=
  {| bollinger_hband := fun _ => Ok [Num 12; Num 13];
     bollinger_lband := fun _ => Ok [Num 8; Num 9; Num 10; Num 11];
     macd := fun _ => Raise (Exception "macd unavailable");
     rsi := fun _ => Ok [];
     sma_indicator := fun _ _ => Ok [];
     ema_indicator := fun _ => Ok [] |}.

End examples.
(** * Facts about the pandas operations *)

Section pandas_facts.

Implicit Types (s c t : Series) (k n : nat).

Lemma shift_up_length k s : length (pd.shift_up k s) = length s.
Proof.
  unfold pd.shift_up. rewrite length_app, length_drop, length_replicate. lia.
Qed.

Lemma align_same n s : length s = n -> pd.align n s = s.
Proof.
  intros <-. unfold pd.align.
  by rewrite firstn_all, Nat.sub_diag, app_nil_r.
Qed.

(** Adding the Target column to the copy of Close. *)
Lemma setitem_target c t :
  length t = length c ->
  pd.setitem "Target" t [("Close", c)] = [("Close", c); ("Target", t)].
Proof.
  intros Hlen. unfold pd.setitem, pd.has_column. cbn.
  fold (pd.align (length c) t). by rewrite align_same.
Qed.

Lemma zip_with_andb_true_r (m : list bool) n :
  length m = n -> zip_with andb m (replicate n true) = m.
Proof.
  intros <-. induction m as [|b m IH]; [done|].
  cbn. by rewrite IH, andb_true_r.
Qed.

Lemma select_complete_fst c t :
  pd.select (zip_with andb (notnull <$> c) (notnull <$> t)) c = (kept_rows c t).*1.
Proof.
  revert t. induction c as [|x c IH]; intros [|y t]; try done.
  unfold kept_rows in *. cbn.
  destruct (notnull x && notnull y); cbn; by rewrite IH.
Qed.

Lemma select_complete_snd c t :
  length t = length c ->
  pd.select (zip_with andb (notnull <$> c) (notnull <$> t)) t = (kept_rows c t).*2.
Proof.
  revert t. induction c as [|x c IH]; intros [|y t] Hlen; try done.
  unfold kept_rows in *. cbn. injection Hlen as Hlen.
  destruct (notnull x && notnull y); cbn; by rewrite IH.
Qed.

Lemma complete_rows_two c t :
  length t = length c ->
  pd.complete_rows (length c) [("Close", c); ("Target", t)]
  = zip_with andb (notnull <$> c) (notnull <$> t).
Proof.
  intros Hlen. cbn. rewrite zip_with_andb_true_r; [done|].
  by rewrite length_fmap.
Qed.

Lemma zip_with_cons_nil s :
  zip_with cons s (replicate (length s) []) = (fun x => [x]) <$> s.
Proof. induction s as [|x s IH]; [done|]. cbn. by rewrite IH. Qed.

Lemma values_single (label : string) s :
  pd.values [(label, s)] = (fun x => [x]) <$> s.
Proof. apply zip_with_cons_nil. Qed.

(** X and y of lines 132-133, on the frame made of Close and its target. *)
Lemma dropna_features c t :
  length t = length c ->
  pd.values (pd.drop_column "Target" (pd.dropna [("Close", c); ("Target", t)]))
  = (fun row => [row.1]) <$> kept_rows c t.
Proof.
  intros Hlen. unfold pd.dropna.
  change (pd.nrows _) with (length c).
  rewrite complete_rows_two by done. cbn.
  rewrite zip_with_cons_nil, select_complete_fst.
  by rewrite <- list_fmap_compose.
Qed.

Lemma dropna_target c t :
  length t = length c ->
  pd.getitem "Target" (pd.dropna [("Close", c); ("Target", t)]) = Some (kept_rows c t).*2.
Proof.
  intros Hlen. unfold pd.dropna.
  change (pd.nrows _) with (length c).
  rewrite complete_rows_two by done. cbn.
  by rewrite select_complete_snd.
Qed.

Lemma filter_zip_prefix {A B} (f : A * B -> bool) (l : list A) (l1 l2 : list B) :
  length l1 <= length l ->
  Forall (fun p => f p = true) (zip l l1) ->
  Forall (fun p => f p = false) (zip (drop (length l1) l) l2) ->
  List.filter f (zip l (l1 ++ l2)) = zip l l1.
Proof.
  revert l. induction l1 as [|b l1 IH]; intros l Hlen H1 H2.
  - cbn in *. rewrite drop_0 in H2. rewrite zip_with_nil_r. clear H1 Hlen.
    induction H2 as [|p ps Hp _ IH2]; [done|]. cbn. by rewrite Hp.
  - destruct l as [|a l]; cbn in *; [lia|].
    inversion H1 as [|? ? Hp H1']; subst.
    rewrite Hp. f_equal. apply IH; [lia|done|done].
Qed.

(** Without missing Close values, dropna keeps the first N - H rows. *)
Lemma kept_rows_defined k c :
  Forall (fun x => isnull x = false) c ->
  kept_rows c (pd.shift_up k c) = zip (take (length c - k) c) (drop k c).
Proof.
  intros Hc. unfold kept_rows, pd.shift_up.
  rewrite filter_zip_prefix.
  - rewrite <- (take_drop (length c - k) c) at 1.
    rewrite zip_with_app_l.
    replace (take (length (take (length c - k) c)) (drop k c)) with (drop k c).
    2:{ rewrite firstn_all2; [done|]. rewrite length_take, length_drop. lia. }
    replace (drop (length (take (length c - k) c)) (drop k c)) with (@nil cell).
    2:{ rewrite drop_ge; [done|]. rewrite length_take, length_drop. lia. }
    by rewrite zip_with_nil_r, app_nil_r.
  - rewrite length_drop. lia.
  - apply Forall_forall. intros [a b] Hin.
    apply elem_of_zip_l in Hin as Ha. apply elem_of_zip_r in Hin as Hb.
    cbn in *. apply (subseteq_drop k c) in Hb.
    rewrite Forall_forall in Hc. unfold notnull.
    by rewrite (Hc a), (Hc b).
  - apply Forall_forall. intros [a b] Hin.
    apply elem_of_zip_r in Hin. cbn in Hin.
    apply elem_of_replicate in Hin as [-> _].
    cbn. unfold notnull. cbn. by rewrite andb_false_r.
Qed.

End pandas_facts.

(** * Reading and writing columns *)

Section columns.

Implicit Types (df : pd.DataFrame) (s : Series) (label : string).

Lemma length_align n s : length (pd.align n s) = n.
Proof.
  unfold pd.align. rewrite length_app, length_take, length_replicate. lia.
Qed.

Lemma getitem_replace_same label s df :
  pd.has_column label df = true ->
  pd.getitem label (pd.replace_column label s df) = Some s.
Proof.
  unfold pd.has_column, pd.columns.
  induction df as [|[l c] df IH]; cbn; [done|].
  rewrite (String.eqb_sym label l).
  destruct (String.eqb l label) eqn:Hl; cbn; rewrite Hl; [done|]. apply IH.
Qed.

Lemma getitem_replace_other label label' s df :
  label' <> label ->
  pd.getitem label' (pd.replace_column label s df) = pd.getitem label' df.
Proof.
  intros Hne. induction df as [|[l c] df IH]; cbn; [done|].
  destruct (String.eqb l label) eqn:Hl; cbn.
  - apply String.eqb_eq in Hl as ->.
    by rewrite (proj2 (String.eqb_neq label label')).
  - by rewrite IH.
Qed.

Lemma getitem_snoc_same label s df :
  pd.has_column label df = false ->
  pd.getitem label (df ++ [(label, s)]) = Some s.
Proof.
  unfold pd.has_column, pd.columns.
  induction df as [|[l c] df IH]; cbn.
  - by rewrite String.eqb_refl.
  - rewrite (String.eqb_sym label l).
    destruct (String.eqb l label); [done|]. apply IH.
Qed.

Lemma getitem_snoc_other label label' s df :
  label' <> label ->
  pd.getitem label' (df ++ [(label, s)]) = pd.getitem label' df.
Proof.
  intros Hne. induction df as [|[l c] df IH]; cbn.
  - by rewrite (proj2 (String.eqb_neq label label')).
  - by rewrite IH.
Qed.

(** Reading back the column just written: the series, aligned to the
    rows of the frame. *)
Lemma getitem_setitem_same label s df :
  df <> [] ->
  pd.getitem label (pd.setitem label s df) = Some (pd.align (pd.nrows df) s).
Proof.
  intros Hdf. unfold pd.setitem. destruct df as [|c df]; [done|].
  destruct (pd.has_column label (c :: df)) eqn:Hhas.
  - by apply getitem_replace_same.
  - by apply getitem_snoc_same.
Qed.

(** Writing a column leaves the other columns as they are. *)
Lemma getitem_setitem_other label label' s df :
  label' <> label ->
  pd.getitem label' (pd.setitem label s df) = pd.getitem label' df.
Proof.
  intros Hne. unfold pd.setitem. destruct df as [|c df].
  - cbn. by rewrite (proj2 (String.eqb_neq label label')).
  - destruct (pd.has_column label (c :: df)).
    + by apply getitem_replace_other.
    + by apply getitem_snoc_other.
Qed.

Lemma nrows_setitem label s df :
  df <> [] -> pd.nrows (pd.setitem label s df) = pd.nrows df.
Proof.
  intros Hdf. unfold pd.setitem. destruct df as [|[l c] df]; [done|].
  destruct (pd.has_column label ((l, c) :: df)).
  - cbn. destruct (String.eqb l label); cbn; [|done]. apply length_align.
  - done.
Qed.

Lemma setitem_nonempty label s df : pd.setitem label s df <> [].
Proof.
  unfold pd.setitem. destruct df as [|[l c] df]; [done|].
  destruct (pd.has_column label ((l, c) :: df)).
  - cbn. by destruct (String.eqb l label).
  - done.
Qed.

Lemma getitem_has_column label df :
  pd.has_column label df = true -> is_Some (pd.getitem label df).
Proof.
  unfold pd.has_column, pd.columns.
  induction df as [|[l c] df IH]; cbn; [done|].
  rewrite (String.eqb_sym label l).
  destruct (String.eqb l label); [by eexists|]. apply IH.
Qed.



Lemma getitem_nonempty label df s : pd.getitem label df = Some s -> df <> [].
Proof. by destruct df. Qed.


Lemma columns_replace label s df :
  pd.columns (pd.replace_column label s df) = pd.columns df.
Proof.
  unfold pd.columns. induction df as [|[l c] df IH]; [done|].
  cbn. destruct (String.eqb l label); cbn; [done|]. by rewrite IH.
Qed.

Lemma existsb_snoc (l x : string) labels :
  existsb (String.eqb l) (labels ++ [x]) = existsb (String.eqb l) labels || String.eqb l x.
Proof. rewrite existsb_app. cbn. by rewrite orb_false_r. Qed.

Lemma distinct_snoc labels (x : string) :
  pd.distinct (labels ++ [x])
  = pd.distinct labels && negb (existsb (String.eqb x) labels).
Proof.
  induction labels as [|l labels IH]; [done|].
  cbn. rewrite existsb_snoc, IH, (String.eqb_sym x l).
  by destruct (existsb (String.eqb l) labels), (String.eqb l x), (pd.distinct labels),
       (existsb (String.eqb x) labels).
Qed.

(** Writing a column keeps the labels distinct. *)
Lemma distinct_setitem label s df :
  pd.distinct_labels df = true -> pd.distinct_labels (pd.setitem label s df) = true.
Proof.
  unfold pd.distinct_labels, pd.setitem. intros Hdf.
  destruct df as [|c df]; [done|].
  destruct (pd.has_column label (c :: df)) eqn:Hhas.
  - by rewrite columns_replace.
  - unfold pd.has_column, pd.columns in *. rewrite fmap_app.
    change ([(label, pd.align (pd.nrows (c :: df)) s)].*1) with [label].
    by rewrite distinct_snoc, Hdf, Hhas.
Qed.

Lemma distinct_not_duplicated label df :
  pd.distinct_labels df = true -> pd.duplicated label df = false.
Proof.
  unfold pd.distinct_labels, pd.duplicated, pd.labelled, pd.columns.
  induction df as [|[l c] df IH]; [done|].
  cbn. intros [Hl Hdf]%andb_prop. apply negb_true_iff in Hl.
  destruct (String.eqb l label) eqn:Hlabel; [|by apply IH].
  apply String.eqb_eq in Hlabel as ->.
  assert (List.filter (fun c0 : string * Series => String.eqb c0.1 label) df = []) as ->; [|done].
  clear IH Hdf. induction df as [|[l' c'] df IH]; [done|].
  cbn in *. apply orb_false_elim in Hl as [Hl' Hl].
  rewrite (String.eqb_sym l' label), Hl'. by apply IH.
Qed.

End columns.

(** * Column labels *)

Section labels.




End labels.

(** * What a run may change *)

Section frames.

Context {source : YFinance} {ta : TA} {sk : Sklearn}.

Lemma frame_rel_refl target Q w : frame_rel target Q w w.
Proof.
  repeat split; try done. exists []. by rewrite app_nil_r.
Qed.

Lemma frame_rel_trans target Q w1 w2 w3 :
  frame_rel target Q w1 w2 -> frame_rel target Q w2 w3 -> frame_rel target Q w1 w3.
Proof.
  intros (Hc1 & (e1 & Ht1 & Hq1) & Hl1 & Hh1) (Hc2 & (e2 & Ht2 & Hq2) & Hl2 & Hh2).
  repeat split.
  - congruence.
  - exists (e1 ++ e2). rewrite Ht2, Ht1, <- app_assoc. split; [done|].
    by rewrite forallb_app, Hq1, Hq2.
  - lia.
  - intros r Hr Hlt. rewrite Hh2 by (done || lia). by apply Hh1.
Qed.

Lemma frames_ret {A} target Q (a : A) : frames target Q (ret a).
Proof. intros w. apply frame_rel_refl. Qed.

Lemma frames_raise {A} target Q e : frames target Q (@raise A e).
Proof. intros w. apply frame_rel_refl. Qed.

Lemma frames_lift {A} target Q (r : result A) : frames target Q (lift r).
Proof. intros w. apply frame_rel_refl. Qed.

Lemma frames_or_raise {A} target Q msg (o : option A) : frames target Q (or_raise msg o).
Proof. destruct o; [apply frames_ret|apply frames_raise]. Qed.

Lemma frames_deref target Q r : frames target Q (deref r).
Proof. intros w. unfold deref. destruct (frame_at w r); apply frame_rel_refl. Qed.

Lemma frames_emit target Q e : Q e = true -> frames target Q (emit e).
Proof.
  intros He w. repeat split; cbn; try done.
  exists [e]. cbn. by rewrite He.
Qed.

Lemma frames_show target Q e : Q (Shown e) = true -> frames target Q (show e).
Proof. apply frames_emit. Qed.

Lemma frames_new target Q df : frames target Q (new df).
Proof.
  intros w. repeat split; cbn.
  - exists []. by rewrite app_nil_r.
  - rewrite length_app. lia.
  - intros r _ Hr. unfold frame_at. cbn. by rewrite lookup_app_l.
Qed.

Lemma frames_modify Q r f : frames (Some r) Q (modify r f).
Proof.
  intros w. unfold modify. destruct (frame_at w r); [|apply frame_rel_refl].
  repeat split; cbn.
  - exists []. by rewrite app_nil_r.
  - by rewrite length_insert.
  - intros r' Hr' _. unfold frame_at. cbn.
    rewrite list_lookup_insert_ne; [done|congruence].
Qed.

Lemma frames_bind {A B} target Q (m : App A) (k : A -> App B) :
  frames target Q m -> (forall a, frames target Q (k a)) -> frames target Q (bind m k).
Proof.
  intros Hm Hk w. unfold bind. specialize (Hm w).
  destruct (m w) as [[a|e] w1]; [|done].
  eapply frame_rel_trans; [exact Hm|apply Hk].
Qed.

Lemma frames_try_except {A} target Q (m : App A) (h : string -> App A) :
  frames target Q m -> (forall e, frames target Q (h e)) -> frames target Q (try_except m h).
Proof.
  intros Hm Hh w. unfold try_except. specialize (Hm w).
  destruct (m w) as [[a|[e]] w1]; [done|].
  eapply frame_rel_trans; [exact Hm|apply Hh].
Qed.

Lemma frames_model_fit target Q model X y :
  Q (ModelFit model X y) = true -> frames target Q (model_fit model X y).
Proof.
  intros HQ w. unfold model_fit, bind, emit, lift. cbn.
  destruct (fit model (rng w) X y) as [[m g]|e]; cbn.
  all: repeat split; cbn; try done.
  all: exists [ModelFit model X y]; cbn; by rewrite HQ.
Qed.

Lemma frames_column target Q r label : frames target Q (column r label).
Proof.
  unfold column. apply frames_bind; [apply frames_deref|].
  intros df. destruct (pd.getitem label df); [apply frames_ret|apply frames_raise].
Qed.

Lemma frames_model_predict target Q m X :
  Q (Predict X) = true -> frames target Q (model_predict m X).
Proof.
  intros HQ. unfold model_predict.
  apply frames_bind; [by apply frames_emit|]. intros _. apply frames_lift.
Qed.

End frames.

(** Goals of the form [frames target Q m], by the structure of [m]. *)
Ltac frames_step :=
  first
    [ apply frames_ret
    | apply frames_raise
    | apply frames_lift
    | apply frames_or_raise
    | apply frames_deref
    | apply frames_new
    | apply frames_modify
    | apply frames_emit; reflexivity
    | apply frames_show; reflexivity
    | apply frames_model_fit; reflexivity
    | apply frames_model_predict; reflexivity
    | apply frames_column
    | apply frames_try_except; [|intros ?]
    | apply frames_bind; [|intros ?]
    | match goal with
      | |- frames _ _ (let _ := _ in _) => cbv zeta
      | |- frames _ _ (match ?x with _ => _ end) => destruct x
      | |- frames _ _ (if ?b then _ else _) => destruct b
      end ].

Ltac frames_tac := repeat frames_step.

(** * Running the prediction renderer *)

Arguments pd.setitem : simpl never.
Arguments pd.shift_up : simpl never.
Arguments pd.dropna : simpl never.
Arguments pd.drop_column : simpl never.
Arguments pd.values : simpl never.
Arguments pd.last_rows : simpl never.
Arguments pd.of_dict : simpl never.

Section prediction_facts.

Context {source : YFinance} {ta : TA} {sk : Sklearn}.

Lemma lookup_snoc_new {A} (h : list A) (x : A) : (h ++ [x]) !! length h = Some x.
Proof. by rewrite lookup_app_r, Nat.sub_diag. Qed.

Lemma frame_at_new w h df : frame_at (set_heap (h ++ [df]) w) (length h) = Some df.
Proof. apply lookup_snoc_new. Qed.

Lemma insert_snoc_new {A} (h : list A) (x y : A) : <[length h := y]> (h ++ [x]) = h ++ [y].
Proof.
  rewrite insert_app_r_alt by lia. by rewrite Nat.sub_diag.
Qed.

Lemma bind_deref {A} r df (k : pd.DataFrame -> App A) w :
  frame_at w r = Some df -> bind (deref r) k w = k df w.
Proof. intros Hr. unfold bind, deref. by rewrite Hr. Qed.

Lemma labelled_label label df c : c ∈ pd.labelled label df -> c.1 = label.
Proof.
  intros [_ Hc]%list_elem_of_In%filter_In. by apply String.eqb_eq.
Qed.

Lemma labelled_idemp label df :
  pd.labelled label (pd.labelled label df) = pd.labelled label df.
Proof.
  unfold pd.labelled. induction df as [|c df IH]; [done|].
  cbn. destruct (String.eqb c.1 label) eqn:Hc; [|done].
  cbn. by rewrite Hc, IH.
Qed.

(** With a label that is not duplicated, df[[label]] is the one column
    df[label]. *)
Lemma labelled_single label df s :
  pd.getitem label df = Some s ->
  pd.duplicated label df = false ->
  pd.labelled label df = [(label, s)].
Proof.
  unfold pd.duplicated, pd.labelled.
  induction df as [|[l c] df IH]; [done|].
  cbn. destruct (String.eqb l label) eqn:Hl; [|done].
  apply String.eqb_eq in Hl as ->. intros [= ->]. cbn.
  destruct (List.filter _ df); [done|]. intros Hdup. by cbn in Hdup.
Qed.

Lemma getitem_labelled label df :
  pd.getitem label df = (fun c => c.2) <$> head (pd.labelled label df).
Proof.
  unfold pd.labelled. induction df as [|[l c] df IH]; [done|].
  cbn. by destruct (String.eqb l label).
Qed.

(** Lines 125-130. df[['Close']] is copied into a new frame object;
    with no Close column this raises, with several the assignment of
    the Target column raises, and with one the copy gets its Target
    column and the check reads that column. *)
Lemma train_and_predict_cases model r days w src :
  frame_at w r = Some src ->
  train_and_predict model r days w =
    match pd.labelled "Close" src with
    | [] => (Raise (Exception "'Close'"), w)
    | [(_, close)] =>
        let w1 :=
          set_heap (heap w ++ [[("Close", close); ("Target", pd.shift_up days close)]]) w in
        if forallb isnull (pd.shift_up days close) then
          show (st.error "⚠️ Not enough data to make predictions.") w1
        else fit_and_forecast model (length (heap w)) days w1
    | cols =>
        (Raise (Exception
                  "Cannot set a DataFrame with multiple columns to the single column Target"),
         set_heap (heap w ++ [cols]) w)
    end.
Proof.
  intros Hr. unfold train_and_predict.
  rewrite (bind_deref r src) by done. unfold pd.getitems.
  destruct (pd.labelled "Close" src) as [|[l close] rest] eqn:Hlab; [done|].
  assert (l = "Close") as ->.
  { apply (labelled_label "Close" src (l, close)). rewrite Hlab. by left. }
  assert (pd.labelled "Close" (("Close", close) :: rest) = ("Close", close) :: rest) as Hsame.
  { rewrite <- Hlab. apply labelled_idemp. }
  cbn [or_raise]. unfold bind at 1, ret. unfold bind at 1. cbn [new].
  rewrite (bind_deref (length (heap w)) (("Close", close) :: rest)) by apply frame_at_new.
  unfold pd.duplicated. rewrite Hsame.
  destruct rest as [|c2 rest]; [|done].
  cbn [length Nat.ltb Nat.leb].
  cbv beta iota zeta delta [bind deref column modify ret raise].
  rewrite frame_at_new. cbn.
  repeat (progress (rewrite ?frame_at_new, ?insert_snoc_new;
                    rewrite ?setitem_target by apply shift_up_length; cbn)).
  unfold set_heap. cbn. by destruct (forallb isnull _).
Qed.

Lemma train_and_predict_run model r days w src close :
  frame_at w r = Some src ->
  pd.getitem "Close" src = Some close ->
  pd.duplicated "Close" src = false ->
  train_and_predict model r days w =
    let w1 := set_heap (heap w ++ [[("Close", close); ("Target", pd.shift_up days close)]]) w in
    if forallb isnull (pd.shift_up days close) then
      show (st.error "⚠️ Not enough data to make predictions.") w1
    else fit_and_forecast model (length (heap w)) days w1.
Proof.
  intros Hr Hclose Hdup.
  rewrite (train_and_predict_cases model r days w src Hr).
  by rewrite (labelled_single "Close" src close Hclose Hdup).
Qed.

(** A run that gets past the assignment of the Target column had one
    Close column to read. *)
Lemma train_and_predict_ok_single model r days w src :
  frame_at w r = Some src ->
  (train_and_predict model r days w).1 = Ok tt ->
  pd.duplicated "Close" src = false.
Proof.
  intros Hr. rewrite (train_and_predict_cases model r days w src Hr).
  unfold pd.duplicated.
  by destruct (pd.labelled "Close" src) as [|[l close] [|c2 rest]].
Qed.

Lemma new_events_app w w' evs : trace w' = trace w ++ evs -> new_events w w' = evs.
Proof. intros H. unfold new_events. by rewrite H, drop_app_length. Qed.

Lemma omap_none {A B} (f : A -> option B) (Q : A -> bool) l :
  (forall x, Q x = true -> f x = None) -> forallb Q l = true -> omap f l = [].
Proof.
  intros Hf. induction l as [|x l IH]; [done|].
  cbn. intros [Hx Hl]%andb_true_iff. by rewrite (Hf x Hx), IH.
Qed.

(** Lines 132-150 start with the scaler's fit on the kept rows; what
    follows touches neither the heap nor the cache and does not fit a
    scaler again. *)
Lemma fit_and_forecast_run model df days w c t :
  frame_at w df = Some [("Close", c); ("Target", t)] ->
  length t = length c ->
  exists rest : App unit,
    fit_and_forecast model df days w
    = bind (emit (ScalerFit ((fun row => [row.1]) <$> kept_rows c t))) (fun _ => rest) w
    /\ frames None (fun e => negb (is_scaler_fit e)) rest.
Proof.
  intros Hdf Hlen. unfold fit_and_forecast.
  rewrite bind_deref with (df := [("Close", c); ("Target", t)]) by done.
  rewrite dropna_features, dropna_target by done. cbn [or_raise].
  eexists. split; [reflexivity|].
  frames_tac.
Qed.

Lemma fit_and_forecast_events model df days w c t :
  frame_at w df = Some [("Close", c); ("Target", t)] ->
  length t = length c ->
  let w' := (fit_and_forecast model df days w).2 in
  exists evs,
    trace w' = trace w ++ ScalerFit ((fun row => [row.1]) <$> kept_rows c t) :: evs
    /\ forallb (fun e => negb (is_scaler_fit e)) evs = true
    /\ cache w' = cache w
    /\ forall r, r < length (heap w) -> frame_at w' r = frame_at w r.
Proof.
  intros Hdf Hlen.
  destruct (fit_and_forecast_run model df days w c t Hdf Hlen) as (rest & -> & Hrest).
  unfold bind, emit. cbn.
  destruct (Hrest (set_trace (trace w ++ [ScalerFit ((fun row => [row.1]) <$> kept_rows c t)]) w))
    as (Hc & (evs & Ht & Hq) & Hl & Hh).
  exists evs. cbn in *. rewrite Ht, <- app_assoc. repeat split; try done.
  intros r Hr. by apply Hh.
Qed.

(** The first two steps of lines 132-150: the scaler is fit on the kept
    rows, and the rows handed to the split are those rows transformed
    by that scaler. *)
Lemma fit_and_forecast_start model df days w c t :
  frame_at w df = Some [("Close", c); ("Target", t)] ->
  length t = length c ->
  let features := (fun row => [row.1]) <$> kept_rows c t in
  let w1 := set_trace (trace w ++ [ScalerFit features]) w in
  match StandardScaler_fit features with
  | Raise e => fit_and_forecast model df days w = (Raise e, w1)
  | Ok scaler =>
      match StandardScaler_transform scaler features with
      | Raise e => fit_and_forecast model df days w = (Raise e, w1)
      | Ok X =>
          exists rest : App unit,
            fit_and_forecast model df days w
            = rest (set_trace (trace w1 ++ [Split X (kept_rows c t).*2 0.2%float 42]) w1)
            /\ frames None (fun e => negb (is_scaler_fit e)) rest
      end
  end.
Proof.
  intros Hdf Hlen. cbv zeta.
  set (run := fit_and_forecast model df days w).
  assert (run = fit_and_forecast model df days w) as Hrun by done. clearbody run.
  unfold fit_and_forecast in Hrun.
  rewrite bind_deref with (df := [("Close", c); ("Target", t)]) in Hrun by done.
  rewrite dropna_features, dropna_target in Hrun by done. cbn [or_raise] in Hrun.
  unfold bind at 1, ret in Hrun. unfold bind at 1, emit in Hrun.
  unfold bind at 1, lift in Hrun.
  destruct (StandardScaler_fit _) as [scaler|e]; [|done].
  unfold bind at 1 in Hrun.
  destruct (StandardScaler_transform scaler _) as [X|e]; [|done].
  unfold bind at 1 in Hrun.
  eexists. split; [exact Hrun|].
  frames_tac.
Qed.

Lemma fit_eligible_kept close days :
  fit_eligible close days
  = (fun row => [row.1]) <$> kept_rows close (pd.shift_up days close).
Proof.
  unfold fit_eligible.
  rewrite setitem_target by apply shift_up_length.
  apply dropna_features, shift_up_length.
Qed.

Lemma fit_eligible_length close days :
  Forall (fun x => isnull x = false) close ->
  length (fit_eligible close days) = length close - days.
Proof.
  intros Hc. rewrite fit_eligible_kept, length_fmap, kept_rows_defined by done.
  rewrite length_zip_with, length_take, length_drop. lia.
Qed.

Lemma forallb_replicate_NaN n : forallb isnull (replicate n NaN) = true.
Proof. induction n as [|n IH]; [done|]. cbn. apply IH. Qed.

(** With no missing Close value, every target is missing exactly when
    the series has at most [days] rows. *)
Lemma all_targets_null close days :
  Forall (fun x => isnull x = false) close ->
  forallb isnull (pd.shift_up days close) = true <-> length close <= days.
Proof.
  intros Hc. unfold pd.shift_up.
  rewrite forallb_app, forallb_replicate_NaN, andb_true_r.
  split.
  - intros Hall. destruct (drop days close) as [|x rest] eqn:Hdrop.
    + apply (f_equal length) in Hdrop. rewrite length_drop in Hdrop. cbn in Hdrop. lia.
    + cbn in Hall. apply andb_true_iff in Hall as [Hx _].
      assert (x ∈ close) as Hin.
      { apply (subseteq_drop days close). rewrite Hdrop. by left. }
      rewrite Forall_forall in Hc. rewrite (Hc x Hin) in Hx. discriminate.
  - intros Hle. by rewrite drop_ge.
Qed.

End prediction_facts.

(** * The prediction renderer *)

Section prediction_claims.

Context {sk : Sklearn}.

(** C1 (as amended). For a frame with one Close column of N rows whose
    values are all present and any horizon H (the slider gives 1..30),
    the fit-eligible rows, i.e. the feature rows left after shifting
    Close by H and dropping the incomplete rows, number max(0, N - H);
    that number is 0 exactly when every shifted target is missing, and
    then the run only reports the InsufficientData message and attempts
    no fit; otherwise its first step is the scaler's fit on those rows,
    whose exception, if it raises, ends the run. *)
Theorem insufficient_data_iff_no_eligible_row
    (model : estimator) (r : ref) (days : nat) (w : World)
    (src : pd.DataFrame) (close : Series) :
  frame_at w r = Some src ->
  pd.getitem "Close" src = Some close ->
  pd.duplicated "Close" src = false ->
  Forall (fun x => isnull x = false) close ->
  let X := fit_eligible close days in
  let run := train_and_predict model r days w in
  Z.of_nat (length X) = Z.max 0 (Z.of_nat (length close) - Z.of_nat days)
  /\ (length X = 0 <-> forallb isnull (pd.shift_up days close) = true)
  /\ (length X = 0 ->
      run.1 = Ok tt
      /\ new_events w run.2
         = [Shown (st.error "⚠️ Not enough data to make predictions.")])
  /\ (length X <> 0 ->
      head (new_events w run.2) = Some (ScalerFit X)
      /\ forall e, StandardScaler_fit X = Raise e -> run.1 = Raise e).
Proof.
  intros Hr Hclose Hdup Hc X run.
  assert (length X = length close - days) as HX by by apply fit_eligible_length.
  assert (length X = 0 <-> forallb isnull (pd.shift_up days close) = true) as Hiff.
  { rewrite all_targets_null by done. lia. }
  split; [lia|]. split; [done|].
  subst run. rewrite (train_and_predict_run model r days w src close) by done.
  cbv zeta. split.
  - intros H0. apply Hiff in H0. rewrite H0. split; [done|].
    unfold new_events. cbn. by rewrite drop_app_length.
  - intros Hpos. destruct (forallb isnull (pd.shift_up days close)) eqn:Hall.
    { exfalso. by apply Hpos, Hiff. }
    set (w1 := set_heap _ w).
    assert (frame_at w1 (length (heap w))
            = Some [("Close", close); ("Target", pd.shift_up days close)]) as Hnew
      by apply frame_at_new.
    subst X. rewrite fit_eligible_kept. split.
    + destruct (fit_and_forecast_events model (length (heap w)) days w1
                  close (pd.shift_up days close) Hnew (shift_up_length _ _))
        as (evs & Ht & _).
      by erewrite new_events_app by exact Ht.
    + intros e He.
      pose proof (fit_and_forecast_start model (length (heap w)) days w1
                    close (pd.shift_up days close) Hnew (shift_up_length _ _)) as Hstart.
      cbv zeta in Hstart. rewrite He in Hstart. by rewrite Hstart.
Qed.

(** C8. When the target check passes on a frame with one Close
    column, the scaler is fit exactly once, and it is fit on the Close
    values of the rows dropna keeps: the run ends with the exception of
    that fit if it raises, and otherwise the standardized rows handed
    to the split are those same rows transformed by the scaler that
    this fit returned. The kept rows are rows of the frame whose Close
    value and shifted target are both present, so a row dropped for a
    missing target adds nothing to the statistics. *)
Theorem scaler_fit_on_eligible_rows_only
    (model : estimator) (r : ref) (days : nat) (w : World)
    (src : pd.DataFrame) (close : Series) :
  frame_at w r = Some src ->
  pd.getitem "Close" src = Some close ->
  pd.duplicated "Close" src = false ->
  forallb isnull (pd.shift_up days close) = false ->
  let rows := kept_rows close (pd.shift_up days close) in
  let features := (fun row => [row.1]) <$> rows in
  let run := train_and_predict model r days w in
  scaler_fits run.2 = scaler_fits w ++ [features]
  /\ match StandardScaler_fit features with
     | Raise e => run.1 = Raise e /\ new_events w run.2 = [ScalerFit features]
     | Ok scaler =>
         match StandardScaler_transform scaler features with
         | Raise e => run.1 = Raise e /\ new_events w run.2 = [ScalerFit features]
         | Ok X =>
             exists evs,
               new_events w run.2
               = ScalerFit features :: Split X rows.*2 0.2%float 42 :: evs
               /\ forallb (fun e => negb (is_scaler_fit e)) evs = true
         end
     end
  /\ fit_eligible close days = features
  /\ rows `sublist_of` zip close (pd.shift_up days close)
  /\ Forall (fun row => isnull row.1 = false /\ isnull row.2 = false) rows
  /\ (Forall (fun x => isnull x = false) close ->
      features = (fun x => [x]) <$> take (length close - days) close).
Proof.
  intros Hr Hclose Hdup Hcheck rows features run.
  assert (run = train_and_predict model r days w) as Hrun by done. clearbody run.
  rewrite (train_and_predict_run model r days w src close) in Hrun by done.
  cbv zeta in Hrun. rewrite Hcheck in Hrun.
  set (w1 := set_heap _ w) in Hrun.
  assert (frame_at w1 (length (heap w))
          = Some [("Close", close); ("Target", pd.shift_up days close)]) as Hnew
    by apply frame_at_new.
  split; [|split; [|split; [apply fit_eligible_kept|split; [|split]]]].
  - destruct (fit_and_forecast_events model (length (heap w)) days w1
                close (pd.shift_up days close) Hnew (shift_up_length _ _))
      as (evs & Ht & Hq & _).
    subst run. unfold scaler_fits. rewrite Ht. cbn [trace set_heap w1].
    rewrite omap_app. cbn.
    rewrite (omap_none _ (fun e => negb (is_scaler_fit e)) evs); [done| |done].
    by intros [].
  - pose proof (fit_and_forecast_start model (length (heap w)) days w1
                  close (pd.shift_up days close) Hnew (shift_up_length _ _)) as Hstart.
    cbv zeta in Hstart. fold rows in Hstart. fold features in Hstart.
    destruct (StandardScaler_fit features) as [scaler|e].
    2:{ rewrite Hstart in Hrun. subst run. split; [done|]. by apply new_events_app. }
    destruct (StandardScaler_transform scaler features) as [X|e].
    2:{ rewrite Hstart in Hrun. subst run. split; [done|]. by apply new_events_app. }
    destruct Hstart as (rest & Hrest & Hframes).
    rewrite Hrest in Hrun.
    match type of Hrun with
    | run = rest ?w2 => destruct (Hframes w2) as (_ & (evs & Ht & Hq) & _)
    end.
    exists evs. split; [|done]. subst run.
    apply new_events_app. rewrite Ht. cbn. by rewrite <- !app_assoc.
  - subst rows. unfold kept_rows.
    induction (zip close (pd.shift_up days close)) as [|x l IH]; [done|].
    cbn. destruct (notnull x.1 && notnull x.2); by constructor.
  - subst rows. unfold kept_rows. apply Forall_forall. intros row Hin.
    apply list_elem_of_In, filter_In in Hin as [_ Hrow].
    apply andb_true_iff in Hrow as [H1 H2].
    unfold notnull in *. by destruct (isnull row.1), (isnull row.2).
  - intros Hc. subst features rows. rewrite kept_rows_defined by done.
    rewrite <- (fst_zip (take (length close - days) close) (drop days close)) at 2.
    + by rewrite <- list_fmap_compose.
    + rewrite length_take, length_drop. lia.
Qed.

End prediction_claims.


(** * Inverting a run that returned *)

Section inversion.

Context {sk : Sklearn} {A B : Type}.

Lemma bind_inv (m : App A) (k : A -> App B) w b w' :
  bind m k w = (Ok b, w') ->
  exists a w1, m w = (Ok a, w1) /\ k a w1 = (Ok b, w').
Proof.
  unfold bind. destruct (m w) as [[a|e] w1]; [|done]. by exists a, w1.
Qed.

Lemma lift_inv (r : result A) w a w' : lift r w = (Ok a, w') -> r = Ok a /\ w' = w.
Proof. unfold lift. by intros [= -> ->]. Qed.

Lemma or_raise_inv msg (o : option A) w a w' :
  or_raise msg o w = (Ok a, w') -> o = Some a /\ w' = w.
Proof. destruct o; cbn; [by intros [= -> ->]|done]. Qed.

Lemma emit_inv e w u w' : emit e w = (Ok u, w') -> w' = set_trace (trace w ++ [e]) w.
Proof. by intros [= _ <-]. Qed.

Lemma deref_inv r w df w' : deref r w = (Ok df, w') -> frame_at w r = Some df /\ w' = w.
Proof. unfold deref. destruct (frame_at w r); [by intros [= -> ->]|done]. Qed.

Lemma model_fit_inv model X y w m w' :
  model_fit model X y w = (Ok m, w') ->
  exists g, fit model (rng w) X y = Ok (m, g)
            /\ w' = set_rng g (set_trace (trace w ++ [ModelFit model X y]) w).
Proof.
  unfold model_fit, bind, emit, lift. cbn.
  destruct (fit model (rng w) X y) as [[m' g]|e]; [|done].
  intros [= -> <-]. by exists g.
Qed.

Lemma model_predict_inv m X w preds w' :
  model_predict m X w = (Ok preds, w') ->
  predict_with m X = Ok preds /\ w' = set_trace (trace w ++ [Predict X]) w.
Proof.
  unfold model_predict, bind, emit, lift. cbn.
  destruct (predict_with m X); [by intros [= -> <-]|done].
Qed.

End inversion.

(** From [H : m w = (Ok a, w')] to what each step of [m] returned. *)
Ltac monad_inv H :=
  cbv beta zeta in H;
  lazymatch type of H with
  | bind _ _ _ = (Ok _, _) =>
      let a := fresh "a" in
      let w1 := fresh "w" in
      let H1 := fresh "H" in
      apply bind_inv in H as (a & w1 & H1 & H);
      monad_inv H1; monad_inv H
  | lift _ _ = (Ok _, _) => apply lift_inv in H as [H ->]
  | or_raise _ _ _ = (Ok _, _) => apply or_raise_inv in H as [H ->]
  | emit _ _ = (Ok _, _) => apply emit_inv in H as ->
  | show _ _ = (Ok _, _) => apply emit_inv in H as ->
  | deref _ _ = (Ok _, _) => apply deref_inv in H as [H ->]
  | model_fit _ _ _ _ = (Ok _, _) =>
      let g := fresh "g" in
      apply model_fit_inv in H as (g & H & ->)
  | model_predict _ _ _ = (Ok _, _) => apply model_predict_inv in H as [H ->]
  | (let (_, _) := ?x in _) _ = (Ok _, _) => destruct x; monad_inv H
  | _ => idtac
  end.

Lemma shown_snoc w e : shown (set_trace (trace w ++ [Shown e]) w) = shown w ++ [e].
Proof. unfold shown. cbn. by rewrite omap_app. Qed.

(** * The forecast *)

Section forecast_claims.

Context {sk : Sklearn}.

(** When some target is present the series is longer than the horizon,
    so the last [days] raw rows are exactly [days] rows. *)
Lemma last_rows_close close days :
  forallb isnull (pd.shift_up days close) = false ->
  1 <= days ->
  pd.last_rows days (pd.values [("Close", close)])
  = (fun x => [x]) <$> drop (length close - days) close
  /\ length (drop (length close - days) close) = days.
Proof.
  intros Hcheck Hdays.
  assert (days < length close) as Hlt.
  { destruct (decide (days < length close)) as [|Hge]; [done|].
    unfold pd.shift_up in Hcheck. rewrite drop_ge in Hcheck by lia.
    cbn in Hcheck. by rewrite forallb_replicate_NaN in Hcheck. }
  split.
  - unfold pd.last_rows. destruct days as [|d]; [lia|].
    rewrite values_single, length_fmap. by rewrite fmap_drop.
  - rewrite length_drop. lia.
Qed.

(** The run goes through when every call of the modelling library
    returns and the model predicts one value per forecast row. *)
Lemma train_and_predict_returns
    (model : estimator) (r : ref) (days : nat) (w : World)
    (src : pd.DataFrame) (close : Series)
    scaler X X_train X_test y_train y_test fitted_model g test_preds r2 mae future preds :
  frame_at w r = Some src ->
  pd.getitem "Close" src = Some close ->
  pd.duplicated "Close" src = false ->
  forallb isnull (pd.shift_up days close) = false ->
  1 <= days ->
  let rows := kept_rows close (pd.shift_up days close) in
  StandardScaler_fit ((fun row => [row.1]) <$> rows) = Ok scaler ->
  StandardScaler_transform scaler ((fun row => [row.1]) <$> rows) = Ok X ->
  train_test_split X rows.*2 0.2%float 42 = Ok (X_train, X_test, y_train, y_test) ->
  fit model (rng w) X_train y_train = Ok (fitted_model, g) ->
  predict_with fitted_model X_test = Ok test_preds ->
  r2_score y_test test_preds = Ok r2 ->
  mean_absolute_error y_test test_preds = Ok mae ->
  StandardScaler_transform scaler ((fun x => [x]) <$> drop (length close - days) close)
  = Ok future ->
  predict_with fitted_model future = Ok preds ->
  length preds = days ->
  (train_and_predict model r days w).1 = Ok tt.
Proof.
  intros Hr Hclose Hdup Hcheck Hdays rows Hfit Htr Hsplit Hmodel Htest Hr2 Hmae Hfut Hpred Hlen.
  destruct (last_rows_close close days Hcheck Hdays) as [Hlast _].
  rewrite (train_and_predict_run model r days w src close) by done.
  cbv zeta. rewrite Hcheck.
  cbv beta iota zeta delta
    [fit_and_forecast bind deref or_raise ret raise lift emit show model_fit model_predict].
  rewrite frame_at_new.
  rewrite dropna_features, dropna_target by apply shift_up_length.
  fold rows. rewrite Hfit, Htr, Hsplit. cbn. rewrite Hmodel. cbn.
  rewrite Htest, Hr2, Hmae. cbn.
  rewrite Hlast, Hfut, Hpred.
  unfold pd.of_dict. rewrite bool_decide_eq_true_2; [done|].
  unfold py.range. rewrite !length_fmap, length_seq. lia.
Qed.

Lemma range_days (days : nat) :
  Int <$> py.range 1 (days + 1) = (fun i => Int (Z.of_nat i)) <$> seq 1 days.
Proof.
  unfold py.range. rewrite <- list_fmap_compose.
  by replace (days + 1 - 1) with days by lia.
Qed.

(** When the check passes, a completed run displays the forecast table
    last, built as line 148 says. *)
Lemma completed_run_displays_forecast
    (model : estimator) (r : ref) (days : nat) (w : World)
    (src : pd.DataFrame) (close : Series) :
  frame_at w r = Some src ->
  pd.getitem "Close" src = Some close ->
  forallb isnull (pd.shift_up days close) = false ->
  1 <= days ->
  (train_and_predict model r days w).1 = Ok tt ->
  let rows := kept_rows close (pd.shift_up days close) in
  let last_closes := drop (length close - days) close in
  exists scaler X X_train X_test y_train y_test fitted_model g future preds,
    StandardScaler_fit ((fun row => [row.1]) <$> rows) = Ok scaler
    /\ StandardScaler_transform scaler ((fun row => [row.1]) <$> rows) = Ok X
    /\ train_test_split X rows.*2 0.2%float 42 = Ok (X_train, X_test, y_train, y_test)
    /\ fit model (rng w) X_train y_train = Ok (fitted_model, g)
    /\ StandardScaler_transform scaler ((fun x => [x]) <$> last_closes) = Ok future
    /\ predict_with fitted_model future = Ok preds
    /\ length preds = days
    /\ last (shown (train_and_predict model r days w).2)
       = Some (st.dataframe
                 [("Day", (fun i => Int (Z.of_nat i)) <$> seq 1 days);
                  ("Predicted Price", Num <$> preds)]).
Proof.
  intros Hr Hclose Hcheck Hdays Hok.
  pose proof (train_and_predict_ok_single model r days w src Hr Hok) as Hdup.
  revert Hok.
  destruct (last_rows_close close days Hcheck Hdays) as [Hlast Hlen].
  rewrite (train_and_predict_run model r days w src close) by done.
  cbv zeta. rewrite Hcheck.
  set (w1 := set_heap _ w).
  destruct (fit_and_forecast model (length (heap w)) days w1) as [res w'] eqn:Hrun.
  cbn [fst snd]. intros ->. unfold fit_and_forecast in Hrun.
  monad_inv Hrun.
  subst w1. rewrite frame_at_new in H. injection H as <-.
  rewrite dropna_features in * by apply shift_up_length.
  rewrite dropna_target in H0 by apply shift_up_length. injection H0 as <-.
  cbn in H8. injection H8 as <-. rewrite Hlast in H9.
  unfold pd.of_dict in H11. case_bool_decide as Hrows; [|done]. injection H11 as <-.
  unfold py.range in Hrows. rewrite !length_fmap, length_seq in Hrows.
  exists a2, a3, m, m0, s0, s, a5, g, a14, a15.
  repeat split; try done; try lia.
  by rewrite shown_snoc, last_snoc, range_days.
Qed.

(** C2 (as amended). Take a run on a frame with one Close column that
    passes the target check with horizon H >= 1. The last H raw Close
    values are exactly H rows. If the run is not cut short by an
    exception of a library call, it ends by displaying the forecast
    table: the scaler that was fit on the feature rows is applied to
    those H raw values, the model that was fit on the training part of
    the split predicts from the result, and the table pairs the day
    offsets 1, 2, ..., H, in this order, with the H predictions. And the
    run is not cut short when every call of the modelling library
    returns and the model predicts one value per row. *)
Theorem forecast_table_has_one_row_per_day
    (model : estimator) (r : ref) (days : nat) (w : World)
    (src : pd.DataFrame) (close : Series) :
  frame_at w r = Some src ->
  pd.getitem "Close" src = Some close ->
  pd.duplicated "Close" src = false ->
  forallb isnull (pd.shift_up days close) = false ->
  1 <= days ->
  let rows := kept_rows close (pd.shift_up days close) in
  let last_closes := drop (length close - days) close in
  let run := train_and_predict model r days w in
  length last_closes = days
  /\ (run.1 = Ok tt ->
      exists scaler X X_train X_test y_train y_test fitted_model g future preds,
        StandardScaler_fit ((fun row => [row.1]) <$> rows) = Ok scaler
        /\ StandardScaler_transform scaler ((fun row => [row.1]) <$> rows) = Ok X
        /\ train_test_split X rows.*2 0.2%float 42 = Ok (X_train, X_test, y_train, y_test)
        /\ fit model (rng w) X_train y_train = Ok (fitted_model, g)
        /\ StandardScaler_transform scaler ((fun x => [x]) <$> last_closes) = Ok future
        /\ predict_with fitted_model future = Ok preds
        /\ length preds = days
        /\ last (shown run.2)
           = Some (st.dataframe
                     [("Day", (fun i => Int (Z.of_nat i)) <$> seq 1 days);
                      ("Predicted Price", Num <$> preds)]))
  /\ (forall scaler X X_train X_test y_train y_test fitted_model g
             test_preds r2 mae future preds,
        StandardScaler_fit ((fun row => [row.1]) <$> rows) = Ok scaler ->
        StandardScaler_transform scaler ((fun row => [row.1]) <$> rows) = Ok X ->
        train_test_split X rows.*2 0.2%float 42 = Ok (X_train, X_test, y_train, y_test) ->
        fit model (rng w) X_train y_train = Ok (fitted_model, g) ->
        predict_with fitted_model X_test = Ok test_preds ->
        r2_score y_test test_preds = Ok r2 ->
        mean_absolute_error y_test test_preds = Ok mae ->
        StandardScaler_transform scaler ((fun x => [x]) <$> last_closes) = Ok future ->
        predict_with fitted_model future = Ok preds ->
        length preds = days ->
        run.1 = Ok tt).
Proof.
  intros Hr Hclose Hdup Hcheck Hdays rows last_closes run.
  split; [|split].
  - by destruct (last_rows_close close days Hcheck Hdays).
  - intros Hrun.
    apply (completed_run_displays_forecast model r days w src close); done.
  - intros. by eapply (train_and_predict_returns model r days w src close).
Qed.

End forecast_claims.

(** * Reproducibility *)

Section rng.

Context {sk : Sklearn}.

Lemma same_but_rng_set g w : same_but_rng w (set_rng g w).
Proof. done. Qed.

Lemma rng_blind_ret {A} (a : A) : rng_blind (ret a).
Proof. by intros w1 w2 H. Qed.

Lemma rng_blind_raise {A} e : rng_blind (@raise A e).
Proof. by intros w1 w2 H. Qed.

Lemma rng_blind_lift {A} (r : result A) : rng_blind (lift r).
Proof. by intros w1 w2 H. Qed.

Lemma rng_blind_or_raise {A} msg (o : option A) : rng_blind (or_raise msg o).
Proof. destruct o; [apply rng_blind_ret|apply rng_blind_raise]. Qed.

Lemma rng_blind_emit e : rng_blind (emit e).
Proof.
  intros w1 w2 (Ht & Hc & Hh). split; [done|].
  repeat split; cbn; congruence.
Qed.

Lemma rng_blind_show e : rng_blind (show e).
Proof. apply rng_blind_emit. Qed.

Lemma rng_blind_deref r : rng_blind (deref r).
Proof.
  intros w1 w2 (Ht & Hc & Hh). unfold deref, frame_at. rewrite Hh.
  by destruct (heap w2 !! r).
Qed.

Lemma rng_blind_new df : rng_blind (new df).
Proof.
  intros w1 w2 (Ht & Hc & Hh). unfold new. cbn. rewrite Hh. split; [done|].
  repeat split; cbn; congruence.
Qed.

Lemma rng_blind_modify r f : rng_blind (modify r f).
Proof.
  intros w1 w2 (Ht & Hc & Hh). unfold modify, frame_at. rewrite Hh.
  destruct (heap w2 !! r); [|done].
  split; [done|]. repeat split; cbn; congruence.
Qed.

Lemma rng_blind_bind {A B} (m : App A) (k : A -> App B) :
  rng_blind m -> (forall a, rng_blind (k a)) -> rng_blind (bind m k).
Proof.
  intros Hm Hk w1 w2 Hw. unfold bind.
  destruct (Hm w1 w2 Hw) as [Hres Hw'].
  destruct (m w1) as [[a1|e1] w1'], (m w2) as [[a2|e2] w2']; cbn in *; try done.
  - injection Hres as <-. by apply Hk.
  - by injection Hres as <-.
Qed.

Lemma rng_blind_model_predict m X : rng_blind (model_predict m X).
Proof.
  unfold model_predict. apply rng_blind_bind; [apply rng_blind_emit|].
  intros _. apply rng_blind_lift.
Qed.

Lemma rng_blind_model_fit model X y :
  deterministic_fit model -> rng_blind (model_fit model X y).
Proof.
  intros Hdet w1 w2 (Ht & Hc & Hh).
  unfold model_fit, bind, emit, lift. cbn.
  specialize (Hdet (rng w1) (rng w2) X y).
  destruct (fit model (rng w1) X y) as [[m1 g1]|e1],
           (fit model (rng w2) X y) as [[m2 g2]|e2]; cbn in *; try done.
  - injection Hdet as <-. split; [done|]. repeat split; cbn; congruence.
  - injection Hdet as <-. split; [done|]. repeat split; cbn; congruence.
Qed.

Lemma same_split_blind {A} (m : App A) : rng_blind m -> same_split m.
Proof.
  intros Hm w1 w2 Hw. destruct (Hm w1 w2 Hw) as [_ (Ht & _)].
  unfold same_fits, scaler_fits, splits, model_fits. by rewrite Ht.
Qed.

Lemma same_split_bind {A B} (m : App A) (k : A -> App B) :
  rng_blind m -> (forall a, same_split (k a)) -> same_split (bind m k).
Proof.
  intros Hm Hk w1 w2 Hw. unfold bind.
  destruct (Hm w1 w2 Hw) as [Hres Hw'].
  destruct (m w1) as [[a1|e1] w1'], (m w2) as [[a2|e2] w2']; cbn in *; try done.
  - injection Hres as <-. by apply Hk.
  - destruct Hw' as (Ht & _).
    unfold same_fits, scaler_fits, splits, model_fits. by rewrite Ht.
Qed.

Lemma after_fit_projections w w' :
  frame_rel None after_fit w w' ->
  scaler_fits w' = scaler_fits w /\ splits w' = splits w /\ model_fits w' = model_fits w.
Proof.
  intros (_ & (evs & Ht & Hq) & _).
  unfold scaler_fits, splits, model_fits. rewrite Ht, !omap_app.
  rewrite !(omap_none _ after_fit evs), !app_nil_r; try done.
  all: by intros [].
Qed.

(** The model's fit is handed the same data in both runs; what comes
    after it only predicts and displays. *)
Lemma same_split_model_fit {B} model X y (k : fitted -> App B) :
  (forall m, frames None after_fit (k m)) ->
  same_split (bind (model_fit model X y) k).
Proof.
  intros Hk w1 w2 (Ht & Hc & Hh).
  unfold bind, model_fit, emit, lift. cbn.
  assert (forall w g m,
    same_fits (k m (set_rng g (set_trace (trace w ++ [ModelFit model X y]) w))).2
              (set_trace (trace w ++ [ModelFit model X y]) w)) as Hafter.
  { intros w g m. apply after_fit_projections.
    destruct (Hk m (set_rng g (set_trace (trace w ++ [ModelFit model X y]) w)))
      as (? & ? & ? & ?). by repeat split. }
  assert (same_fits (set_trace (trace w1 ++ [ModelFit model X y]) w1)
                    (set_trace (trace w2 ++ [ModelFit model X y]) w2)) as Hsame.
  { unfold same_fits, scaler_fits, splits, model_fits. cbn. by rewrite Ht. }
  destruct Hsame as (S1 & S2 & S3).
  destruct (fit model (rng w1) X y) as [[m1 g1]|e1],
           (fit model (rng w2) X y) as [[m2 g2]|e2]; cbn.
  - destruct (Hafter w1 g1 m1) as (A1 & A2 & A3), (Hafter w2 g2 m2) as (B1 & B2 & B3).
    repeat split; congruence.
  - destruct (Hafter w1 g1 m1) as (A1 & A2 & A3). repeat split; congruence.
  - destruct (Hafter w2 g2 m2) as (B1 & B2 & B3). repeat split; congruence.
  - by repeat split.
Qed.

End rng.

Ltac rng_blind_step :=
  first
    [ apply rng_blind_ret
    | apply rng_blind_raise
    | apply rng_blind_lift
    | apply rng_blind_or_raise
    | apply rng_blind_deref
    | apply rng_blind_new
    | apply rng_blind_modify
    | apply rng_blind_emit
    | apply rng_blind_show
    | apply rng_blind_model_predict
    | apply rng_blind_model_fit; assumption
    | apply rng_blind_bind; [|intros ?]
    | match goal with
      | |- rng_blind (match ?x with _ => _ end) => destruct x
      | |- rng_blind (if ?b then _ else _) => destruct b
      end ].

Ltac rng_blind_tac := repeat rng_blind_step.

Ltac same_split_step :=
  first
    [ apply same_split_model_fit; intros ?
    | apply same_split_bind; [rng_blind_tac|intros ?]
    | match goal with
      | |- same_split (match ?x with _ => _ end) => destruct x
      | |- same_split (if ?b then _ else _) => destruct b
      end
    | apply same_split_blind; rng_blind_tac ].

Section reproducibility.

Context {sk : Sklearn}.

Lemma rng_blind_column r label : rng_blind (column r label).
Proof. unfold column. rng_blind_tac. Qed.

Lemma rng_blind_train_and_predict model r days :
  deterministic_fit model -> rng_blind (train_and_predict model r days).
Proof.
  intros Hdet. unfold train_and_predict, fit_and_forecast.
  rng_blind_tac; try apply rng_blind_column; rng_blind_tac.
  all: try apply rng_blind_column; rng_blind_tac.
Qed.

Lemma same_split_train_and_predict model r days :
  same_split (train_and_predict model r days).
Proof.
  unfold train_and_predict, fit_and_forecast.
  repeat same_split_step. frames_tac.
Qed.

(** C5 (as amended). Take two runs of the prediction renderer on the
    same session state (same series, model and horizon) that start from
    different states of the process-wide random generator. The scaler,
    the seeded train/test split and the model's fit are handed the same
    data in both runs. If the fit of the chosen model does not depend on
    the generator, both runs also end alike and leave the same trace:
    the same R2 and mean absolute error are written and the same
    forecast is displayed. (The estimators are built without
    random_state, so for a randomized one nothing fixes the fit.) *)
Theorem same_split_and_same_output_for_deterministic_fit
    (model : estimator) (r : ref) (days : nat) (w : World) (g : nat) :
  let run1 := train_and_predict model r days w in
  let run2 := train_and_predict model r days (set_rng g w) in
  (scaler_fits run1.2 = scaler_fits run2.2
   /\ splits run1.2 = splits run2.2
   /\ model_fits run1.2 = model_fits run2.2)
  /\ (deterministic_fit model ->
      run1.1 = run2.1 /\ trace run1.2 = trace run2.2 /\ shown run1.2 = shown run2.2).
Proof.
  intros run1 run2. split.
  - apply (same_split_train_and_predict model r days w (set_rng g w)).
    apply same_but_rng_set.
  - intros Hdet.
    destruct (rng_blind_train_and_predict model r days Hdet w (set_rng g w))
      as (Hres & Ht & _); [apply same_but_rng_set|].
    subst run1 run2. repeat split; try done.
    unfold shown. by rewrite Ht.
Qed.

End reproducibility.

(** * Renderers and the session state *)

Section renderers.

Context {source : YFinance} {ta : TA} {sk : Sklearn}.

Lemma frames_plot_chart target Q df title y_column color :
  (forall e, Q (Shown e) = true) ->
  frames target Q (plot_chart df title y_column color).
Proof.
  intros HQ. unfold plot_chart.
  frames_tac; apply frames_show, HQ.
Qed.

Lemma frames_fit_and_forecast model df days :
  frames None any_event (fit_and_forecast model df days).
Proof. unfold fit_and_forecast. frames_tac. Qed.

(** The prediction renderer works on a frame object of its own: what
    holds of the events of lines 132-150 and of a displayed element
    holds of the events of the whole renderer. *)
Lemma frames_train_and_predict_of Q model r days :
  (forall e, Q (Shown e) = true) ->
  (forall df, frames None Q (fit_and_forecast model df days)) ->
  frames None Q (train_and_predict model r days).
Proof.
  intros HQ Hfit w.
  destruct (frame_at w r) as [src|] eqn:Hr.
  2:{ unfold train_and_predict, bind, deref. rewrite Hr. apply frame_rel_refl. }
  rewrite (train_and_predict_cases model r days w src Hr).
  destruct (pd.labelled "Close" src) as [|[l close] [|c2 rest]].
  - apply frame_rel_refl.
  - cbv zeta. eapply frame_rel_trans.
    + apply (frames_new None Q
               [("Close", close); ("Target", pd.shift_up days close)] w).
    + cbn [new snd]. destruct (forallb isnull (pd.shift_up days close)).
      * by apply frames_show.
      * apply Hfit.
  - apply (frames_new None Q ((l, close) :: c2 :: rest) w).
Qed.

Lemma frames_train_and_predict model r days :
  frames None any_event (train_and_predict model r days).
Proof.
  apply frames_train_and_predict_of; [done|]. intros df. apply frames_fit_and_forecast.
Qed.

Lemma frames_predict widgets r : frames None any_event (predict widgets r).
Proof.
  unfold predict. apply frames_bind; [by apply frames_show|]. intros _.
  destruct (st.predict_button widgets); [|apply frames_ret].
  apply frames_bind; [apply frames_or_raise|].
  intros model. apply frames_train_and_predict.
Qed.

Lemma frames_dataframe r : frames None any_event (dataframe r).
Proof. unfold dataframe. frames_tac. Qed.

Lemma frames_compute_indicators Q r : frames (Some r) Q (compute_indicators r).
Proof. unfold compute_indicators, assign. frames_tac. Qed.

Lemma frames_tech_indicators widgets r :
  frames (Some r) any_event (tech_indicators widgets r).
Proof.
  unfold tech_indicators. frames_tac.
Qed.

End renderers.

(** * The data loader and its cache *)

Section loader.

Context {source : YFinance} {ta : TA} {sk : Sklearn}.

(** What the function under the decorator does: it never raises; it
    returns None after an exception of the source or an empty answer,
    and a new frame object otherwise. *)
Lemma download_data_body_run k w :
  download_data_body k w =
    let w1 := set_trace (trace w ++ [Download k]) w in
    let failed msg :=
      (Ok None,
       set_trace (trace w1 ++ [Shown (st.error ("❌ Error downloading data: " +:+ msg))]) w1) in
    match download k (length (downloads w)) with
    | Raise (Exception msg) => failed msg
    | Ok df =>
        if yf.empty df then
          (Ok None,
           set_trace (trace w1 ++ [Shown (st.error
             "⚠️ No data found for the given stock symbol and date range.")]) w1)
        else
          match reset_index df with
          | Raise (Exception msg) => failed msg
          | Ok (cols, data) =>
              (Ok (Some (length (heap w))),
               set_heap (heap w ++ [zip (normalize_columns cols) data]) w1)
          end
    end.
Proof.
  unfold download_data_body, try_except, yf_download, bind, emit, lift, show, new, ret. cbn.
  destruct (download k (length (downloads w))) as [df|[msg]]; [|done].
  destruct (yf.empty df); [done|].
  by destruct (reset_index df) as [[cols data]|[msg]].
Qed.

Lemma downloads_snoc w k : downloads (set_trace (trace w ++ [Download k]) w) = downloads w ++ [k].
Proof. unfold downloads. cbn. by rewrite omap_app. Qed.

Lemma downloads_shown w els :
  downloads (set_trace (trace w ++ (Shown <$> els)) w) = downloads w.
Proof.
  unfold downloads. cbn. rewrite omap_app.
  rewrite (omap_none _ (fun e => negb (is_download e)) (Shown <$> els)).
  - by rewrite app_nil_r.
  - by intros [].
  - induction els; [done|]. cbn. done.
Qed.

(** A hit: the stored elements are shown again, the stored value comes
    back as a new object, and nothing is downloaded. *)
Lemma download_data_hit k w entry :
  cache w !! k = Some entry ->
  let w1 := set_trace (trace w ++ (Shown <$> cached_elements entry)) w in
  download_data k w =
    match cached_value entry with
    | Some df => (Ok (Some (length (heap w))), set_heap (heap w ++ [df]) w1)
    | None => (Ok None, w1)
    end.
Proof.
  intros Hk. unfold download_data, cache_data. rewrite Hk.
  unfold bind, new, ret. cbn. by destruct (cached_value entry).
Qed.

(** Whatever the call returns, an exception of the source and an empty
    answer included, it is what the cache holds for the key afterwards;
    older entries stay as they are. *)
Lemma download_data_cached k w :
  let run := download_data k w in
  exists res entry,
    run.1 = Ok res
    /\ cache run.2 !! k = Some entry
    /\ cached_value entry = res ≫= frame_at run.2
    /\ (forall k' e, cache w !! k' = Some e -> cache run.2 !! k' = Some e).
Proof.
  cbv zeta. destruct (cache w !! k) as [entry|] eqn:Hk.
  - rewrite (download_data_hit k w entry Hk). cbv zeta.
    destruct (cached_value entry) as [df|] eqn:Hv.
    + exists (Some (length (heap w))), entry. cbn.
      repeat split; try done. by rewrite frame_at_new.
    + exists None, entry. by cbn.
  - unfold download_data, cache_data. rewrite Hk.
    rewrite download_data_body_run. cbv zeta.
    destruct (download k (length (downloads w))) as [df|[msg]].
    + destruct (yf.empty df).
      * eexists None, _. cbn. rewrite lookup_insert_eq. repeat split; try done.
        intros k' e Hk'. rewrite lookup_insert_ne; [done|congruence].
      * destruct (reset_index df) as [[cols data]|[msg]].
        -- eexists (Some _), _. cbn. rewrite lookup_insert_eq. repeat split; try done.
           intros k' e Hk'. rewrite lookup_insert_ne; [done|congruence].
        -- eexists None, _. cbn. rewrite lookup_insert_eq. repeat split; try done.
           intros k' e Hk'. rewrite lookup_insert_ne; [done|congruence].
    + eexists None, _. cbn. rewrite lookup_insert_eq. repeat split; try done.
      intros k' e Hk'. rewrite lookup_insert_ne; [done|congruence].
Qed.

(** A script run never changes an entry of the cache. *)
Lemma main_keeps_cache widgets w k e :
  cache w !! k = Some e -> cache (main widgets w).2 !! k = Some e.
Proof.
  intros Hk. unfold main.
  destruct (st.load_data widgets); [|done].
  destruct (date_lt _ _); [|done].
  unfold bind at 1. cbn [show emit].
  set (w1 := set_trace _ w). set (key := (_, _, _)).
  assert (cache w1 !! k = Some e) as Hk1 by done.
  unfold bind.
  destruct (download_data_cached key w1) as (res & entry & Hres & _ & _ & Hold).
  destruct (download_data key w1) as [r1 w2]. cbn in Hres, Hold. subst r1.
  specialize (Hold k e Hk1).
  destruct res as [df|]; [|done].
  destruct (String.eqb _ "Visualize").
  { destruct (frames_tech_indicators widgets df w2) as (Hc & _). by rewrite Hc. }
  destruct (String.eqb _ "Recent Data").
  { destruct (frames_dataframe df w2) as (Hc & _). by rewrite Hc. }
  destruct (frames_predict widgets df w2) as (Hc & _). by rewrite Hc.
Qed.



End loader.

(** * The indicator renderer *)

Section indicators.

Context {source : YFinance} {ta : TA} {sk : Sklearn}.

Lemma world_as_update w r df :
  frame_at w r = Some df -> w = set_heap (<[r := df]> (heap w)) w.
Proof.
  intros Hr. unfold set_heap. rewrite list_insert_id by done. by destruct w.
Qed.

Lemma frame_at_update h w r df :
  r < length h -> frame_at (set_heap (<[r := df]> h) w) r = Some df.
Proof. intros Hr. unfold frame_at. cbn. by apply list_lookup_insert_eq. Qed.

Lemma assign_run {A} r label res h w df (k : unit -> App A) :
  r < length h ->
  bind (assign r label res) k (set_heap (<[r := df]> h) w) =
    match res with
    | Ok s => k tt (set_heap (<[r := pd.setitem label s df]> h) w)
    | Raise e => (Raise e, set_heap (<[r := df]> h) w)
    end.
Proof.
  intros Hr. unfold assign, bind, lift, modify.
  destruct res as [s|e]; [|done].
  rewrite frame_at_update by done. cbn.
  by rewrite list_insert_insert_eq.
Qed.

Lemma assign_last r label res h w df :
  r < length h ->
  assign r label res (set_heap (<[r := df]> h) w) =
    match res with
    | Ok s => (Ok tt, set_heap (<[r := pd.setitem label s df]> h) w)
    | Raise e => (Raise e, set_heap (<[r := df]> h) w)
    end.
Proof.
  intros Hr. unfold assign, bind, lift, modify.
  destruct res as [s|e]; [|done].
  rewrite frame_at_update by done. cbn.
  by rewrite list_insert_insert_eq.
Qed.

Lemma bind_column {A} r label df s (k : Series -> App A) w :
  frame_at w r = Some df -> pd.getitem label df = Some s ->
  bind (column r label) k w = k s w.
Proof.
  intros Hr Hs. unfold column, bind, deref, ret. by rewrite Hr, Hs.
Qed.

(** Lines 73-80: when the six computations return, their series are
    stored, in order, in the frame object itself; when one raises, the
    exception leaves the block and nothing has been displayed. *)
Lemma compute_indicators_cases r w src close run :
  frame_at w r = Some src ->
  pd.getitem "Close" src = Some close ->
  run = compute_indicators r w ->
  match indicator_columns (squeeze close) with
  | Ok cols => run = (Ok tt, set_heap (<[r := add_columns src cols]> (heap w)) w)
  | Raise e => run.1 = Raise e /\ trace run.2 = trace w /\ cache run.2 = cache w
  end.
Proof.
  intros Hr Hclose Hrun.
  assert (r < length (heap w)) as Hlt by by eapply lookup_lt_Some.
  unfold compute_indicators in Hrun.
  rewrite (bind_column r "Close" src close) in Hrun by done. cbv zeta in Hrun.
  rewrite (world_as_update w r src Hr) in Hrun.
  unfold indicator_columns. revert Hrun.
  repeat (rewrite assign_run by done;
          match goal with
          | |- context [match ?res with Ok _ => _ | Raise _ => _ end] =>
              destruct res as [?|?]; [|by intros ->]
          end).
  rewrite assign_last by done.
  destruct (ema_indicator (squeeze close)); by intros ->.
Qed.

(** Lines 73-80: when the six computations return, their series are
    stored, in order, in the frame object itself; when one raises, the
    exception leaves the block and nothing has been displayed. *)
Lemma compute_indicators_run r w src close :
  frame_at w r = Some src ->
  pd.getitem "Close" src = Some close ->
  match indicator_columns (squeeze close) with
  | Ok cols =>
      compute_indicators r w
      = (Ok tt, set_heap (<[r := add_columns src cols]> (heap w)) w)
  | Raise e =>
      (compute_indicators r w).1 = Raise e
      /\ trace (compute_indicators r w).2 = trace w
      /\ cache (compute_indicators r w).2 = cache w
  end.
Proof.
  intros Hr Hclose.
  apply (compute_indicators_cases r w src close _ Hr Hclose eq_refl).
Qed.

Lemma has_column_getitem label df s :
  pd.getitem label df = Some s -> pd.has_column label df = true.
Proof.
  unfold pd.has_column, pd.columns.
  induction df as [|[l c] df IH]; cbn; [done|].
  rewrite (String.eqb_sym label l).
  destruct (String.eqb l label); [done|]. apply IH.
Qed.

Lemma frames_plotting target widgets r :
  frames target no_indicator_error
    (let option := st.indicator widgets in
     if String.eqb option "Close" then plot_chart r "Close Price" "Close" "blue"
     else if String.eqb option "Bollinger Bands" then
       let* cur := deref r in
       let* fig := lift (bollinger_figure cur) in
       show (st.plotly_chart fig)
     else if String.eqb option "MACD" then plot_chart r "MACD" "macd" "red"
     else if String.eqb option "RSI" then
       plot_chart r "RSI (Relative Strength Index)" "rsi" "purple"
     else if String.eqb option "SMA" then
       plot_chart r "Simple Moving Average" "sma" "orange"
     else plot_chart r "Exponential Moving Average" "ema" "green").
Proof. frames_tac. Qed.

(** The indicator renderer on a frame that has a Close column. *)
Lemma tech_indicators_run widgets r w src close :
  frame_at w r = Some src ->
  pd.getitem "Close" src = Some close ->
  let run := tech_indicators widgets r w in
  match indicator_columns (squeeze close) with
  | Raise (Exception msg) =>
      run.1 = Ok tt
      /\ new_events w run.2
         = [Shown (st.header "📊 Technical Indicators");
            Shown (st.error ("❌ Error calculating indicators: " +:+ msg))]
  | Ok cols =>
      exists evs,
        new_events w run.2 = Shown (st.header "📊 Technical Indicators") :: evs
        /\ forallb no_indicator_error evs = true
        /\ frame_at run.2 r = Some (add_columns src cols)
  end.
Proof.
  intros Hr Hclose run.
  assert (run = tech_indicators widgets r w) as Hrun by done. clearbody run.
  assert (r < length (heap w)) as Hlt by by eapply lookup_lt_Some.
  unfold tech_indicators in Hrun. unfold bind at 1 in Hrun. cbn [show emit] in Hrun.
  set (w0 := set_trace _ w) in Hrun.
  rewrite (bind_deref r src) in Hrun by done.
  rewrite (has_column_getitem "Close" src close Hclose) in Hrun. cbn [negb] in Hrun.
  unfold bind at 1 in Hrun. unfold try_except in Hrun. unfold bind at 1 in Hrun.
  pose proof (compute_indicators_run r w0 src close Hr Hclose) as Hcomp.
  destruct (indicator_columns (squeeze close)) as [cols|[msg]].
  - rewrite Hcomp in Hrun. cbn [ret negb] in Hrun.
    set (w1 := set_heap _ w0) in Hrun.
    destruct (frames_plotting None widgets r w1) as (_ & (evs & Ht & Hq) & _ & Hh).
    cbv zeta in Ht, Hh. subst run.
    exists evs. repeat split; [|done|].
    + apply new_events_app. rewrite Ht. subst w1 w0. cbn. by rewrite <- app_assoc.
    + rewrite Hh; [|done|by subst w1 w0; cbn; rewrite length_insert].
      by apply frame_at_update.
  - destruct Hcomp as (Hres & Ht & _).
    destruct (compute_indicators r w0) as [res w1]. cbn in Hres, Ht. subst res.
    cbn in Hrun. subst run. split; [done|].
    apply new_events_app. cbn. rewrite Ht. subst w0. cbn. by rewrite <- app_assoc.
Qed.

Lemma has_column_setitem_same label s df :
  pd.has_column label (pd.setitem label s df) = true.
Proof.
  unfold pd.setitem. destruct df as [|c df].
  { unfold pd.has_column. cbn. by rewrite String.eqb_refl. }
  destruct (pd.has_column label (c :: df)) eqn:Hhas.
  - unfold pd.has_column in *. by rewrite columns_replace.
  - unfold pd.has_column, pd.columns. rewrite fmap_app, existsb_app. cbn.
    by rewrite String.eqb_refl, orb_true_r.
Qed.

Lemma has_column_setitem_other label label' s df :
  pd.has_column label' df = true ->
  pd.has_column label' (pd.setitem label s df) = true.
Proof.
  intros Hhas. unfold pd.setitem. destruct df as [|c df]; [done|].
  destruct (pd.has_column label (c :: df)).
  - unfold pd.has_column in *. by rewrite columns_replace.
  - unfold pd.has_column, pd.columns in *. rewrite fmap_app, existsb_app.
    by rewrite Hhas.
Qed.

Lemma indicator_columns_ok close_prices cols :
  indicator_columns close_prices = Ok cols ->
  exists hband lband m rs sma ema,
    bollinger_hband close_prices = Ok hband
    /\ bollinger_lband close_prices = Ok lband
    /\ macd close_prices = Ok m
    /\ rsi close_prices = Ok rs
    /\ sma_indicator close_prices 14 = Ok sma
    /\ ema_indicator close_prices = Ok ema
    /\ cols = [("bb_high", hband); ("bb_low", lband); ("macd", m);
               ("rsi", rs); ("sma", sma); ("ema", ema)].
Proof.
  unfold indicator_columns.
  destruct (bollinger_hband close_prices) as [s1|]; [|done].
  destruct (bollinger_lband close_prices) as [s2|]; [|done].
  destruct (macd close_prices) as [s3|]; [|done].
  destruct (rsi close_prices) as [s4|]; [|done].
  destruct (sma_indicator close_prices 14) as [s5|]; [|done].
  destruct (ema_indicator close_prices) as [s6|]; [|done].
  intros [= <-]. by exists s1, s2, s3, s4, s5, s6.
Qed.

Lemma distinct_add_columns df cols :
  pd.distinct_labels df = true -> pd.distinct_labels (add_columns df cols) = true.
Proof.
  unfold add_columns. revert df.
  induction cols as [|c cols IH]; intros df Hdf; [done|].
  cbn. apply IH. by apply distinct_setitem.
Qed.

(** C9 (as amended). On a Visualize render of a frame with distinct
    column labels, one of them Close: when none of the six indicator
    computations raises, the renderer stores all six series (Bollinger
    upper and lower band, MACD, RSI, 14-period SMA, EMA) in the frame
    object it was given, whatever the radio selection is, and the labels
    of the frame stay distinct; when a computation raises, the renderer
    shows its header and the ComputationError message and returns. *)
Theorem six_indicator_columns_for_any_selection
    (widgets : st.Widgets) (r : ref) (w : World)
    (src : pd.DataFrame) (close : Series) :
  frame_at w r = Some src ->
  pd.distinct_labels src = true ->
  pd.getitem "Close" src = Some close ->
  let run := tech_indicators widgets r w in
  match indicator_columns (squeeze close) with
  | Ok cols =>
      frame_at run.2 r = Some (add_columns src cols)
      /\ (exists hband lband m rs sma ema,
            bollinger_hband (squeeze close) = Ok hband
            /\ bollinger_lband (squeeze close) = Ok lband
            /\ macd (squeeze close) = Ok m
            /\ rsi (squeeze close) = Ok rs
            /\ sma_indicator (squeeze close) 14 = Ok sma
            /\ ema_indicator (squeeze close) = Ok ema
            /\ cols = [("bb_high", hband); ("bb_low", lband); ("macd", m);
                       ("rsi", rs); ("sma", sma); ("ema", ema)])
      /\ Forall (fun label => pd.has_column label (add_columns src cols) = true)
                ["bb_high"; "bb_low"; "macd"; "rsi"; "sma"; "ema"]
      /\ pd.distinct_labels (add_columns src cols) = true
  | Raise (Exception msg) =>
      run.1 = Ok tt
      /\ new_events w run.2
         = [Shown (st.header "📊 Technical Indicators");
            Shown (st.error ("❌ Error calculating indicators: " +:+ msg))]
  end.
Proof.
  intros Hr Hdistinct Hclose run.
  pose proof (tech_indicators_run widgets r w src close Hr Hclose) as Hrun.
  cbv zeta in Hrun. fold run in Hrun.
  destruct (indicator_columns (squeeze close)) as [cols|[msg]] eqn:Hcols; [|done].
  destruct Hrun as (evs & _ & _ & Hframe).
  split; [done|].
  destruct (indicator_columns_ok _ _ Hcols) as (s1 & s2 & s3 & s4 & s5 & s6 & Hlib).
  split; [by exists s1, s2, s3, s4, s5, s6|].
  split; [|by apply distinct_add_columns].
  destruct Hlib as (_ & _ & _ & _ & _ & _ & ->). unfold add_columns. cbn.
  repeat constructor;
    repeat first [apply has_column_setitem_same | apply has_column_setitem_other].
Qed.

(** What the six assignments leave in the frame: each series under its
    label, cut or padded to the rows of the frame, and the other columns
    as they were. *)
Lemma added_columns_lookup src hband lband m rs sma ema :
  src <> [] ->
  let df := add_columns src [("bb_high", hband); ("bb_low", lband); ("macd", m);
                             ("rsi", rs); ("sma", sma); ("ema", ema)] in
  let n := pd.nrows src in
  pd.nrows df = n
  /\ pd.getitem "bb_high" df = Some (pd.align n hband)
  /\ pd.getitem "bb_low" df = Some (pd.align n lband)
  /\ pd.getitem "macd" df = Some (pd.align n m)
  /\ pd.getitem "rsi" df = Some (pd.align n rs)
  /\ pd.getitem "sma" df = Some (pd.align n sma)
  /\ pd.getitem "ema" df = Some (pd.align n ema)
  /\ forall label,
       label ∉ ["bb_high"; "bb_low"; "macd"; "rsi"; "sma"; "ema"] ->
       pd.getitem label df = pd.getitem label src.
Proof.
  intros Hsrc. cbv zeta. unfold add_columns. cbn [foldl fst snd].
  repeat split.
  - by rewrite !nrows_setitem by (done || apply setitem_nonempty).
  - rewrite !getitem_setitem_other by done.
    by rewrite getitem_setitem_same.
  - rewrite !getitem_setitem_other by done.
    rewrite getitem_setitem_same by apply setitem_nonempty.
    by rewrite !nrows_setitem by (done || apply setitem_nonempty).
  - rewrite !getitem_setitem_other by done.
    rewrite getitem_setitem_same by apply setitem_nonempty.
    by rewrite !nrows_setitem by (done || apply setitem_nonempty).
  - rewrite !getitem_setitem_other by done.
    rewrite getitem_setitem_same by apply setitem_nonempty.
    by rewrite !nrows_setitem by (done || apply setitem_nonempty).
  - rewrite !getitem_setitem_other by done.
    rewrite getitem_setitem_same by apply setitem_nonempty.
    by rewrite !nrows_setitem by (done || apply setitem_nonempty).
  - rewrite getitem_setitem_same by apply setitem_nonempty.
    by rewrite !nrows_setitem by (done || apply setitem_nonempty).
  - intros label Hlabel.
    rewrite !getitem_setitem_other; [done|..];
      intros ->; apply Hlabel; apply list_elem_of_In; cbn; tauto.
Qed.



(** C4 (as amended). No renderer touches the cache, and a script run
    leaves every cached entry as it was. The recent-data view and the
    prediction renderer leave every frame object of the session as it
    was (the prediction works on a frame of its own); the indicator
    renderer leaves every frame object but the one it is given, to which
    it adds its columns in place. *)
Theorem renderers_leave_cache_unchanged (widgets : st.Widgets) (r : ref) (w : World) :
  let visualize := (tech_indicators widgets r w).2 in
  let recent := (dataframe r w).2 in
  let predicted := (predict widgets r w).2 in
  (cache visualize = cache w /\ cache recent = cache w /\ cache predicted = cache w)
  /\ (forall k e, cache w !! k = Some e -> cache (main widgets w).2 !! k = Some e)
  /\ (forall r', r' < length (heap w) ->
        frame_at recent r' = frame_at w r' /\ frame_at predicted r' = frame_at w r')
  /\ (forall r', r' < length (heap w) -> r' <> r -> frame_at visualize r' = frame_at w r').
Proof.
  cbv zeta.
  destruct (frames_tech_indicators widgets r w) as (Hc1 & _ & _ & Hh1).
  destruct (frames_dataframe r w) as (Hc2 & _ & _ & Hh2).
  destruct (frames_predict widgets r w) as (Hc3 & _ & _ & Hh3).
  repeat split; try done.
  - intros k e. apply main_keeps_cache.
  - by apply Hh2.
  - by apply Hh3.
  - intros r' Hlt Hne. apply Hh1; [congruence|done].
Qed.

End indicators.

(** * Validation of the date range *)

Section validation.

Context {source : YFinance} {ta : TA} {sk : Sklearn}.

Lemma date_lt_irrefl d : date_lt d d = false.
Proof.
  unfold date_lt. rewrite !bool_decide_eq_true_2 by done.
  apply bool_decide_eq_false_2. lia.
Qed.

(** C7. When the start date is not strictly before the end date, equal
    dates included, a run in which Load Data was pressed only reports
    the ValidationError; no run with such dates downloads anything,
    touches the cache or creates a frame, so the data loader is reached
    only when start < end. *)
Theorem end_date_must_follow_start_date (widgets : st.Widgets) (w : World) :
  date_lt (st.start_date widgets) (st.end_date widgets) = false ->
  let run := main widgets w in
  run.1 = Ok tt
  /\ new_events w run.2
     = (if st.load_data widgets
        then [Shown (st.sidebar_error "⚠️ End date must be after start date.")]
        else [])
  /\ downloads run.2 = downloads w
  /\ cache run.2 = cache w
  /\ heap run.2 = heap w.
Proof.
  intros Hdates. cbv zeta. unfold main. rewrite Hdates.
  destruct (st.load_data widgets); cbn.
  - unfold new_events, downloads. cbn.
    rewrite drop_app_length, omap_app. cbn. by rewrite app_nil_r.
  - unfold new_events. by rewrite drop_all.
Qed.

End validation.

(** * Concrete runs of the prediction renderer *)

Section prediction_runs.

Import reference.

Lemma insufficient_data_iff_no_eligible_row_witness :
  let w := world_with [("Close", six_closes)] in
  let X := fit_eligible six_closes 2 in
  let run := train_and_predict LinearRegression 0 2 w in
  Z.of_nat (length X) = Z.max 0 (Z.of_nat (length six_closes) - Z.of_nat 2)
  /\ (length X = 0 <-> forallb isnull (pd.shift_up 2 six_closes) = true)
  /\ (length X = 0 ->
      run.1 = Ok tt
      /\ new_events w run.2
         = [Shown (st.error "⚠️ Not enough data to make predictions.")])
  /\ (length X <> 0 ->
      head (new_events w run.2) = Some (ScalerFit X)
      /\ forall e, StandardScaler_fit X = Raise e -> run.1 = Raise e).
Proof.
  apply (insufficient_data_iff_no_eligible_row
           LinearRegression 0 2 (world_with [("Close", six_closes)])
           [("Close", six_closes)] six_closes).
  - reflexivity.
  - reflexivity.
  - reflexivity.
  - repeat constructor.
Defined.

(** C1 as stated fails on a series with missing Close values: of three
    rows and horizon 1 no row is fit-eligible although max(0, 3 - 1) = 2,
    one target is present, no InsufficientData message is shown and the
    scaler is asked to fit zero rows. And on a frame with two Close
    columns the run raises when it assigns the Target column: nothing is
    counted, checked or reported. *)
Lemma missing_close_breaks_row_count :
  let w := world_with [("Close", gappy_closes)] in
  let run := train_and_predict LinearRegression 0 1 w in
  let run2 := train_and_predict LinearRegression 0 1 (world_with two_tickers) in
  length (fit_eligible gappy_closes 1) = 0
  /\ Z.max 0 (Z.of_nat (length gappy_closes) - 1) = 2%Z
  /\ forallb isnull (pd.shift_up 1 gappy_closes) = false
  /\ new_events w run.2 = [ScalerFit []]
  /\ run.1 = Raise (Exception
       "Found array with 0 sample(s) while a minimum of 1 is required by StandardScaler.")
  /\ pd.duplicated "Close" two_tickers = true
  /\ raised run2.1 = true
  /\ new_events (world_with two_tickers) run2.2 = [].
Proof. vm_compute. repeat split. Qed.

Lemma scaler_fit_on_eligible_rows_only_witness :
  let w := world_with [("Close", six_closes)] in
  let run := train_and_predict LinearRegression 0 2 w in
  let features := [[Num 10]; [Num 11]; [Num 12]; [Num 13]] in
  scaler_fits run.2 = scaler_fits w ++ [features]
  /\ exists scaler X evs,
       StandardScaler_fit features = Ok scaler
       /\ StandardScaler_transform scaler features = Ok X
       /\ new_events w run.2
          = ScalerFit features :: Split X [Num 12; Num 13; Num 14; Num 15] 0.2%float 42 :: evs.
Proof.
  destruct (scaler_fit_on_eligible_rows_only
              LinearRegression 0 2 (world_with [("Close", six_closes)])
              [("Close", six_closes)] six_closes eq_refl eq_refl eq_refl eq_refl)
    as (Hfits & Hsplit & _).
  split; [exact Hfits|].
  change ((fun row : cell * cell => [row.1]) <$> kept_rows six_closes (pd.shift_up 2 six_closes))
    with [[Num 10]; [Num 11]; [Num 12]; [Num 13]] in Hsplit.
  destruct (StandardScaler_fit [[Num 10]; [Num 11]; [Num 12]; [Num 13]])
    as [scaler|e] eqn:Hfit; [|by vm_compute in Hfit].
  destruct (StandardScaler_transform scaler [[Num 10]; [Num 11]; [Num 12]; [Num 13]])
    as [X|e] eqn:Htransform.
  - destruct Hsplit as (evs & Hevents & _). by exists scaler, X, evs.
  - exfalso. vm_compute in Hfit. injection Hfit as <-. by vm_compute in Htransform.
Defined.

Lemma linear_regression_deterministic :
  deterministic_fit (sk := reference.sk) LinearRegression.
Proof. by intros g1 g2 X y. Qed.

Lemma same_split_and_same_output_for_deterministic_fit_witness :
  let w := world_with [("Close", six_closes)] in
  let run1 := train_and_predict LinearRegression 0 2 w in
  let run2 := train_and_predict LinearRegression 0 2 (set_rng 7 w) in
  run1.1 = run2.1 /\ trace run1.2 = trace run2.2 /\ shown run1.2 = shown run2.2.
Proof.
  apply (same_split_and_same_output_for_deterministic_fit
           LinearRegression 0 2 (world_with [("Close", six_closes)]) 7).
  apply linear_regression_deterministic.
Defined.

(** C5 as stated fails for a randomized estimator: two runs on the same
    series, with the forest and horizon 2, that start from different
    generator states report different errors and display different
    forecasts. *)
Lemma forest_forecast_not_reproducible :
  let w := world_with [("Close", six_closes)] in
  let run1 := train_and_predict RandomForestRegressor 0 2 w in
  let run2 := train_and_predict RandomForestRegressor 0 2 (set_rng 1 w) in
  run1.1 = Ok tt /\ run2.1 = Ok tt
  /\ splits run1.2 = splits run2.2
  /\ shown run1.2
     = [st.subheader "📊 Model Performance";
        st.write "R² Score:" neg_infinity;
        st.write "Mean Absolute Error:" 1;
        st.subheader "📈 Future Predictions";
        st.dataframe [("Day", [Int 1; Int 2]); ("Predicted Price", [Num 15; Num 15])]]
  /\ shown run2.2
     = [st.subheader "📊 Model Performance";
        st.write "R² Score:" neg_infinity;
        st.write "Mean Absolute Error:" 2;
        st.subheader "📈 Future Predictions";
        st.dataframe [("Day", [Int 1; Int 2]); ("Predicted Price", [Num 12; Num 12])]].
Proof. vm_compute. repeat split. Qed.

Lemma forecast_table_has_one_row_per_day_witness :
  let w := world_with [("Close", six_closes)] in
  let run := train_and_predict LinearRegression 0 2 w in
  length (drop (length six_closes - 2) six_closes) = 2
  /\ run.1 = Ok tt
  /\ exists preds,
       length preds = 2
       /\ last (shown run.2)
          = Some (st.dataframe [("Day", [Int 1; Int 2]); ("Predicted Price", Num <$> preds)]).
Proof.
  destruct (forecast_table_has_one_row_per_day
              LinearRegression 0 2 (world_with [("Close", six_closes)])
              [("Close", six_closes)] six_closes eq_refl eq_refl eq_refl eq_refl
              (le_S 1 1 (le_n 1)))
    as (Hlast & Hshown & _).
  assert ((train_and_predict LinearRegression 0 2 (world_with [("Close", six_closes)])).1
          = Ok tt) as Hrun by (vm_compute; reflexivity).
  destruct (Hshown Hrun) as (sc & X & Xtr & Xte & ytr & yte & m & g & fut & preds & Hrest).
  split; [exact Hlast|]. split; [exact Hrun|].
  exists preds. split; apply Hrest.
Defined.

(** C2 as stated fails on a run that passes the check with a single
    eligible row: for two rows and horizon 1 some target is present, the
    scaler is fit, but the split of one row raises, and no forecast
    table, nor anything else, is displayed. *)
Lemma single_eligible_row_gets_no_forecast :
  let w := world_with [("Close", [Num 10; Num 11])] in
  let run := train_and_predict LinearRegression 0 1 w in
  forallb isnull (pd.shift_up 1 [Num 10; Num 11]) = false
  /\ fit_eligible [Num 10; Num 11] 1 = [[Num 10]]
  /\ raised run.1 = true
  /\ shown run.2 = []
  /\ scaler_fits run.2 = [[[Num 10]]]
  /\ model_fits run.2 = [].
Proof. vm_compute. repeat split. Qed.

End prediction_runs.

(** * Concrete runs of the loader and the indicator renderer *)

Section session_runs.

Import reference.


(** C4 as stated fails on "never mutated in place by any renderer":
    after a Visualize run the frame object the loader returned carries
    the six indicator columns, while the cached value does not. *)
Lemma visualize_mutates_the_loaded_frame :
  let run := main (load "Visualize" "aapl") empty_world in
  run.1 = Ok tt
  /\ pd.columns <$> frame_at run.2 0
     = Some ["Date"; "Close"; "Volume"; "bb_high"; "bb_low"; "macd"; "rsi"; "sma"; "ema"]
  /\ (fun e => pd.columns <$> cached_value e) <$> cache run.2 !! january
     = Some (Some ["Date"; "Close"; "Volume"])
  /\ pd.columns <$> frame_at (tech_indicators (load "Visualize" "AAPL") 0 (world_with three_days)).2 0
     = Some ["Date"; "Close"; "bb_high"; "bb_low"; "macd"; "rsi"; "sma"; "ema"]
  /\ pd.columns <$> frame_at (world_with three_days) 0 = Some ["Date"; "Close"].
Proof. vm_compute. repeat split. Qed.



(** C9 as stated fails on a frame of one row: squeeze turns its Close
    column into a scalar, the first indicator call raises, and the frame
    is left without any of the six columns. *)
Lemma single_row_gets_no_indicator_column :
  let run := tech_indicators (load "Visualize" "AAPL") 0 (world_with one_day) in
  pd.getitem "Close" one_day = Some [Num 10]
  /\ squeeze [Num 10] = Scalar (Num 10)
  /\ frame_at run.2 0 = Some one_day
  /\ shown run.2
     = [st.header "📊 Technical Indicators";
        st.error "❌ Error calculating indicators: 'numpy.float64' object has no attribute 'rolling'"].
Proof. vm_compute. repeat split. Qed.

Lemma six_indicator_columns_for_any_selection_witness :
  let cols := [("bb_high", [NaN; NaN; NaN]); ("bb_low", [NaN; NaN; NaN]);
               ("macd", [NaN; NaN; NaN]); ("rsi", [NaN; NaN; NaN]);
               ("sma", [NaN; NaN; NaN]); ("ema", [NaN; NaN; NaN])] in
  let close := [Num 10; Num 11; Num 12] in
  frame_at (tech_indicators (load "Visualize" "AAPL") 0 (world_with three_days)).2 0
  = Some (add_columns three_days cols)
  /\ (exists hband lband m rs sma ema,
        bollinger_hband (squeeze close) = Ok hband
        /\ bollinger_lband (squeeze close) = Ok lband
        /\ macd (squeeze close) = Ok m
        /\ rsi (squeeze close) = Ok rs
        /\ sma_indicator (squeeze close) 14 = Ok sma
        /\ ema_indicator (squeeze close) = Ok ema
        /\ cols = [("bb_high", hband); ("bb_low", lband); ("macd", m);
                   ("rsi", rs); ("sma", sma); ("ema", ema)])
  /\ Forall (fun label => pd.has_column label (add_columns three_days cols) = true)
            ["bb_high"; "bb_low"; "macd"; "rsi"; "sma"; "ema"]
  /\ pd.distinct_labels (add_columns three_days cols) = true.
Proof.
  pose proof (six_indicator_columns_for_any_selection
                (load "Visualize" "AAPL") 0 (world_with three_days) three_days
                [Num 10; Num 11; Num 12] eq_refl eq_refl eq_refl) as H.
  cbv zeta in H.
  assert (indicator_columns (squeeze [Num 10; Num 11; Num 12])
          = Ok [("bb_high", [NaN; NaN; NaN]); ("bb_low", [NaN; NaN; NaN]);
                ("macd", [NaN; NaN; NaN]); ("rsi", [NaN; NaN; NaN]);
                ("sma", [NaN; NaN; NaN]); ("ema", [NaN; NaN; NaN])]) as Hcols
    by (vm_compute; reflexivity).
  rewrite Hcols in H. exact H.
Defined.

Lemma end_date_must_follow_start_date_witness :
  let run := main load_empty_range empty_world in
  run.1 = Ok tt
  /\ new_events empty_world run.2
     = [Shown (st.sidebar_error "⚠️ End date must be after start date.")]
  /\ downloads run.2 = downloads empty_world
  /\ cache run.2 = cache empty_world
  /\ heap run.2 = heap empty_world.
Proof.
  apply (end_date_must_follow_start_date load_empty_range empty_world).
  apply date_lt_irrefl.
Defined.

End session_runs.

(** * More about the loader *)

Section loader_more.

Context {source : YFinance} {ta : TA} {sk : Sklearn}.

Lemma frames_weaken {A} target (Q Q' : event -> bool) (m : App A) :
  (forall e, Q e = true -> Q' e = true) -> frames target Q m -> frames target Q' m.
Proof.
  intros HQ Hm w. destruct (Hm w) as (Hc & (evs & Ht & Hq) & Hl & Hh).
  repeat split; try done. exists evs. split; [done|].
  apply forallb_forall. intros e He. apply HQ.
  by apply (proj1 (forallb_forall Q evs) Hq).
Qed.

Lemma downloads_no_download w w' target :
  frame_rel target no_download w w' -> downloads w' = downloads w.
Proof.
  intros (_ & (evs & Ht & Hq) & _). unfold downloads. rewrite Ht, omap_app.
  rewrite (omap_none _ no_download evs), app_nil_r; [done| |done].
  by intros [].
Qed.

Lemma no_download_fit_and_forecast model df days :
  frames None no_download (fit_and_forecast model df days).
Proof. unfold fit_and_forecast. frames_tac. Qed.

Lemma no_download_train_and_predict model r days :
  frames None no_download (train_and_predict model r days).
Proof.
  apply frames_train_and_predict_of; [done|].
  intros df. apply no_download_fit_and_forecast.
Qed.

Lemma no_download_predict widgets r : frames None no_download (predict widgets r).
Proof.
  unfold predict. apply frames_bind; [by apply frames_show|]. intros _.
  destruct (st.predict_button widgets); [|apply frames_ret].
  apply frames_bind; [apply frames_or_raise|].
  intros model. apply no_download_train_and_predict.
Qed.

Lemma no_download_dataframe r : frames None no_download (dataframe r).
Proof. unfold dataframe. frames_tac. Qed.

Lemma no_download_tech_indicators widgets r :
  frames (Some r) no_download (tech_indicators widgets r).
Proof. unfold tech_indicators. frames_tac. Qed.

(** The renderer a script run dispatches to, for a loaded frame. *)
Lemma render_downloads_nothing widgets df w :
  let render :=
    if String.eqb (st.option widgets) "Visualize" then tech_indicators widgets df
    else if String.eqb (st.option widgets) "Recent Data" then dataframe df
    else predict widgets df in
  downloads (render w).2 = downloads w /\ cache (render w).2 = cache w.
Proof.
  cbv zeta.
  destruct (String.eqb _ "Visualize").
  { destruct (no_download_tech_indicators widgets df w) as (Hc & Hrest).
    split; [|done]. eapply downloads_no_download. split; [exact Hc|exact Hrest]. }
  destruct (String.eqb _ "Recent Data").
  { destruct (no_download_dataframe df w) as (Hc & Hrest).
    split; [|done]. eapply downloads_no_download. split; [exact Hc|exact Hrest]. }
  destruct (no_download_predict widgets df w) as (Hc & Hrest).
  split; [|done]. eapply downloads_no_download. split; [exact Hc|exact Hrest].
Qed.

(** A call of the loader downloads exactly when its key is not cached;
    it then stores an entry under that key and nothing else. *)
Lemma download_data_effect k w :
  let run := download_data k w in
  match cache w !! k with
  | Some _ => downloads run.2 = downloads w /\ cache run.2 = cache w
  | None =>
      downloads run.2 = downloads w ++ [k]
      /\ exists entry, cache run.2 = <[k := entry]> (cache w)
  end.
Proof.
  cbv zeta. destruct (cache w !! k) as [entry|] eqn:Hk.
  - rewrite (download_data_hit k w entry Hk). cbv zeta.
    destruct (cached_value entry); cbn; (split; [|done]).
    + change (downloads (set_heap _ ?w0)) with (downloads w0). apply downloads_shown.
    + apply downloads_shown.
  - unfold download_data, cache_data. rewrite Hk.
    rewrite download_data_body_run. cbv zeta.
    assert (forall els,
      downloads (set_trace (trace (set_trace (trace w ++ [Download k]) w) ++ (Shown <$> els))
                           (set_trace (trace w ++ [Download k]) w))
      = downloads w ++ [k]) as Hshown.
    { intros els. by rewrite downloads_shown, downloads_snoc. }
    destruct (download k (length (downloads w))) as [df|[msg]].
    + destruct (yf.empty df); cbn.
      * split; [apply (Hshown [_])|by eexists].
      * destruct (reset_index df) as [[cols data]|[msg]]; cbn.
        -- split; [apply downloads_snoc|by eexists].
        -- split; [apply (Hshown [_])|by eexists].
    + cbn. split; [apply (Hshown [_])|by eexists].
Qed.

Lemma main_run widgets w :
  st.load_data widgets = true ->
  date_lt (st.start_date widgets) (st.end_date widgets) = true ->
  main widgets w =
    bind (download_data (request_key widgets))
      (fun df =>
         match df with
         | Some df =>
             if String.eqb (st.option widgets) "Visualize" then tech_indicators widgets df
             else if String.eqb (st.option widgets) "Recent Data" then dataframe df
             else predict widgets df
         | None => ret tt
         end)
      (set_trace (trace w ++ [Shown (st.sidebar_success (st.start_date widgets)
                                                        (st.end_date widgets))]) w).
Proof. intros Hload Hdates. unfold main. by rewrite Hload, Hdates. Qed.

(** What a script run does to the downloads and to the cache: nothing,
    unless it loads a key that is not cached. *)
Lemma main_effect widgets w :
  let run := main widgets w in
  if st.load_data widgets && date_lt (st.start_date widgets) (st.end_date widgets)
  then
    match cache w !! request_key widgets with
    | Some _ => downloads run.2 = downloads w /\ cache run.2 = cache w
    | None =>
        downloads run.2 = downloads w ++ [request_key widgets]
        /\ exists entry, cache run.2 = <[request_key widgets := entry]> (cache w)
    end
  else downloads run.2 = downloads w /\ cache run.2 = cache w.
Proof.
  cbv zeta.
  destruct (st.load_data widgets) eqn:Hload; cbn [andb].
  2:{ unfold main. by rewrite Hload. }
  destruct (date_lt _ _) eqn:Hdates.
  2:{ unfold main. rewrite Hload, Hdates. unfold downloads. cbn.
      rewrite omap_app. cbn. by rewrite app_nil_r. }
  rewrite main_run by done.
  set (w1 := set_trace _ w).
  assert (downloads w1 = downloads w) as Hd1.
  { unfold downloads, w1. cbn. rewrite omap_app. cbn. by rewrite app_nil_r. }
  pose proof (download_data_effect (request_key widgets) w1) as Heff. cbv zeta in Heff.
  change (cache w1) with (cache w) in Heff. rewrite Hd1 in Heff.
  unfold bind.
  destruct (download_data (request_key widgets) w1) as [[[df|]|e] w2]; cbn [snd] in *;
    try done.
  pose proof (render_downloads_nothing widgets df w2) as [Hd Hc]. cbv zeta in Hd, Hc.
  rewrite Hd, Hc. exact Heff.
Qed.

Lemma main_keeps_fetched_once widgets w :
  fetched_once w -> fetched_once (main widgets w).2.
Proof.
  intros [Hnodup Hdom].
  pose proof (main_effect widgets w) as Heff. cbv zeta in Heff.
  destruct (st.load_data widgets && date_lt _ _).
  2:{ destruct Heff as [Hd Hc]. unfold fetched_once. by rewrite Hd, Hc. }
  destruct (cache w !! request_key widgets) as [entry|] eqn:Hk.
  { destruct Heff as [Hd Hc]. unfold fetched_once. by rewrite Hd, Hc. }
  destruct Heff as [Hd (entry & Hc)]. unfold fetched_once. rewrite Hd, Hc. split.
  - apply NoDup_app. repeat split; [done| |apply NoDup_singleton].
    intros k Hin ->%list_elem_of_singleton.
    apply Hdom in Hin. rewrite Hk in Hin. by destruct Hin.
  - intros k. rewrite elem_of_app, list_elem_of_singleton, Hdom.
    destruct (decide (k = request_key widgets)) as [->|Hne].
    + rewrite lookup_insert_eq. split; [by eexists|by right].
    + rewrite lookup_insert_ne by done. split; [by intros [|]|by left].
Qed.

(** X1. Over a whole session every request key is downloaded at most
    once, and the keys that were downloaded are exactly the keys the
    cache holds: whatever the widgets of the script runs, a state with
    this property is followed by states with it. *)
Theorem each_key_is_downloaded_at_most_once (runs : list st.Widgets) (w : World) :
  fetched_once w -> fetched_once (session runs w).
Proof.
  revert w. induction runs as [|widgets runs IH]; intros w Hw; [done|].
  cbn. apply IH. by apply main_keeps_fetched_once.
Qed.

(** X2. The symbol is upper-cased before it becomes part of the request
    key: a Load of a symbol that differs only in letter case from one
    loaded before, over the same dates, downloads nothing. *)
Theorem symbol_case_does_not_refetch (first second : st.Widgets) (w : World) :
  st.load_data first = true ->
  st.load_data second = true ->
  date_lt (st.start_date first) (st.end_date first) = true ->
  st.start_date second = st.start_date first ->
  st.end_date second = st.end_date first ->
  py.upper (st.stock_symbol second) = py.upper (st.stock_symbol first) ->
  let w1 := (main first w).2 in
  downloads (main second w1).2 = downloads w1
  /\ cache (main second w1).2 = cache w1.
Proof.
  intros Hl1 Hl2 Hdates Hs He Hsym. cbv zeta.
  assert (request_key second = request_key first) as Hkey.
  { unfold request_key. by rewrite Hs, He, Hsym. }
  assert (is_Some (cache (main first w).2 !! request_key first)) as [entry Hentry].
  { pose proof (main_effect first w) as Heff. cbv zeta in Heff.
    rewrite Hl1, Hdates in Heff. cbn [andb] in Heff.
    destruct (cache w !! request_key first) as [entry|] eqn:Hk.
    - destruct Heff as [_ ->]. by rewrite Hk.
    - destruct Heff as [_ (entry & ->)]. by rewrite lookup_insert_eq. }
  pose proof (main_effect second (main first w).2) as Heff. cbv zeta in Heff.
  rewrite Hl2, Hs, He, Hdates, Hkey, Hentry in Heff. exact Heff.
Qed.

(** X3. When the key is not cached and the source raises or answers
    with an empty frame, the script run shows the date range and the
    loader's error message and stops there: no renderer runs, no frame
    object is created, and the run itself ends normally. *)
Theorem failed_load_renders_nothing (widgets : st.Widgets) (w : World) (msg : string) :
  st.load_data widgets = true ->
  date_lt (st.start_date widgets) (st.end_date widgets) = true ->
  cache w !! request_key widgets = None ->
  loader_message (download (request_key widgets) (length (downloads w))) = Some msg ->
  let run := main widgets w in
  run.1 = Ok tt
  /\ new_events w run.2
     = [Shown (st.sidebar_success (st.start_date widgets) (st.end_date widgets));
        Download (request_key widgets);
        Shown (st.error msg)]
  /\ heap run.2 = heap w.
Proof.
  intros Hload Hdates Hk Hmsg. cbv zeta.
  rewrite main_run by done.
  set (w1 := set_trace _ w).
  assert (downloads w1 = downloads w) as Hd1.
  { unfold downloads, w1. cbn. rewrite omap_app. cbn. by rewrite app_nil_r. }
  unfold bind, download_data, cache_data.
  change (cache w1) with (cache w). rewrite Hk.
  rewrite download_data_body_run. cbv zeta. rewrite Hd1.
  unfold loader_message in Hmsg.
  destruct (download (request_key widgets) (length (downloads w))) as [df|[e]].
  - destruct (yf.empty df); [|done]. injection Hmsg as <-. cbn.
    repeat split. apply new_events_app. cbn. by rewrite <- !app_assoc.
  - injection Hmsg as <-. cbn.
    repeat split. apply new_events_app. cbn. by rewrite <- !app_assoc.
Qed.

(** X4. Every frame the loader returns is a new object: the reference
    was not in use before the call, it holds a frame afterwards, and no
    frame object that existed before the call has changed. So a frame
    that an earlier renderer modified in place is never handed out
    again. *)
Theorem loader_returns_a_new_frame_object (k : Key) (w : World) (r : ref) :
  (download_data k w).1 = Ok (Some r) ->
  frame_at w r = None
  /\ is_Some (frame_at (download_data k w).2 r)
  /\ forall r', r' < length (heap w) ->
       frame_at (download_data k w).2 r' = frame_at w r'.
Proof.
  assert (forall df (w0 : World),
    heap w0 = heap w ->
    Ok (Some (length (heap w))) = Ok (Some r) ->
    frame_at w r = None
    /\ is_Some (frame_at (set_heap (heap w ++ [df]) w0) r)
    /\ forall r', r' < length (heap w) ->
         frame_at (set_heap (heap w ++ [df]) w0) r' = frame_at w r') as Hnew.
  { intros df w0 Hheap [= <-]. repeat split.
    - unfold frame_at. by apply lookup_ge_None_2.
    - rewrite frame_at_new. by eexists.
    - intros r' Hr'. unfold frame_at. cbn. by rewrite lookup_app_l. }
  destruct (cache w !! k) as [entry|] eqn:Hk.
  - rewrite (download_data_hit k w entry Hk). cbv zeta.
    destruct (cached_value entry) as [df|]; [|done]. cbn [fst snd].
    by apply Hnew.
  - unfold download_data, cache_data. rewrite Hk.
    rewrite download_data_body_run. cbv zeta.
    destruct (download k (length (downloads w))) as [df|[msg]]; [|done].
    destruct (yf.empty df); [done|].
    destruct (reset_index df) as [[cols data]|[msg]]; [|done]. cbn [fst snd].
    intros Hres. by apply (Hnew _ (set_trace (trace w ++ [Download k]) w)).
Qed.

End loader_more.

(** * More about the prediction view *)

Section prediction_more.

Context {source : YFinance} {ta : TA} {sk : Sklearn}.

Lemma fits_only_fit_and_forecast model df days :
  frames None (fits_only model) (fit_and_forecast model df days).
Proof.
  unfold fit_and_forecast.
  repeat first
    [ apply frames_model_fit; cbn; by apply bool_decide_eq_true_2
    | frames_step ].
Qed.

Lemma fits_only_train_and_predict model r days :
  frames None (fits_only model) (train_and_predict model r days).
Proof.
  apply frames_train_and_predict_of; [done|].
  intros df. apply fits_only_fit_and_forecast.
Qed.

(** X5. The prediction view fits a model only after the Predict button
    was pressed, and then only the estimator that the model menu maps
    the selected entry to: every fit of a model that a run of the view
    adds to the trace is a fit of model_dict[model_choice]. *)
Theorem predict_fits_the_selected_model_only
    (widgets : st.Widgets) (r : ref) (w : World) (m : estimator) (X : matrix) (y : Series) :
  ModelFit m X y ∈ new_events w (predict widgets r w).2 ->
  st.predict_button widgets = true
  /\ model_dict !! st.model_choice widgets = Some m.
Proof.
  unfold predict, bind at 1. cbn [show emit].
  set (w1 := set_trace _ w).
  assert (forall w2 evs, trace w2 = trace w1 ++ evs ->
            new_events w w2 = Shown (st.header "🔮 Price Prediction") :: evs) as Hnew.
  { intros w2 evs Ht. apply new_events_app. rewrite Ht. unfold w1. cbn.
    by rewrite <- app_assoc. }
  destruct (st.predict_button widgets).
  2:{ cbn. rewrite (Hnew w1 []) by by rewrite app_nil_r.
      intros Hin. apply list_elem_of_singleton in Hin. discriminate. }
  unfold bind.
  destruct (model_dict !! st.model_choice widgets) as [model|]; cbn [or_raise ret raise].
  2:{ cbn. rewrite (Hnew w1 []) by by rewrite app_nil_r.
      intros Hin. apply list_elem_of_singleton in Hin. discriminate. }
  destruct (fits_only_train_and_predict model r (st.days_forecast widgets) w1)
    as (_ & (evs & Ht & Hq) & _).
  rewrite (Hnew _ evs Ht). intros Hin.
  apply elem_of_cons in Hin as [Hin|Hin]; [discriminate|].
  split; [done|].
  apply list_elem_of_In in Hin.
  pose proof (proj1 (forallb_forall _ _) Hq _ Hin) as Hm. cbn in Hm.
  apply bool_decide_eq_true_1 in Hm. by subst.
Qed.

(** X6. A prediction run that passes the target check and is not ended
    by an exception adds exactly these events, in this order: the
    scaler's fit on the feature rows, the split of the standardized rows
    and the targets with test share 0.2 and seed 42, the model's fit on
    the training part, the prediction for the test part, the two metrics
    computed from the test targets and that prediction, the prediction
    for the standardized last rows, and the forecast table. *)
Theorem completed_prediction_trace
    (model : estimator) (r : ref) (days : nat) (w : World)
    (src : pd.DataFrame) (close : Series) :
  frame_at w r = Some src ->
  pd.getitem "Close" src = Some close ->
  forallb isnull (pd.shift_up days close) = false ->
  1 <= days ->
  (train_and_predict model r days w).1 = Ok tt ->
  let rows := kept_rows close (pd.shift_up days close) in
  let features := (fun row => [row.1]) <$> rows in
  let last_closes := (fun x => [x]) <$> drop (length close - days) close in
  exists scaler X X_train X_test y_train y_test fitted_model g
         test_preds r2 mae future preds,
    StandardScaler_fit features = Ok scaler
    /\ StandardScaler_transform scaler features = Ok X
    /\ train_test_split X rows.*2 0.2%float 42 = Ok (X_train, X_test, y_train, y_test)
    /\ fit model (rng w) X_train y_train = Ok (fitted_model, g)
    /\ predict_with fitted_model X_test = Ok test_preds
    /\ r2_score y_test test_preds = Ok r2
    /\ mean_absolute_error y_test test_preds = Ok mae
    /\ StandardScaler_transform scaler last_closes = Ok future
    /\ predict_with fitted_model future = Ok preds
    /\ new_events w (train_and_predict model r days w).2
       = [ScalerFit features;
          Split X rows.*2 0.2%float 42;
          ModelFit model X_train y_train;
          Predict X_test;
          Shown (st.subheader "📊 Model Performance");
          Shown (st.write "R² Score:" r2);
          Shown (st.write "Mean Absolute Error:" mae);
          Shown (st.subheader "📈 Future Predictions");
          Predict future;
          Shown (st.dataframe
                   [("Day", (fun i => Int (Z.of_nat i)) <$> seq 1 days);
                    ("Predicted Price", Num <$> preds)])]
    /\ rng (train_and_predict model r days w).2 = g.
Proof.
  intros Hr Hclose Hcheck Hdays Hok.
  pose proof (train_and_predict_ok_single model r days w src Hr Hok) as Hdup.
  revert Hok.
  destruct (last_rows_close close days Hcheck Hdays) as [Hlast Hlen].
  rewrite (train_and_predict_run model r days w src close) by done.
  cbv zeta. rewrite Hcheck.
  set (w1 := set_heap _ w).
  destruct (fit_and_forecast model (length (heap w)) days w1) as [res w'] eqn:Hrun.
  cbn [fst snd]. intros ->. unfold fit_and_forecast in Hrun.
  monad_inv Hrun.
  subst w1. rewrite frame_at_new in H. injection H as <-.
  rewrite dropna_features in * by apply shift_up_length.
  rewrite dropna_target in H0 by apply shift_up_length. injection H0 as <-.
  cbn in H8. injection H8 as <-. rewrite Hlast in H9.
  unfold pd.of_dict in H11. case_bool_decide as Hrows; [|done]. injection H11 as <-.
  exists a2, a3, m, m0, s0, s, a5, g, a6, a8, a10, a14, a15.
  repeat split; try done.
  apply new_events_app. cbn. rewrite <- !app_assoc. cbn. by rewrite range_days.
Qed.

(** X7. On a frame without a Close column the two views differ: the
    indicator view reports the missing field, computes nothing and
    leaves the session as it was apart from the two elements shown; the
    prediction raises (the KeyError of the column selection) before it
    displays, creates or fits anything. *)
Theorem views_without_close_column
    (widgets : st.Widgets) (model : estimator) (days : nat) (r : ref) (w : World)
    (src : pd.DataFrame) :
  frame_at w r = Some src ->
  pd.has_column "Close" src = false ->
  tech_indicators widgets r w
  = (Ok tt,
     set_trace (trace w ++ [Shown (st.header "📊 Technical Indicators");
                            Shown (st.error "⚠️ Data does not contain 'Close' prices.")]) w)
  /\ exists e, train_and_predict model r days w = (Raise e, w).
Proof.
  intros Hr Hhas. split.
  - unfold tech_indicators. unfold bind at 1. cbn [show emit].
    rewrite (bind_deref r src) by done. rewrite Hhas. cbn.
    unfold show, emit, set_trace. cbn. by rewrite <- app_assoc.
  - assert (pd.getitem "Close" src = None) as Hnone.
    { destruct (pd.getitem "Close" src) as [s|] eqn:Hs; [|done].
      apply has_column_getitem in Hs. congruence. }
    rewrite (train_and_predict_cases model r days w src Hr).
    pose proof (getitem_labelled "Close" src) as Hhead. rewrite Hnone in Hhead.
    destruct (pd.labelled "Close" src); [by eexists|done].
Qed.

End prediction_more.

(** * More about the indicator view *)

Section indicators_more.

Context {source : YFinance} {ta : TA} {sk : Sklearn}.

Lemma compute_indicators_stores_cases r w src close run :
  frame_at w r = Some src ->
  pd.getitem "Close" src = Some close ->
  run = compute_indicators r w ->
  exists res,
    run = (res, set_heap (<[r := add_columns src
                                   (returned (indicator_calls (squeeze close)))]> (heap w)) w).
Proof.
  intros Hr Hclose Hrun.
  assert (r < length (heap w)) as Hlt by by eapply lookup_lt_Some.
  unfold compute_indicators in Hrun.
  rewrite (bind_column r "Close" src close) in Hrun by done. cbv zeta in Hrun.
  rewrite (world_as_update w r src Hr) in Hrun.
  unfold indicator_calls. revert Hrun.
  repeat (rewrite assign_run by done;
          match goal with
          | |- context [match ?res with Ok _ => _ | Raise _ => _ end] =>
              destruct res as [?|?]; [|intros ->; by eexists]
          end).
  rewrite assign_last by done.
  destruct (ema_indicator (squeeze close)); intros ->; by eexists.
Qed.

(** The indicator view as the chart of the selection drawn after the six
    columns were stored. *)
Lemma tech_indicators_plot widgets r w src close cols :
  frame_at w r = Some src ->
  pd.getitem "Close" src = Some close ->
  indicator_columns (squeeze close) = Ok cols ->
  tech_indicators widgets r w =
    (let option := st.indicator widgets in
     if String.eqb option "Close" then plot_chart r "Close Price" "Close" "blue"
     else if String.eqb option "Bollinger Bands" then
       let* cur := deref r in
       let* fig := lift (bollinger_figure cur) in
       show (st.plotly_chart fig)
     else if String.eqb option "MACD" then plot_chart r "MACD" "macd" "red"
     else if String.eqb option "RSI" then
       plot_chart r "RSI (Relative Strength Index)" "rsi" "purple"
     else if String.eqb option "SMA" then
       plot_chart r "Simple Moving Average" "sma" "orange"
     else plot_chart r "Exponential Moving Average" "ema" "green")
      (set_heap (<[r := add_columns src cols]> (heap w))
                (set_trace (trace w ++ [Shown (st.header "📊 Technical Indicators")]) w)).
Proof.
  intros Hr Hclose Hcols.
  unfold tech_indicators. unfold bind at 1. cbn [show emit].
  set (w0 := set_trace _ w).
  rewrite (bind_deref r src) by done.
  rewrite (has_column_getitem "Close" src close Hclose). cbn [negb].
  unfold bind at 1. unfold try_except. unfold bind at 1.
  pose proof (compute_indicators_run r w0 src close Hr Hclose) as Hcomp.
  rewrite Hcols in Hcomp. rewrite Hcomp. by cbn [ret negb].
Qed.

Lemma has_column_as_getitem label df :
  pd.has_column label df = bool_decide (is_Some (pd.getitem label df)).
Proof.
  destruct (pd.getitem label df) as [s|] eqn:Hs.
  - rewrite (has_column_getitem label df s Hs). symmetry. by apply bool_decide_eq_true_2.
  - destruct (pd.has_column label df) eqn:Hhas.
    + apply getitem_has_column in Hhas as [s' Hs']. congruence.
    + symmetry. apply bool_decide_eq_false_2. by intros [s' Hs'].
Qed.

(** The label reset_index picks is index or level_0. *)
Lemma index_label_cases df label :
  index_label df = Some label ->
  pd.has_column label df = false /\ (label = "index" \/ label = "level_0").
Proof.
  unfold index_label.
  destruct (pd.has_column "index" df) eqn:H1; cbn [negb].
  - destruct (pd.has_column "level_0" df) eqn:H2; cbn [negb]; [done|].
    intros [= <-]. by split; [|right].
  - intros [= <-]. by split; [|left].
Qed.

(** The six labels are neither index nor level_0: the label of the
    index column is the same before and after the six assignments. *)
Lemma index_label_add_columns src hband lband m rs sma ema :
  src <> [] ->
  index_label (add_columns src [("bb_high", hband); ("bb_low", lband); ("macd", m);
                                ("rsi", rs); ("sma", sma); ("ema", ema)])
  = index_label src.
Proof.
  intros Hsrc.
  pose proof (added_columns_lookup src hband lband m rs sma ema Hsrc) as Hlookup.
  cbv zeta in Hlookup. destruct Hlookup as (_ & _ & _ & _ & _ & _ & _ & Hother).
  unfold index_label. rewrite !has_column_as_getitem.
  rewrite !Hother; [done|..]; intros Hin;
    repeat (apply elem_of_cons in Hin as [[=]|Hin]); by apply elem_of_nil in Hin.
Qed.

(** plot_chart on a frame that has the Date column and the column to
    draw, and room for the index column. *)
Lemma plot_chart_run r title y_column color w df label x y :
  frame_at w r = Some df ->
  index_label df = Some label ->
  String.eqb label y_column = false ->
  pd.getitem "Date" df = Some x ->
  pd.getitem y_column df = Some y ->
  plot_chart r title y_column color w =
    (Ok tt,
     set_trace (trace w ++ [Shown (st.plotly_chart
                                     (st.Figure title [st.Line y_column x y color]))])
               (set_heap (heap w ++ [df]) w)).
Proof.
  intros Hr Hlabel Hindex Hdate Hy.
  assert (String.eqb label "Date" = false) as Hnot_date.
  { by destruct (index_label_cases df label Hlabel) as [_ [-> | ->]]. }
  unfold plot_chart.
  rewrite (bind_deref r df) by done.
  unfold bind at 1. cbn [new].
  rewrite (bind_deref (length (heap w)) df) by apply frame_at_new.
  unfold with_index_column. rewrite Hlabel. unfold bind at 1, lift.
  set (copy := (label, Int <$> py.range 0 (pd.nrows df)) :: df).
  assert (pd.getitem y_column copy = Some y) as Hy'.
  { unfold copy. cbn [pd.getitem]. by rewrite Hindex. }
  assert (pd.getitem "Date" copy = Some x) as Hdate'.
  { unfold copy. cbn [pd.getitem]. by rewrite Hnot_date. }
  rewrite (has_column_getitem y_column copy y Hy'). cbn [negb].
  by rewrite Hdate', Hy'.
Qed.

Lemma frame_at_stored r w df :
  r < length (heap w) ->
  frame_at (set_heap (<[r := df]> (heap w)) w) r = Some df.
Proof. intros Hlt. unfold frame_at. cbn. by apply list_lookup_insert_eq. Qed.

(** X8. After the indicator view ran on a frame with distinct column
    labels, one of them Close, and no indicator call raised, the frame
    object holds each of the six series under its label, cut or padded
    with NaN to the frame's number of rows; every other column (Date,
    Close, Volume, ...) is what it was, and so is the number of rows;
    the labels are still distinct. *)
Theorem indicator_view_stores_aligned_series widgets r w src close cols :
  frame_at w r = Some src ->
  pd.distinct_labels src = true ->
  pd.getitem "Close" src = Some close ->
  indicator_columns (squeeze close) = Ok cols ->
  exists df,
    frame_at (tech_indicators widgets r w).2 r = Some df
    /\ pd.nrows df = pd.nrows src
    /\ pd.distinct_labels df = true
    /\ cols.*1 = ["bb_high"; "bb_low"; "macd"; "rsi"; "sma"; "ema"]
    /\ (forall label s, (label, s) ∈ cols ->
          pd.getitem label df = Some (pd.align (pd.nrows src) s))
    /\ (forall label, label ∉ cols.*1 -> pd.getitem label df = pd.getitem label src).
Proof.
  intros Hr Hdistinct Hclose Hcols.
  pose proof (tech_indicators_run widgets r w src close Hr Hclose) as Hrun.
  cbv zeta in Hrun. rewrite Hcols in Hrun.
  destruct Hrun as (evs & _ & _ & Hframe).
  exists (add_columns src cols). split; [done|].
  split; [|split; [by apply distinct_add_columns|]].
  all: destruct (indicator_columns_ok _ _ Hcols)
    as (hband & lband & m & rs & sma & ema & _ & _ & _ & _ & _ & _ & ->).
  all: pose proof (added_columns_lookup src hband lband m rs sma ema
                     (getitem_nonempty _ _ _ Hclose)) as Hlookup.
  all: cbv zeta in Hlookup.
  all: destruct Hlookup as (Hn & H1 & H2 & H3 & H4 & H5 & H6 & Hother).
  - done.
  - split; [done|]. split; [|done].
    intros label s Hin.
    repeat (apply elem_of_cons in Hin as [[= -> ->]|Hin]; [done|]).
    by apply elem_of_nil in Hin.
Qed.

(** X9. Take a frame with distinct column labels, among them Date and
    Close and not both of index and level_0, a selection other than
    Bollinger Bands, and no failing indicator call. The view then shows
    the header and one line chart: title, column and colour as the
    selection fixes them, the frame's Date column on the x axis, and on
    the y axis the Close column itself or the stored (aligned)
    indicator series. The chart is drawn from a copy, which is left
    behind as one new frame object. *)
Theorem selected_indicator_is_charted_against_dates widgets r w src close dates cols :
  frame_at w r = Some src ->
  pd.distinct_labels src = true ->
  pd.getitem "Close" src = Some close ->
  pd.getitem "Date" src = Some dates ->
  pd.has_column "index" src && pd.has_column "level_0" src = false ->
  indicator_columns (squeeze close) = Ok cols ->
  String.eqb (st.indicator widgets) "Bollinger Bands" = false ->
  let run := tech_indicators widgets r w in
  let chart := chart_of (st.indicator widgets) in
  exists y,
    (if String.eqb (st.indicator widgets) "Close" then y = close
     else exists s, (chart.1.2, s) ∈ cols /\ y = pd.align (pd.nrows src) s)
    /\ run.1 = Ok tt
    /\ new_events w run.2
       = [Shown (st.header "📊 Technical Indicators");
          Shown (st.plotly_chart
                   (st.Figure chart.1.1 [st.Line chart.1.2 dates y chart.2]))]
    /\ heap run.2 = <[r := add_columns src cols]> (heap w) ++ [add_columns src cols].
Proof.
  intros Hr Hdistinct Hclose Hdate Hroom Hcols Hboll run chart.
  assert (r < length (heap w)) as Hlt by by eapply lookup_lt_Some.
  assert (run = tech_indicators widgets r w) as Hrun by done. clearbody run.
  rewrite (tech_indicators_plot widgets r w src close cols Hr Hclose Hcols) in Hrun.
  cbv zeta in Hrun. rewrite Hboll in Hrun.
  destruct (indicator_columns_ok _ _ Hcols)
    as (hband & lband & m & rs & sma & ema & _ & _ & _ & _ & _ & _ & ->).
  pose proof (added_columns_lookup src hband lband m rs sma ema
                (getitem_nonempty _ _ _ Hclose)) as Hlookup.
  cbv zeta in Hlookup.
  destruct Hlookup as (Hn & H1 & H2 & H3 & H4 & H5 & H6 & Hother).
  pose proof (index_label_add_columns src hband lband m rs sma ema
                (getitem_nonempty _ _ _ Hclose)) as Hlabel.
  set (cols := [("bb_high", hband); _; _; _; _; _]) in *.
  assert (exists label, index_label (add_columns src cols) = Some label
                        /\ (label = "index" \/ label = "level_0"))
    as (label & Hlabel' & Hcase).
  { rewrite Hlabel. unfold index_label.
    destruct (pd.has_column "index" src); cbn [negb]; [|by eexists; split; [|left]].
    destruct (pd.has_column "level_0" src); [done|]. by eexists; split; [|right]. }
  set (w1 := set_heap _ _) in Hrun.
  assert (frame_at w1 r = Some (add_columns src cols)) as Hr1.
  { unfold w1, frame_at. cbn. by apply list_lookup_insert_eq. }
  assert (pd.getitem "Date" (add_columns src cols) = Some dates) as Hdate1.
  { rewrite Hother; [done|]. intros Hin.
    repeat (apply elem_of_cons in Hin as [[=]|Hin]). by apply elem_of_nil in Hin. }
  assert (pd.getitem "Close" (add_columns src cols) = Some close) as Hclose1.
  { rewrite Hother; [done|]. intros Hin.
    repeat (apply elem_of_cons in Hin as [[=]|Hin]). by apply elem_of_nil in Hin. }
  subst chart. unfold chart_of.
  destruct (String.eqb (st.indicator widgets) "Close");
    [|destruct (String.eqb (st.indicator widgets) "MACD");
      [|destruct (String.eqb (st.indicator widgets) "RSI");
        [|destruct (String.eqb (st.indicator widgets) "SMA")]]].
  all: erewrite (plot_chart_run r _ _ _ w1 (add_columns src cols) label) in Hrun;
    [|done|done|by destruct Hcase as [-> | ->]|done|eassumption].
  all: subst run; cbn [fst snd].
  all: eexists; split; [|split; [done|split; [|done]]].
  all: try (apply new_events_app; cbn; by rewrite <- app_assoc).
  - done.
  - eexists. split; [|done]. apply list_elem_of_In; cbn; tauto.
  - eexists. split; [|done]. apply list_elem_of_In; cbn; tauto.
  - eexists. split; [|done]. apply list_elem_of_In; cbn; tauto.
  - eexists. split; [|done]. apply list_elem_of_In; cbn; tauto.
Qed.

(** X10. On a frame with distinct column labels, one of them Close,
    and with no failing indicator call, the selection Bollinger Bands
    gives a chart drawn from the frame itself, not from a copy, and
    against the row numbers 0..n-1, not the dates: three lines, the
    Close column and the two stored (aligned) bands, the bands dotted.
    No Date column is needed. *)
Theorem bollinger_chart_is_drawn_against_row_numbers widgets r w src close cols :
  frame_at w r = Some src ->
  pd.distinct_labels src = true ->
  pd.getitem "Close" src = Some close ->
  indicator_columns (squeeze close) = Ok cols ->
  st.indicator widgets = "Bollinger Bands" ->
  let run := tech_indicators widgets r w in
  let n := pd.nrows src in
  let x := Int <$> py.range 0 n in
  exists hband lband,
    bollinger_hband (squeeze close) = Ok hband
    /\ bollinger_lband (squeeze close) = Ok lband
    /\ run.1 = Ok tt
    /\ new_events w run.2
       = [Shown (st.header "📊 Technical Indicators");
          Shown (st.plotly_chart
                   (st.Figure "" [st.Line "Close Price" x close "";
                                  st.Line "Upper Band" x (pd.align n hband) "dot";
                                  st.Line "Lower Band" x (pd.align n lband) "dot"]))]
    /\ heap run.2 = <[r := add_columns src cols]> (heap w).
Proof.
  intros Hr Hdistinct Hclose Hcols Hboll run n x.
  assert (r < length (heap w)) as Hlt by by eapply lookup_lt_Some.
  assert (run = tech_indicators widgets r w) as Hrun by done. clearbody run.
  rewrite (tech_indicators_plot widgets r w src close cols Hr Hclose Hcols) in Hrun.
  cbv zeta in Hrun. rewrite Hboll in Hrun.
  change (String.eqb "Bollinger Bands" "Close") with false in Hrun.
  change (String.eqb "Bollinger Bands" "Bollinger Bands") with true in Hrun.
  cbv iota in Hrun.
  destruct (indicator_columns_ok _ _ Hcols)
    as (hband & lband & m & rs & sma & ema & Hhi & Hlo & _ & _ & _ & _ & ->).
  pose proof (added_columns_lookup src hband lband m rs sma ema
                (getitem_nonempty _ _ _ Hclose)) as Hlookup.
  cbv zeta in Hlookup.
  destruct Hlookup as (Hn & H1 & H2 & H3 & H4 & H5 & H6 & Hother).
  set (cols := [("bb_high", hband); _; _; _; _; _]) in *.
  set (w1 := set_heap _ _) in Hrun.
  assert (frame_at w1 r = Some (add_columns src cols)) as Hr1.
  { unfold w1, frame_at. cbn. by apply list_lookup_insert_eq. }
  assert (pd.getitem "Close" (add_columns src cols) = Some close) as Hclose1.
  { rewrite Hother; [done|]. intros Hin.
    repeat (apply elem_of_cons in Hin as [[=]|Hin]). by apply elem_of_nil in Hin. }
  rewrite (bind_deref r (add_columns src cols)) in Hrun by done.
  unfold bollinger_figure in Hrun.
  rewrite Hclose1, H1, H2, Hn in Hrun.
  exists hband, lband. subst run. cbn.
  split; [done|]. split; [done|]. split; [done|]. split; [|done].
  apply new_events_app. cbn. by rewrite <- app_assoc.
Qed.

(** X11. The six assignments are not undone when one of the calls
    raises: after the indicator view on a frame with distinct column
    labels, one of them Close, whether it drew a chart or reported an
    error, the frame object holds the series of exactly the calls that
    returned before the first one that raised, and its labels are still
    distinct. *)
Theorem indicator_columns_stay_up_to_the_first_error widgets r w src close :
  frame_at w r = Some src ->
  pd.distinct_labels src = true ->
  pd.getitem "Close" src = Some close ->
  let stored := add_columns src (returned (indicator_calls (squeeze close))) in
  frame_at (tech_indicators widgets r w).2 r = Some stored
  /\ pd.distinct_labels stored = true.
Proof.
  intros Hr Hdistinct Hclose stored.
  split; [|by apply distinct_add_columns]. subst stored.
  assert (r < length (heap w)) as Hlt by by eapply lookup_lt_Some.
  unfold tech_indicators. unfold bind at 1. cbn [show emit].
  set (w0 := set_trace _ w).
  rewrite (bind_deref r src) by done.
  rewrite (has_column_getitem "Close" src close Hclose). cbn [negb].
  unfold bind at 1. unfold try_except. unfold bind at 1.
  destruct (compute_indicators_stores_cases r w0 src close _ Hr Hclose eq_refl)
    as [res Hcomp].
  rewrite Hcomp.
  destruct res as [[]|[msg]]; cbn [ret negb].
  - match goal with
    | |- frame_at (?m ?w1).2 r = _ =>
        pose proof (frames_plotting None widgets r w1) as (_ & _ & _ & Hframe)
    end.
    cbv zeta in Hframe. cbv zeta.
    rewrite Hframe; [|done|cbn; by rewrite length_insert].
    by apply frame_at_stored.
  - unfold bind, show, emit, ret. cbn.
    unfold frame_at. cbn. by apply list_lookup_insert_eq.
Qed.

(** X12. plot_chart works on a copy: on a frame with distinct column
    labels (of ASCII text) the copy is the one new frame object, and no
    existing object and no cache entry changes. reset_index labels the
    index column index, or level_0 when the frame has an index column,
    and raises when it has both. A y column that is neither a column of
    the frame nor that index column is reported, with the labels that
    are there, and nothing is raised; a frame without a Date column
    makes the call raise before anything is shown; otherwise one chart
    of the column against Date is shown. *)
Theorem plot_chart_works_on_a_copy r title y_column color w df :
  frame_at w r = Some df ->
  pd.distinct_labels df = true ->
  forallb py.is_ascii (pd.columns df) = true ->
  let run := plot_chart r title y_column color w in
  heap run.2 = heap w ++ [df]
  /\ cache run.2 = cache w
  /\ match index_label df with
     | None => raised run.1 = true /\ new_events w run.2 = []
     | Some label =>
         let copy := (label, Int <$> py.range 0 (pd.nrows df)) :: df in
         pd.has_column label df = false
         /\ (label = "index" \/ label = "level_0")
         /\ match pd.getitem y_column copy, pd.getitem "Date" df with
            | None, _ =>
                run.1 = Ok tt
                /\ new_events w run.2
                   = [Shown (st.error ("⚠️ Column '" +:+ y_column
                                       +:+ "' not found in DataFrame. Available columns: "
                                       +:+ py.repr_list (label :: pd.columns df)))]
            | Some y, None => raised run.1 = true /\ new_events w run.2 = []
            | Some y, Some x =>
                run.1 = Ok tt
                /\ new_events w run.2
                   = [Shown (st.plotly_chart (st.Figure title [st.Line y_column x y color]))]
            end
     end.
Proof.
  intros Hr Hdistinct Hascii run.
  assert (run = plot_chart r title y_column color w) as Hrun by done. clearbody run.
  unfold plot_chart in Hrun.
  rewrite (bind_deref r df) in Hrun by done.
  unfold bind at 1 in Hrun. cbn [new] in Hrun.
  rewrite (bind_deref (length (heap w)) df) in Hrun by apply frame_at_new.
  unfold with_index_column in Hrun.
  destruct (index_label df) as [label|] eqn:Hlabel.
  2:{ subst run. cbn. repeat split. apply new_events_app. cbn. by rewrite app_nil_r. }
  destruct (index_label_cases df label Hlabel) as [Hfresh Hcase].
  unfold bind at 1, lift in Hrun. cbv zeta.
  set (copy := (label, Int <$> py.range 0 (pd.nrows df)) :: df) in *.
  assert (pd.getitem "Date" copy = pd.getitem "Date" df) as HDate.
  { unfold copy. cbn [pd.getitem]. by destruct Hcase as [-> | ->]. }
  rewrite HDate in Hrun.
  destruct (pd.getitem y_column copy) as [y|] eqn:Hy.
  - rewrite (has_column_getitem _ _ _ Hy) in Hrun. cbn [negb] in Hrun.
    destruct (pd.getitem "Date" df) as [x|]; subst run; cbn.
    + repeat split; try done. by apply new_events_app.
    + repeat split; try done. apply new_events_app. cbn. by rewrite app_nil_r.
  - destruct (pd.has_column y_column copy) eqn:Hhas.
    { apply getitem_has_column in Hhas as [? Hsome]. by rewrite Hy in Hsome. }
    subst run. cbn. repeat split; try done.
    by apply new_events_app.
Qed.


End indicators_more.

(** * More about the labels and the frame of a load *)

Section loaded_frames.

Context {source : YFinance} {ta : TA} {sk : Sklearn}.

Lemma append_cons c s t : String c s +:+ t = String c (s +:+ t).
Proof. done. Qed.

Lemma append_nil t : "" +:+ t = t.
Proof. done. Qed.

Lemma lstrip_app f rest :
  py.lstrip (f +:+ String "_" rest) = py.lstrip f +:+ String "_" rest.
Proof.
  induction f as [|c f IH]; [done|].
  rewrite append_cons. cbn [py.lstrip]. by destruct (py.is_space c).
Qed.

Lemma rstrip_app g t :
  py.rstrip (g +:+ String "_" t) = g +:+ String "_" (py.rstrip t).
Proof.
  induction g as [|c g IH].
  - rewrite !append_nil. cbn [py.rstrip].
    change (py.is_space "_") with false. by destruct (py.rstrip t).
  - rewrite !append_cons. cbn [py.rstrip]. rewrite IH. by destruct g.
Qed.

Lemma split_app_head sep p rest :
  py.contains sep p = false ->
  head (py.split sep (p +:+ String sep rest)) = Some p.
Proof.
  induction p as [|a p IH]; rewrite ?append_nil, ?append_cons; cbn [py.split py.contains].
  - by rewrite Ascii.eqb_refl.
  - intros [Ha Hp]%orb_false_elim. rewrite Ha.
    specialize (IH Hp).
    destruct (py.split sep (p +:+ String sep rest)) as [|q qs]; [done|].
    cbn in IH. by injection IH as ->.
Qed.

Lemma contains_app sep p rest : py.contains sep (p +:+ String sep rest) = true.
Proof.
  induction p as [|a p IH]; rewrite ?append_nil, ?append_cons; cbn [py.contains].
  - by rewrite Ascii.eqb_refl.
  - rewrite IH. apply orb_true_r.
Qed.

Lemma contains_lstrip c f : py.contains c f = false -> py.contains c (py.lstrip f) = false.
Proof.
  induction f as [|a f IH]; [done|].
  cbn [py.lstrip]. destruct (py.is_space a); [|done].
  cbn [py.contains]. intros [_ Hf]%orb_false_elim. by apply IH.
Qed.

Lemma rename_joined field rest :
  py.contains "_" field = false ->
  rename_column (py.strip (field +:+ String "_" rest)) = py.lstrip field.
Proof.
  intros Hfield. unfold rename_column, py.strip.
  rewrite lstrip_app, rstrip_app, contains_app.
  by rewrite split_app_head by by apply contains_lstrip.
Qed.

Lemma join_cons field l ls :
  py.join "_" (field :: l :: ls) = field +:+ String "_" (py.join "_" (l :: ls)).
Proof. done. Qed.

(** The label the index column gets, whatever the depth of the header. *)
Lemma index_column_label name depth :
  py.contains "_" name = false ->
  py.lstrip name = name ->
  py.rstrip name = name ->
  rename_column (py.strip (py.join "_" (name :: replicate depth ""))) = name.
Proof.
  intros Hplain Hl Hr. destruct depth as [|depth].
  - cbn [replicate py.join]. unfold py.strip, rename_column.
    by rewrite Hl, Hr, Hplain.
  - cbn [replicate]. rewrite join_cons, rename_joined by done. done.
Qed.

(** X14. Under a hierarchical header, the label of a column whose first
    level contains no underscore is that first level (less leading
    blanks): every further level - the ticker - is dropped, whatever it
    is. So the labels do not depend on the ticker, and columns of two
    tickers with the same field get the same label. *)
Theorem ticker_level_is_dropped (labels : list (list string)) :
  forallb plain_field labels = true ->
  normalize_columns (yf.MultiIndex labels)
  = (fun levels => py.lstrip (default "" (head levels))) <$> labels.
Proof.
  unfold normalize_columns, flatten_columns. rewrite <- list_fmap_compose.
  induction labels as [|levels labels IH]; [done|].
  cbn [forallb]. intros [Hlevels Hlabels]%andb_prop.
  cbn [fmap list_fmap]. f_equal; [|by apply IH].
  destruct levels as [|field [|l ls]]; [done..|].
  cbn [plain_field] in Hlevels. apply negb_true_iff in Hlevels.
  cbn [compose head default]. by rewrite join_cons, rename_joined.
Qed.

(** What reset_index and the normalization make of an answer whose
    columns do not carry the label of the index column. *)
Lemma reset_index_frame (df : yf.Frame) :
  index_clash df = false ->
  py.contains "_" (yf.index_name df) = false ->
  py.lstrip (yf.index_name df) = yf.index_name df ->
  py.rstrip (yf.index_name df) = yf.index_name df ->
  exists cols data,
    reset_index df = Ok (cols, data)
    /\ zip (normalize_columns cols) data = loaded_frame df.
Proof.
  intros Hclash Hplain Hl Hr.
  unfold reset_index, loaded_frame, index_key. rewrite Hclash.
  unfold normalize_columns, flatten_columns.
  destruct (yf.columns df) as [labels|labels]; eexists _, _; (split; [reflexivity|]);
    cbn [fst snd fmap list_fmap zip zip_with].
  - f_equal. f_equal. unfold rename_column. by rewrite Hplain.
  - f_equal. f_equal. by apply index_column_label.
Qed.

(** X15. A load that misses the cache and gets a non-empty answer none
    of whose columns carries the label the index column is to get
    returns a frame whose first column is the index of the answer, as
    timestamps, under the name of the index (a name without underscore
    and without blanks around it, such as Date), followed by the data
    columns under their normalized labels; this holds under a flat and
    under a hierarchical header of any depth. *)
Theorem loaded_frame_starts_with_the_index_column (k : Key) (w : World) (df : yf.Frame) :
  cache w !! k = None ->
  download k (length (downloads w)) = Ok df ->
  yf.empty df = false ->
  index_clash df = false ->
  py.contains "_" (yf.index_name df) = false ->
  py.lstrip (yf.index_name df) = yf.index_name df ->
  py.rstrip (yf.index_name df) = yf.index_name df ->
  let run := download_data k w in
  exists r,
    run.1 = Ok (Some r)
    /\ frame_at run.2 r = Some (loaded_frame df)
    /\ pd.getitem (yf.index_name df) (loaded_frame df) = Some (Stamp <$> yf.index df)
    /\ pd.nrows (loaded_frame df) = length (yf.index df).
Proof.
  intros Hk Hanswer Hempty Hclash Hplain Hl Hr run.
  assert (run = download_data k w) as Hrun by done. clearbody run.
  unfold download_data, cache_data in Hrun. rewrite Hk in Hrun.
  rewrite download_data_body_run in Hrun. cbv zeta in Hrun.
  rewrite Hanswer, Hempty in Hrun.
  destruct (reset_index_frame df Hclash Hplain Hl Hr) as (cols & data & Hreset & Hframe).
  rewrite Hreset, Hframe in Hrun.
  exists (length (heap w)). subst run. cbn [fst snd].
  split; [done|]. split; [apply frame_at_new|]. split.
  - unfold loaded_frame. cbn [pd.getitem]. by rewrite String.eqb_refl.
  - unfold loaded_frame. cbn. by rewrite length_fmap.
Qed.

End loaded_frames.

(** * Which script runs fit a model *)

Section dispatch.

Context {source : YFinance} {ta : TA} {sk : Sklearn}.

Lemma no_fit_elem evs e :
  forallb no_fit evs = true -> e ∈ evs -> is_fit e = true -> False.
Proof.
  intros Hq Hin%list_elem_of_In Hfit.
  pose proof (proj1 (forallb_forall _ _) Hq _ Hin) as Hno.
  unfold no_fit in Hno. by rewrite Hfit in Hno.
Qed.

Lemma no_fit_shown els : forallb no_fit (Shown <$> els) = true.
Proof. by induction els. Qed.

Lemma no_fit_tech_indicators widgets r :
  frames (Some r) no_fit (tech_indicators widgets r).
Proof. unfold tech_indicators. frames_tac. Qed.

Lemma no_fit_dataframe r : frames None no_fit (dataframe r).
Proof. unfold dataframe. frames_tac. Qed.

(** The loader displays and downloads; it fits nothing. *)
Lemma download_data_trace k w :
  exists evs, trace (download_data k w).2 = trace w ++ evs /\ forallb no_fit evs = true.
Proof.
  destruct (cache w !! k) as [entry|] eqn:Hk.
  - rewrite (download_data_hit k w entry Hk). cbv zeta.
    exists (Shown <$> cached_elements entry). split; [|apply no_fit_shown].
    by destruct (cached_value entry).
  - unfold download_data, cache_data. rewrite Hk.
    rewrite download_data_body_run. cbv zeta.
    destruct (download k (length (downloads w))) as [df|[msg]].
    + destruct (yf.empty df); cbn.
      * eexists [_; _]. split; [by rewrite <- app_assoc|done].
      * destruct (reset_index df) as [[cols data]|[msg]]; cbn.
        -- by eexists [_].
        -- eexists [_; _]. split; [by rewrite <- app_assoc|done].
    + cbn. eexists [_; _]. split; [by rewrite <- app_assoc|done].
Qed.

Lemma predict_fit_needs_button widgets r w e :
  e ∈ new_events w (predict widgets r w).2 ->
  is_fit e = true ->
  st.predict_button widgets = true
  /\ is_Some (model_dict !! st.model_choice widgets).
Proof.
  unfold predict, bind at 1. cbn [show emit].
  set (w1 := set_trace _ w).
  assert (new_events w w1 = [Shown (st.header "🔮 Price Prediction")]) as Hnew.
  { by apply new_events_app. }
  destruct (st.predict_button widgets).
  2:{ cbn [ret snd]. rewrite Hnew. intros ->%list_elem_of_singleton. discriminate. }
  unfold bind.
  destruct (model_dict !! st.model_choice widgets) as [model|]; cbn [or_raise ret raise].
  2:{ cbn [snd]. rewrite Hnew. intros ->%list_elem_of_singleton. discriminate. }
  intros _ _. split; [done|by eexists].
Qed.

(** X16. A scaler or a model is fitted only in a script run in which
    the Load Data button and the Predict button both read as pressed,
    the dates are in order, the sidebar selection is neither Visualize
    nor Recent Data and the model menu's entry is one the model table
    knows. A run in which only the Predict button reads as pressed fits
    nothing. *)
Theorem fitting_needs_both_buttons_in_one_run (widgets : st.Widgets) (w : World) (e : event) :
  e ∈ new_events w (main widgets w).2 ->
  is_fit e = true ->
  st.load_data widgets = true
  /\ date_lt (st.start_date widgets) (st.end_date widgets) = true
  /\ st.predict_button widgets = true
  /\ String.eqb (st.option widgets) "Visualize" = false
  /\ String.eqb (st.option widgets) "Recent Data" = false
  /\ is_Some (model_dict !! st.model_choice widgets).
Proof.
  intros Hin Hfit.
  destruct (st.load_data widgets) eqn:Hload.
  2:{ unfold main in Hin. rewrite Hload in Hin. cbn [ret snd] in Hin.
      rewrite (new_events_app w w []) in Hin by by rewrite app_nil_r.
      by apply elem_of_nil in Hin. }
  destruct (date_lt (st.start_date widgets) (st.end_date widgets)) eqn:Hdates.
  2:{ unfold main in Hin. rewrite Hload, Hdates in Hin. cbn [show emit snd] in Hin.
      rewrite (new_events_app w _ [_]) in Hin by done.
      apply list_elem_of_singleton in Hin as ->. discriminate. }
  rewrite main_run in Hin by done.
  set (w1 := set_trace _ w) in Hin.
  destruct (download_data_trace (request_key widgets) w1) as (evs1 & Ht1 & Hq1).
  assert (forall w3 evs, trace w3 = trace (download_data (request_key widgets) w1).2 ++ evs ->
            new_events w w3
            = Shown (st.sidebar_success (st.start_date widgets) (st.end_date widgets))
                :: evs1 ++ evs) as Hnew.
  { intros w3 evs Ht. apply new_events_app. rewrite Ht, Ht1. unfold w1. cbn.
    by rewrite <- !app_assoc. }
  assert (forall evs,
            e ∈ Shown (st.sidebar_success (st.start_date widgets) (st.end_date widgets))
                  :: evs1 ++ evs -> e ∈ evs) as Hlate.
  { intros evs [->|[Hin1|Hin2]%elem_of_app]%elem_of_cons; [discriminate| |done].
    destruct (no_fit_elem evs1 e Hq1 Hin1 Hfit). }
  unfold bind in Hin.
  destruct (download_data (request_key widgets) w1) as [[[df|]|ex] w2]; cbn [snd] in *.
  - destruct (String.eqb (st.option widgets) "Visualize").
    { destruct (no_fit_tech_indicators widgets df w2) as (_ & (evs & Ht & Hq) & _).
      rewrite (Hnew _ evs Ht) in Hin.
      destruct (no_fit_elem evs e Hq (Hlate _ Hin) Hfit). }
    destruct (String.eqb (st.option widgets) "Recent Data").
    { destruct (no_fit_dataframe df w2) as (_ & (evs & Ht & Hq) & _).
      rewrite (Hnew _ evs Ht) in Hin.
      destruct (no_fit_elem evs e Hq (Hlate _ Hin) Hfit). }
    destruct (frames_predict widgets df w2) as (_ & (evs & Ht & _) & _).
    rewrite (Hnew _ evs Ht) in Hin. apply Hlate in Hin.
    rewrite <- (new_events_app w2 _ evs Ht) in Hin.
    destruct (predict_fit_needs_button widgets df w2 e Hin Hfit) as [Hbutton Hmodel].
    done.
  - cbn [ret snd] in Hin. rewrite (Hnew w2 []) in Hin by by rewrite app_nil_r.
    by apply Hlate, elem_of_nil in Hin.
  - rewrite (Hnew w2 []) in Hin by by rewrite app_nil_r.
    by apply Hlate, elem_of_nil in Hin.
Qed.

End dispatch.

(** * Runs on the reference session *)

Section further_runs.

Import reference examples.

Lemma each_key_is_downloaded_at_most_once_witness :
  fetched_once (session [load "Visualize" "AAPL"; load "Predict" "aapl";
                         load "Recent Data" "DOWN"; load "Visualize" "down"]
                        empty_world).
Proof.
  apply (each_key_is_downloaded_at_most_once _ empty_world).
  split; [apply NoDup_nil_2|].
  intros k. split.
  - intros Hin. by apply elem_of_nil in Hin.
  - intros [entry Hentry]. unfold empty_world in Hentry. cbn [cache] in Hentry.
    by rewrite lookup_empty in Hentry.
Defined.

Lemma symbol_case_does_not_refetch_witness :
  let w1 := (main (load "Visualize" "AAPL") empty_world).2 in
  downloads (main (load "Predict" "aapl") w1).2 = downloads w1
  /\ cache (main (load "Predict" "aapl") w1).2 = cache w1.
Proof.
  apply (symbol_case_does_not_refetch
           (load "Visualize" "AAPL") (load "Predict" "aapl") empty_world);
    reflexivity.
Defined.

Lemma failed_load_renders_nothing_witness :
  let widgets := load "Visualize" "down" in
  let run := main widgets empty_world in
  run.1 = Ok tt
  /\ new_events empty_world run.2
     = [Shown (st.sidebar_success (Date 2024 1 1) (Date 2024 2 1));
        Download ("DOWN", Date 2024 1 1, Date 2024 2 1);
        Shown (st.error "❌ Error downloading data: connection refused")]
  /\ heap run.2 = heap empty_world.
Proof.
  apply (failed_load_renders_nothing (load "Visualize" "down") empty_world
           "❌ Error downloading data: connection refused"); reflexivity.
Defined.

Lemma loader_returns_a_new_frame_object_witness :
  frame_at empty_world 0 = None
  /\ is_Some (frame_at (download_data january empty_world).2 0)
  /\ forall r', r' < length (heap empty_world) ->
       frame_at (download_data january empty_world).2 r' = frame_at empty_world r'.
Proof.
  apply (loader_returns_a_new_frame_object january empty_world 0).
  vm_compute. reflexivity.
Defined.

Lemma predict_fits_the_selected_model_only_witness :
  st.predict_button (load "Predict" "AAPL") = true
  /\ model_dict !! st.model_choice (load "Predict" "AAPL") = Some LinearRegression.
Proof.
  assert (exists X y,
            ModelFit LinearRegression X y
            ∈ new_events (world_with [("Close", six_closes)])
                (predict (load "Predict" "AAPL") 0 (world_with [("Close", six_closes)])).2)
    as (X & y & Hin).
  { vm_compute. do 2 eexists. apply list_elem_of_In.
    repeat (first [left; reflexivity | right]). }
  exact (predict_fits_the_selected_model_only
           (load "Predict" "AAPL") 0 (world_with [("Close", six_closes)])
           LinearRegression X y Hin).
Defined.

Lemma completed_prediction_trace_witness :
  let w := world_with [("Close", six_closes)] in
  let run := train_and_predict LinearRegression 0 2 w in
  let rows := kept_rows six_closes (pd.shift_up 2 six_closes) in
  let features := (fun row => [row.1]) <$> rows in
  exists X X_train X_test y_train r2 mae future preds,
    new_events w run.2
    = [ScalerFit features;
       Split X rows.*2 0.2%float 42;
       ModelFit LinearRegression X_train y_train;
       Predict X_test;
       Shown (st.subheader "📊 Model Performance");
       Shown (st.write "R² Score:" r2);
       Shown (st.write "Mean Absolute Error:" mae);
       Shown (st.subheader "📈 Future Predictions");
       Predict future;
       Shown (st.dataframe
                [("Day", (fun i => Int (Z.of_nat i)) <$> seq 1 2);
                 ("Predicted Price", Num <$> preds)])].
Proof.
  assert ((train_and_predict LinearRegression 0 2 (world_with [("Close", six_closes)])).1
          = Ok tt) as Hrun by (vm_compute; reflexivity).
  destruct (completed_prediction_trace
              LinearRegression 0 2 (world_with [("Close", six_closes)])
              [("Close", six_closes)] six_closes eq_refl eq_refl eq_refl
              (le_S 1 1 (le_n 1)) Hrun)
    as (sc & X & Xtr & Xte & ytr & yte & fm & g & tp & r2 & mae & fut & preds
        & _ & _ & _ & _ & _ & _ & _ & _ & _ & Hevents & _).
  by exists X, Xtr, Xte, ytr, r2, mae, fut, preds.
Defined.

Lemma views_without_close_column_witness :
  let w := world_with dates_only in
  tech_indicators (select "RSI") 0 w
  = (Ok tt,
     set_trace (trace w ++ [Shown (st.header "📊 Technical Indicators");
                            Shown (st.error "⚠️ Data does not contain 'Close' prices.")]) w)
  /\ exists e, train_and_predict LinearRegression 0 2 w = (Raise e, w).
Proof.
  apply (views_without_close_column
           (select "RSI") LinearRegression 2 0 (world_with dates_only) dates_only);
    reflexivity.
Defined.

Lemma indicator_view_stores_aligned_series_witness :
  let cols := [("bb_high", [NaN; NaN; NaN]); ("bb_low", [NaN; NaN; NaN]);
               ("macd", [NaN; NaN; NaN]); ("rsi", [NaN; NaN; NaN]);
               ("sma", [NaN; NaN; NaN]); ("ema", [NaN; NaN; NaN])] in
  exists df,
    frame_at (tech_indicators (select "RSI") 0 (world_with three_days)).2 0 = Some df
    /\ pd.nrows df = pd.nrows three_days
    /\ pd.distinct_labels df = true
    /\ cols.*1 = ["bb_high"; "bb_low"; "macd"; "rsi"; "sma"; "ema"]
    /\ (forall label s, (label, s) ∈ cols ->
          pd.getitem label df = Some (pd.align (pd.nrows three_days) s))
    /\ (forall label, label ∉ cols.*1 -> pd.getitem label df = pd.getitem label three_days).
Proof.
  apply (indicator_view_stores_aligned_series
           (select "RSI") 0 (world_with three_days) three_days [Num 10; Num 11; Num 12]).
  - reflexivity.
  - reflexivity.
  - reflexivity.
  - vm_compute. reflexivity.
Defined.

Lemma selected_indicator_is_charted_against_dates_witness :
  let w := world_with three_days in
  let run := tech_indicators (select "RSI") 0 w in
  exists y,
    y = pd.align 3 [NaN; NaN; NaN]
    /\ run.1 = Ok tt
    /\ new_events w run.2
       = [Shown (st.header "📊 Technical Indicators");
          Shown (st.plotly_chart
                   (st.Figure "RSI (Relative Strength Index)"
                      [st.Line "rsi" (Stamp <$> (day_of <$> seq 0 3)) y "purple"]))].
Proof.
  assert (indicator_columns (squeeze [Num 10; Num 11; Num 12])
          = Ok [("bb_high", [NaN; NaN; NaN]); ("bb_low", [NaN; NaN; NaN]);
                ("macd", [NaN; NaN; NaN]); ("rsi", [NaN; NaN; NaN]);
                ("sma", [NaN; NaN; NaN]); ("ema", [NaN; NaN; NaN])]) as Hcols
    by (vm_compute; reflexivity).
  destruct (selected_indicator_is_charted_against_dates
              (select "RSI") 0 (world_with three_days) three_days
              [Num 10; Num 11; Num 12] (Stamp <$> (day_of <$> seq 0 3)) _
              eq_refl eq_refl eq_refl eq_refl eq_refl Hcols eq_refl)
    as (y & Hy & Hres & Hevents & _).
  exists y. split; [|by split].
  cbn in Hy. destruct Hy as (s & Hin & ->).
  apply list_elem_of_In in Hin. cbn in Hin.
  repeat (destruct Hin as [[=]|Hin]; subst; try done).
Defined.

Lemma bollinger_chart_is_drawn_against_row_numbers_witness :
  let w := world_with three_days in
  let run := tech_indicators (select "Bollinger Bands") 0 w in
  let x := [Int 0; Int 1; Int 2] in
  run.1 = Ok tt
  /\ new_events w run.2
     = [Shown (st.header "📊 Technical Indicators");
        Shown (st.plotly_chart
                 (st.Figure "" [st.Line "Close Price" x [Num 10; Num 11; Num 12] "";
                                st.Line "Upper Band" x [NaN; NaN; NaN] "dot";
                                st.Line "Lower Band" x [NaN; NaN; NaN] "dot"]))].
Proof.
  assert (indicator_columns (squeeze [Num 10; Num 11; Num 12])
          = Ok [("bb_high", [NaN; NaN; NaN]); ("bb_low", [NaN; NaN; NaN]);
                ("macd", [NaN; NaN; NaN]); ("rsi", [NaN; NaN; NaN]);
                ("sma", [NaN; NaN; NaN]); ("ema", [NaN; NaN; NaN])]) as Hcols
    by (vm_compute; reflexivity).
  destruct (bollinger_chart_is_drawn_against_row_numbers
              (select "Bollinger Bands") 0 (world_with three_days) three_days
              [Num 10; Num 11; Num 12] _ eq_refl eq_refl eq_refl Hcols eq_refl)
    as (hband & lband & Hhi & Hlo & Hres & Hevents & _).
  split; [exact Hres|].
  vm_compute in Hhi. vm_compute in Hlo.
  injection Hhi as <-. injection Hlo as <-. exact Hevents.
Defined.

Lemma indicator_columns_stay_up_to_the_first_error_witness :
  let stored := [("Date", Stamp <$> (day_of <$> seq 0 3));
                 ("Close", [Num 10; Num 11; Num 12]);
                 ("bb_high", [Num 12; Num 13; NaN]);
                 ("bb_low", [Num 8; Num 9; Num 10])] in
  frame_at (@tech_indicators macd_unavailable (select "RSI") 0 (world_with three_days)).2 0
  = Some stored
  /\ pd.distinct_labels stored = true.
Proof.
  exact (@indicator_columns_stay_up_to_the_first_error macd_unavailable
           (select "RSI") 0 (world_with three_days) three_days
           [Num 10; Num 11; Num 12] eq_refl eq_refl eq_refl).
Defined.

Lemma plot_chart_works_on_a_copy_witness :
  let w := world_with indexed_days in
  let run := plot_chart 0 "Volume" "Volume" "blue" w in
  heap run.2 = [indexed_days; indexed_days]
  /\ cache run.2 = cache w
  /\ index_label indexed_days = Some "level_0"
  /\ run.1 = Ok tt
  /\ new_events w run.2
     = [Shown (st.error ("⚠️ Column 'Volume' not found in DataFrame. "
                         +:+ "Available columns: ['level_0', 'index', 'Date', 'Close']"))].
Proof.
  pose proof (plot_chart_works_on_a_copy 0 "Volume" "Volume" "blue"
                (world_with indexed_days) indexed_days eq_refl eq_refl eq_refl) as H.
  cbv zeta in H. destruct H as (Hheap & Hcache & Hrest).
  change (index_label indexed_days) with (Some "level_0") in Hrest.
  destruct Hrest as (_ & _ & Hrest).
  change (pd.getitem "Volume" _) with (@None Series) in Hrest.
  destruct Hrest as [Hres Hevents].
  repeat split; try done.
Defined.


Lemma ticker_level_is_dropped_witness :
  normalize_columns
    (yf.MultiIndex [["Date"; ""]; ["Close"; "AAPL"]; ["Close"; "MSFT"]; [" Open"; "AAPL"; "x_y"]])
  = ["Date"; "Close"; "Close"; "Open"].
Proof.
  exact (ticker_level_is_dropped
           [["Date"; ""]; ["Close"; "AAPL"]; ["Close"; "MSFT"]; [" Open"; "AAPL"; "x_y"]]
           eq_refl).
Defined.

Lemma loaded_frame_starts_with_the_index_column_witness :
  let run := download_data january empty_world in
  exists r,
    run.1 = Ok (Some r)
    /\ frame_at run.2 r = Some (loaded_frame aapl_answer)
    /\ pd.getitem "Date" (loaded_frame aapl_answer) = Some (Stamp <$> (day_of <$> seq 0 8))
    /\ pd.nrows (loaded_frame aapl_answer) = 8.
Proof.
  exact (loaded_frame_starts_with_the_index_column january empty_world aapl_answer
           eq_refl eq_refl eq_refl eq_refl eq_refl eq_refl eq_refl).
Defined.

Lemma fitting_needs_both_buttons_in_one_run_witness :
  let widgets := load "Predict" "AAPL" in
  st.load_data widgets = true
  /\ date_lt (st.start_date widgets) (st.end_date widgets) = true
  /\ st.predict_button widgets = true
  /\ String.eqb (st.option widgets) "Visualize" = false
  /\ String.eqb (st.option widgets) "Recent Data" = false
  /\ is_Some (model_dict !! st.model_choice widgets).
Proof.
  assert (exists e,
            e ∈ new_events empty_world (main (load "Predict" "AAPL") empty_world).2
            /\ is_fit e = true) as (e & Hin & Hfit).
  { vm_compute. eexists. split; [|].
    - apply list_elem_of_In. do 3 right. left. reflexivity.
    - reflexivity. }
  exact (fitting_needs_both_buttons_in_one_run (load "Predict" "AAPL") empty_world e Hin Hfit).
Defined.

End further_runs.
